(** * Six Rivers Africa: the GEE export processor

    A shallow embedding of [src/python/pipeline/gee_export_processor.py]
    (loader, quality validator, deviation calculator, alert classifier and
    the monthly compiler), followed by the properties the specification
    states about it.

    Modelling conventions.
    - A Python/NumPy float is an exact rational or NaN ([Float.t]); rounding
      error and the infinities are outside the model.  Rounding to [n]
      decimals is NumPy's: scale, round half to even, scale back.  The
      values of a deviation record are given a second time in IEEE 754
      binary64 ([Binary64]), for the statements that depend on the values
      the floating-point operations return.
    - A pandas table is its list of column names and its rows; a cell is a
      missing value, a number or a string.  A column has a numeric dtype
      when none of its cells is a string, as [read_csv] infers it.
    - A Python exception is a value of [exn]; a function that can raise
      returns a [result].
    - Python dicts whose order matters ([datasets], the [patterns] of the
      loader) are association lists in insertion order.
    - Sets that the source only prints (missing columns, missing zones) are
      carried as lists in the fixed order of the constant they are
      subtracted from; the order in which a process prints a set is an
      input of the run ([SetOrder], [note_text]).
    - Only WARNING and ERROR log records are kept; INFO records are not. *)

From Stdlib Require Import List String Ascii ZArith QArith Qround Qabs Lia Bool.
From Stdlib Require Import DecimalString.
Import ListNotations.
Local Open Scope string_scope.
Local Open Scope list_scope.

(* ====================================================================== *)
(** ** Exceptions and results *)

(** The exceptions the processor can raise. *)
Inductive exn : Type :=
| MissingColumns (missing : list string)
    (* raise ValueError(f"Missing required columns: {missing}") *)
| IntCastError (col : string)
    (* df[col].astype(int) on a missing or non-numeric value *)
| StrAccessorError
    (* df["indicator"].str.contains(...) on a column with non-string cells *)
| CompareTypeError (col : string).
    (* row[col] > 0 on a string cell *)

Inductive result (A : Type) : Type :=
| Ok (a : A)
| Raise (e : exn).
Arguments Ok {A} a.
Arguments Raise {A} e.

Definition bind {A B : Type} (m : result A) (k : A -> result B) : result B :=
  match m with
  | Ok a => k a
  | Raise e => Raise e
  end.

Notation "x <- m ;; k" := (bind m (fun x => k))
  (at level 61, m at next level, right associativity).

(** [for x in l: acc += f(x)], stopping at the first exception. *)
Fixpoint concat_mapM {A B : Type} (f : A -> result (list B)) (l : list A)
  : result (list B) :=
  match l with
  | [] => Ok []
  | x :: xs => ys <- f x ;; zs <- concat_mapM f xs ;; Ok (ys ++ zs)
  end.

(* ====================================================================== *)
(** ** Floats *)

Module Float.

Inductive t : Type :=
| NaN
| Fin (q : Q).

Definition isnan (x : t) : bool :=
  match x with NaN => true | Fin _ => false end.

Definition sub (x y : t) : t :=
  match x, y with
  | Fin a, Fin b => Fin (a - b)%Q
  | _, _ => NaN
  end.

Definition mul (x y : t) : t :=
  match x, y with
  | Fin a, Fin b => Fin (a * b)%Q
  | _, _ => NaN
  end.

(** The source divides only under the guard [b_val != 0]; a zero divisor
    (an infinity or NaN in NumPy) is therefore never reached, and gives
    NaN here. *)
Definition div (x y : t) : t :=
  match x, y with
  | Fin a, Fin b => if Qeq_bool b 0 then NaN else Fin (a / b)%Q
  | _, _ => NaN
  end.

Definition abs (x : t) : t :=
  match x with
  | Fin a => Fin (Qabs a)
  | NaN => NaN
  end.

(** Comparisons with NaN are false, except [!=], which is true. *)
Definition leb (x y : t) : bool :=
  match x, y with
  | Fin a, Fin b => Qle_bool a b
  | _, _ => false
  end.

Definition gtb (x y : t) : bool :=
  match x, y with
  | Fin a, Fin b => negb (Qle_bool a b)
  | _, _ => false
  end.

Definition neqb (x y : t) : bool :=
  match x, y with
  | Fin a, Fin b => negb (Qeq_bool a b)
  | _, _ => true
  end.

(** Round half to even, to an integer. *)
Definition rint (q : Q) : Z :=
  let f := Qfloor q in
  match Qcompare (q - inject_Z f) (1 # 2) with
  | Lt => f
  | Gt => (f + 1)%Z
  | Eq => if Z.even f then f else (f + 1)%Z
  end.

Definition pow10 (n : nat) : Q := inject_Z (10 ^ Z.of_nat n).

Definition round_q (q : Q) (n : nat) : Q :=
  Qred (inject_Z (rint (q * pow10 n)) / pow10 n)%Q.

(** [round(x, n)] *)
Definition round (x : t) (n : nat) : t :=
  match x with
  | NaN => NaN
  | Fin q => Fin (round_q q n)
  end.

(** [int(x)] of a finite float: truncation towards zero. *)
Definition to_int (q : Q) : Z := Z.quot (Qnum q) (Zpos (Qden q)).

End Float.

(* ====================================================================== *)
(** ** Strings *)

(** [sub in s] *)
Fixpoint contains (sub s : string) : bool :=
  if prefix sub s then true
  else match s with
       | EmptyString => false
       | String _ s' => contains sub s'
       end.

Definition lower_ascii (c : ascii) : ascii :=
  let n := nat_of_ascii c in
  if (65 <=? n)%nat && (n <=? 90)%nat then ascii_of_nat (n + 32) else c.

(** [s.lower()], on the ASCII letters. *)
Fixpoint lower (s : string) : string :=
  match s with
  | EmptyString => EmptyString
  | String c s' => String (lower_ascii c) (lower s')
  end.

(** [f"{z}"] for an integer. *)
Definition str_of_Z (z : Z) : string := NilZero.string_of_int (Z.to_int z).

(** [f"{z:02d}"] *)
Definition fmt_02d (z : Z) : string :=
  let s := str_of_Z z in
  if (String.length s <? 2)%nat then ("0" ++ s)%string else s.

Definition mem (s : string) (l : list string) : bool :=
  existsb (String.eqb s) l.

(* ====================================================================== *)
(** ** Tables *)

Inductive cell : Type :=
| Null
| Num (q : Q)
| Str (s : string).

(** Elementwise [==]: a missing value equals nothing. *)
Definition cell_eqb (a b : cell) : bool :=
  match a, b with
  | Num x, Num y => Qeq_bool x y
  | Str s, Str u => String.eqb s u
  | _, _ => false
  end.

(** Identity of values as [unique()] and [set] see it: missing values are
    one value. *)
Definition cell_same (a b : cell) : bool :=
  match a, b with
  | Null, Null => true
  | _, _ => cell_eqb a b
  end.

Definition isnull (c : cell) : bool :=
  match c with Null => true | _ => false end.

Fixpoint unique_from (seen l : list cell) : list cell :=
  match l with
  | [] => []
  | x :: xs =>
      if existsb (cell_same x) seen then unique_from seen xs
      else x :: unique_from (x :: seen) xs
  end.

(** [series.unique()]: the distinct values in order of first appearance. *)
Definition unique (l : list cell) : list cell := unique_from [] l.

Record DataFrame : Type := {
  columns : list string;
  rows : list (list cell)
}.

(** [row[c]] for a row laid out along [cols]. *)
Fixpoint lookup (cols : list string) (r : list cell) (c : string) : cell :=
  match cols, r with
  | col :: cols', v :: r' => if String.eqb col c then v else lookup cols' r' c
  | _, _ => Null
  end.

(** [df[c]] *)
Definition column (df : DataFrame) (c : string) : list cell :=
  map (fun r => lookup (columns df) r c) (rows df).

(** [df[mask]] for a row-wise mask. *)
Definition select (p : list cell -> bool) (df : DataFrame) : DataFrame :=
  {| columns := columns df; rows := filter p (rows df) |}.

(** [df.empty] (the tables here always have columns). *)
Definition empty (df : DataFrame) : bool :=
  match rows df with [] => true | _ => false end.

Definition is_str (c : cell) : bool :=
  match c with Str _ => true | _ => false end.

(** A column has a numeric dtype when no cell of it is a string. *)
Definition numeric_dtype (df : DataFrame) (c : string) : bool :=
  forallb (fun v => negb (is_str v)) (column df c).

(** The numbers of a series, missing values skipped. *)
Definition numbers (vals : list cell) : list Q :=
  flat_map (fun c => match c with Num q => [q] | _ => [] end) vals.

Definition Qsum (qs : list Q) : Q := fold_right Qplus 0%Q qs.

(** [series.mean()]: the mean of the values present, NaN when there is
    none. *)
Definition mean (vals : list cell) : Float.t :=
  match numbers vals with
  | [] => Float.NaN
  | qs => Float.Fin (Qsum qs / inject_Z (Z.of_nat (List.length qs)))%Q
  end.

(* ====================================================================== *)
(** ** Configuration *)

Definition USANGU : string := "Usangu GR".
Definition IHEFU : string := "Ihefu Core".
Definition NYERERE : string := "Nyerere NP".

(** [ZONE_NAMES.values()] *)
Definition ZONE_NAMES : list string := [USANGU; IHEFU; NYERERE].

(** [ZONES_CONFIG["alert_thresholds"]]: the two entries the processor
    reads.  The file [config/zones.json] is not part of the sources, so the
    thresholds are a parameter of the classifier. *)
Record Thresholds : Type := {
  ndvi_evi_high : Q;
  ndvi_evi_moderate : Q
}.

(** Modelled from the spec: [config/zones.json] is missing; the
    specification requires of it that both thresholds are negative and
    that the high one is more negative than the moderate one. *)
Definition thresholds_ok (th : Thresholds) : Prop :=
  (ndvi_evi_high th < ndvi_evi_moderate th)%Q /\ (ndvi_evi_moderate th < 0)%Q.

(* ====================================================================== *)
(** ** Data ingestion *)

Definition required_cols : list string := ["zone"; "indicator"; "year"; "month"].

(** [int(v)] of a cell, as [astype(int)] applies it. *)
Definition cell_to_int (v : cell) : option cell :=
  match v with
  | Num q => Some (Num (inject_Z (Float.to_int q)))
  | _ => None
  end.

Fixpoint cast_row (cols : list string) (r : list cell) (c : string)
  : option (list cell) :=
  match cols, r with
  | col :: cols', v :: r' =>
      if String.eqb col c
      then option_map (fun v' => v' :: r') (cell_to_int v)
      else option_map (cons v) (cast_row cols' r' c)
  | _, _ => Some r
  end.

Fixpoint cast_rows (cols : list string) (rs : list (list cell)) (c : string)
  : option (list (list cell)) :=
  match rs with
  | [] => Some []
  | r :: rs' =>
      match cast_row cols r c, cast_rows cols rs' c with
      | Some r', Some rs'' => Some (r' :: rs'')
      | _, _ => None
      end
  end.

(** [df[c] = df[c].astype(int)] *)
Definition astype_int (df : DataFrame) (c : string) : result DataFrame :=
  match cast_rows (columns df) (rows df) c with
  | Some rs => Ok {| columns := columns df; rows := rs |}
  | None => Raise (IntCastError c)
  end.

(** [required_cols - set(df.columns)] *)
Definition missing_cols (df : DataFrame) : list string :=
  filter (fun c => negb (mem c (columns df))) required_cols.

(** [load_gee_export], on the table [pd.read_csv] returned. *)
Definition load_gee_export (raw : DataFrame) : result DataFrame :=
  match missing_cols raw with
  | [] =>
      df <- astype_int raw "year" ;;
      df <- astype_int df "month" ;;
      Ok df
  | missing => Raise (MissingColumns missing)
  end.

Inductive LogRecord : Type :=
| Warning (msg : string)
| Error (msg : string).

Definition Datasets : Type := list (string * DataFrame).

Fixpoint get (datasets : Datasets) (key : string) : option DataFrame :=
  match datasets with
  | [] => None
  | (k, df) :: rest => if String.eqb k key then Some df else get rest key
  end.

(** The export directory: file name to parsed CSV, [None] when the file
    does not exist. *)
Definition Exports : Type := string -> option DataFrame.

Definition month_str (year month : Z) : string :=
  (str_of_Z year ++ "_" ++ fmt_02d month)%string.

Definition patterns (year month : Z) : list (string * string) :=
  [ ("ndvi_evi", ("ndvi_evi_" ++ month_str year month ++ ".csv")%string);
    ("fire", ("fire_burn_" ++ month_str year month ++ ".csv")%string);
    ("water", ("water_ndwi_" ++ month_str year month ++ ".csv")%string);
    ("climate", ("climate_" ++ month_str year month ++ ".csv")%string) ].

(** The loop of [load_monthly_exports]; the log is returned together with
    the result, also when an exception ends the loop. *)
Fixpoint load_loop (fs : Exports) (pats : list (string * string))
    (datasets : Datasets) (log : list LogRecord)
  : list LogRecord * result Datasets :=
  match pats with
  | [] => (log, Ok datasets)
  | (key, filename) :: rest =>
      match fs filename with
      | Some raw =>
          match load_gee_export raw with
          | Ok df => load_loop fs rest (datasets ++ [(key, df)]) log
          | Raise e => (log, Raise e)
          end
      | None =>
          load_loop fs rest datasets
            (log ++ [Warning ("  Missing export: " ++ filename)%string])
      end
  end.

Definition load_monthly_exports (fs : Exports) (year month : Z)
  : list LogRecord * result Datasets :=
  load_loop fs (patterns year month) [] [].

(* ====================================================================== *)
(** ** Data quality checks *)

Inductive Status : Type := PASS | WARNING.

(** The two notes a check can carry.  [HighNullRate p] stands for
    [f"High null rate ({p}%) — likely cloud cover"] and [MissingZones zs]
    for [f"Missing zones: {zs}"]. *)
Inductive Note : Type :=
| HighNullRate (pct : Float.t)
| MissingZones (missing : list string).

Module Check.
Record t : Type := {
  dataset : string;
  records : nat;
  null_pct : Float.t;
  zones_present : list cell;
  status : Status;
  note : option Note
}.

Definition set_warning (c : t) (n : Note) : t :=
  {| dataset := dataset c; records := records c; null_pct := null_pct c;
     zones_present := zones_present c; status := WARNING; note := Some n |}.
End Check.

Record QualityReport : Type := {
  timestamp : string;
  checks : list Check.t;
  overall_status : Status
}.

(** [series.isnull().mean()] *)
Definition null_fraction (vals : list cell) : Float.t :=
  match vals with
  | [] => Float.NaN
  | _ => Float.Fin (inject_Z (Z.of_nat (List.length (filter isnull vals)))
                    / inject_Z (Z.of_nat (List.length vals)))%Q
  end.

Definition cell_of_float (x : Float.t) : cell :=
  match x with Float.NaN => Null | Float.Fin q => Num q end.

(** [round(df.isnull().mean().mean() * 100, 1)] *)
Definition null_percentage (df : DataFrame) : Float.t :=
  let per_column := map (fun c => null_fraction (column df c)) (columns df) in
  Float.round (Float.mul (mean (map cell_of_float per_column)) (Float.Fin 100)) 1.

Definition new_check (key : string) (df : DataFrame) : Check.t :=
  {| Check.dataset := key;
     Check.records := List.length (rows df);
     Check.null_pct := null_percentage df;
     Check.zones_present := unique (column df "zone");
     Check.status := PASS;
     Check.note := None |}.

(** Flag high null rates. *)
Definition flag_null_rate (c : Check.t) : Check.t :=
  if Float.gtb (Check.null_pct c) (Float.Fin 30)
  then Check.set_warning c (HighNullRate (Check.null_pct c))
  else c.

(** [expected_zones - present_zones] *)
Definition missing_zones (c : Check.t) : list string :=
  filter (fun z => negb (existsb (cell_same (Str z)) (Check.zones_present c)))
         ZONE_NAMES.

(** Verify all expected zones present. *)
Definition flag_missing_zones (c : Check.t) : Check.t :=
  match missing_zones c with
  | [] => c
  | missing => Check.set_warning c (MissingZones missing)
  end.

(** The body of the loop of [validate_data_quality] for one dataset. *)
Definition check_dataset (key : string) (df : DataFrame) : Check.t :=
  flag_missing_zones (flag_null_rate (new_check key df)).

Definition is_pass (s : Status) : bool :=
  match s with PASS => true | WARNING => false end.

Definition add_check (quality : QualityReport) (kv : string * DataFrame)
  : QualityReport :=
  let check := check_dataset (fst kv) (snd kv) in
  {| timestamp := timestamp quality;
     checks := checks quality ++ [check];
     overall_status := if is_pass (Check.status check)
                       then overall_status quality else WARNING |}.

(** [validate_data_quality]; [now] is the reading of the clock. *)
Definition validate_data_quality (now : string) (datasets : Datasets)
  : QualityReport :=
  fold_left add_check datasets
    {| timestamp := now; checks := []; overall_status := PASS |}.

(* ====================================================================== *)
(** ** Indicator computation *)

Module Deviation.
Record t : Type := {
  zone : cell;
  indicator : string;
  current : Float.t;
  baseline : Float.t;
  deviation_pct : option Float.t
}.
End Deviation.

(** One entry of the mask [df["indicator"].str.contains(label, case=False)]
    for a lower-case [label], on a row whose indicator is a string. *)
Definition labelled (label : string) (cols : list string) (r : list cell)
  : bool :=
  match lookup cols r "indicator" with
  | Str s => contains label (lower s)
  | _ => false
  end.

(** [df[df["zone"] == zone]] *)
Definition of_zone (zone : cell) (df : DataFrame) : DataFrame :=
  select (fun r => cell_eqb (lookup (columns df) r "zone") zone) df.

(** [select_dtypes(include=[np.number]).columns], less year and month. *)
Definition value_columns (df : DataFrame) : list string :=
  filter (fun c => negb (mem c ["year"; "month"]))
         (filter (numeric_dtype df) (columns df)).

(** [dev_pct], from the two means. *)
Definition dev_pct (c_val b_val : Float.t) : Float.t :=
  if Float.neqb b_val (Float.Fin 0) && negb (Float.isnan b_val)
  then Float.mul (Float.div (Float.sub c_val b_val) (Float.abs b_val))
                 (Float.Fin 100)
  else Float.NaN.

Definition deviation_record (zone : cell) (col : string)
    (c_val b_val : Float.t) : Deviation.t :=
  let d := dev_pct c_val b_val in
  {| Deviation.zone := zone;
     Deviation.indicator := col;
     Deviation.current := Float.round c_val 4;
     Deviation.baseline := Float.round b_val 4;
     Deviation.deviation_pct :=
       if negb (Float.isnan d) then Some (Float.round d 1) else None |}.

(** The body of the loop over zones.  Row selection keeps the dtypes of
    [df], so the numeric columns of [z_current] are those of [df]. *)
Definition zone_deviations (df current baseline : DataFrame) (zone : cell)
  : list Deviation.t :=
  let z_current := of_zone zone current in
  let z_baseline := of_zone zone baseline in
  if empty z_current || empty z_baseline then []
  else map (fun col => deviation_record zone col
                         (mean (column z_current col))
                         (mean (column z_baseline col)))
           (value_columns df).

Definition compute_deviations (df : DataFrame) : result (list Deviation.t) :=
  if forallb is_str (column df "indicator")
  then
    let current := select (labelled "current" (columns df)) df in
    let baseline := select (labelled "baseline" (columns df)) df in
    Ok (flat_map (zone_deviations df current baseline)
                 (unique (column df "zone")))
  else Raise StrAccessorError.

(* ====================================================================== *)
(** ** Alert detection *)

Inductive Severity : Type := HIGH | MODERATE.

Module Alert.
(** An alert is a dict whose keys vary with the rule that made it: a
    field is [None] when its key is absent.  The key ["escalation"] can
    be present with the value [None], hence the nested option. *)
Record t : Type := {
  zone : cell;
  indicator : string;
  severity : Severity;
  deviation_pct : option Float.t;
  current : option Float.t;
  baseline : option Float.t;
  detail : option string;
  escalation : option (option string)
}.

(** [alert.get("escalation")] *)
Definition get_escalation (a : t) : option string :=
  match escalation a with
  | Some (Some s) => Some s
  | _ => None
  end.
End Alert.

Definition is_moderate (s : Severity) : bool :=
  match s with MODERATE => true | HIGH => false end.

(** The body of the first loop of [detect_alerts] for one deviation row. *)
Definition ndvi_evi_alerts (th : Thresholds) (row : Deviation.t)
  : list Alert.t :=
  let indicator := Deviation.indicator row in
  let is_ndvi := contains "NDVI" indicator && negb (contains "stdDev" indicator) in
  let is_evi := contains "EVI" indicator && negb (contains "stdDev" indicator) in
  match Deviation.deviation_pct row with
  | Some dev =>
      if is_ndvi || is_evi then
        let zone := Deviation.zone row in
        let indicator_label := if is_ndvi then "NDVI" else "EVI" in
        let base :=
          if Float.leb dev (Float.Fin (ndvi_evi_high th)) then Some HIGH
          else if Float.leb dev (Float.Fin (ndvi_evi_moderate th))
               then Some MODERATE
               else None in
        match base with
        | None => []
        | Some severity =>
            (* Ihefu Core escalation rule *)
            let escalate :=
              cell_eqb zone (Str "Ihefu Core") && is_moderate severity in
            [ {| Alert.zone := zone;
                 Alert.indicator := indicator_label;
                 Alert.severity := if escalate then HIGH else severity;
                 Alert.deviation_pct := Some dev;
                 Alert.current := Some (Deviation.current row);
                 Alert.baseline := Some (Deviation.baseline row);
                 Alert.detail := None;
                 Alert.escalation :=
                   Some (if escalate
                         then Some "Escalated: MODERATE in Ihefu Core -> HIGH"
                         else None) |} ]
        end
      else []
  | None => []
  end.

(** [c for c in row.index if "count" in c.lower() or "T21" in c] *)
Definition is_fire_count_col (c : string) : bool :=
  contains "count" (lower c) || contains "T21" c.

Definition fire_alert (zone : cell) (q : Q) : Alert.t :=
  {| Alert.zone := zone;
     Alert.indicator := "Active Fire";
     Alert.severity := HIGH;
     Alert.deviation_pct := None;
     Alert.current := None;
     Alert.baseline := None;
     Alert.detail :=
       Some ("Fire detections: " ++ str_of_Z (Float.to_int q))%string;
     Alert.escalation := Some None |}.

(** [if pd.notna(row[col]) and row[col] > 0: alerts.append(...)] *)
Definition fire_cell_alerts (zone : cell) (item : string * cell)
  : result (list Alert.t) :=
  match snd item with
  | Null => Ok []
  | Num q => if negb (Qle_bool q 0) then Ok [fire_alert zone q] else Ok []
  | Str _ => Raise (CompareTypeError (fst item))
  end.

(** The body of the loop over the rows of the fire table. *)
Definition fire_row_alerts (cols : list string) (r : list cell)
  : result (list Alert.t) :=
  let fire_count_cols :=
    filter (fun item => is_fire_count_col (fst item)) (combine cols r) in
  concat_mapM (fire_cell_alerts (lookup cols r "zone")) fire_count_cols.

(** Fire alerts (any fire = HIGH). *)
Definition fire_alerts (datasets : Datasets) : result (list Alert.t) :=
  match get datasets "fire" with
  | Some fire_df => concat_mapM (fire_row_alerts (columns fire_df)) (rows fire_df)
  | None => Ok []
  end.

(** [f"{q:.1f}"] *)
Definition fmt_1f (q : Q) : string :=
  let r := Float.rint (q * 10) in
  let a := Z.abs r in
  ((if (r <? 0)%Z then "-" else "")
     ++ str_of_Z (a / 10) ++ "." ++ str_of_Z (a mod 10))%string.

Definition rainfall_alerts (row : Deviation.t) : list Alert.t :=
  match Deviation.deviation_pct row with
  | Some dev =>
      if contains "rainfall" (lower (Deviation.indicator row))
         && Float.leb dev (Float.Fin (-40))
      then [ {| Alert.zone := Deviation.zone row;
                Alert.indicator := "Rainfall Deficit";
                Alert.severity := HIGH;
                Alert.deviation_pct := Some dev;
                Alert.current := None;
                Alert.baseline := None;
                Alert.detail := Some "Drought watch — >40% deficit vs 30-yr mean";
                Alert.escalation := None |} ]
      else []
  | None => []
  end.

Definition lst_alerts (row : Deviation.t) : list Alert.t :=
  if contains "LST" (Deviation.indicator row) then
    match Float.sub (Deviation.current row) (Deviation.baseline row) with
    | Float.Fin anomaly =>
        if negb (Qle_bool anomaly 3)
        then [ {| Alert.zone := Deviation.zone row;
                  Alert.indicator := "Land Surface Temperature";
                  Alert.severity := MODERATE;
                  Alert.deviation_pct := None;
                  Alert.current := None;
                  Alert.baseline := None;
                  Alert.detail :=
                    Some ("LST anomaly: +" ++ fmt_1f anomaly
                            ++ "°C above baseline")%string;
                  Alert.escalation := None |} ]
        else []
    | Float.NaN => []
    end
  else [].

(** The body of the last loop of [detect_alerts]. *)
Definition climate_alerts (row : Deviation.t) : list Alert.t :=
  rainfall_alerts row ++ lst_alerts row.

Definition detect_alerts (th : Thresholds) (datasets : Datasets)
    (deviations : list Deviation.t) : result (list Alert.t) :=
  let vegetation := flat_map (ndvi_evi_alerts th) deviations in
  fire <- fire_alerts datasets ;;
  Ok (vegetation ++ fire ++ flat_map climate_alerts deviations).

(* ====================================================================== *)
(** ** Structured output *)

Record Metadata : Type := {
  report_period : string;
  generated_at : string;
  prepared_by : string;
  organisation : string;
  boundary_status : string;
  crs_analysis : string
}.

Record MonthlyDataset : Type := {
  metadata : Metadata;
  data_quality : QualityReport;
  deviations : list Deviation.t;
  alerts : list Alert.t;
  raw_datasets : Datasets
}.

(** What a call of [compile_monthly_dataset] that does not raise leaves
    behind: [NoData] when it returns [None], otherwise the document and
    the file it was written to. *)
Inductive outcome : Type :=
| NoData
| Written (output_path : string) (output : MonthlyDataset).

Definition deviations_of (datasets : Datasets) (key : string)
  : result (list Deviation.t) :=
  match get datasets key with
  | Some df => compute_deviations df
  | None => Ok []
  end.

(** The stages after loading, for a non-empty [datasets]. *)
Definition process (th : Thresholds) (now_quality now_output : string)
    (year month : Z) (datasets : Datasets) : result outcome :=
  let quality := validate_data_quality now_quality datasets in
  d1 <- deviations_of datasets "ndvi_evi" ;;
  d2 <- deviations_of datasets "climate" ;;
  let deviations := d1 ++ d2 in
  alerts <- detect_alerts th datasets deviations ;;
  let output :=
    {| metadata :=
         {| report_period := (str_of_Z year ++ "-" ++ fmt_02d month)%string;
            generated_at := now_output;
            prepared_by := "Ernest Moyo / 7Square Inc.";
            organisation := "Six Rivers Africa";
            boundary_status := "PLACEHOLDER";
            crs_analysis := "EPSG:32736" |};
       data_quality := quality;
       deviations := deviations;
       alerts := alerts;
       raw_datasets := datasets |} in
  Ok (Written ("monthly_dataset_" ++ month_str year month ++ ".json")%string
              output).

(** [compile_monthly_dataset]; [now_quality] and [now_output] are the two
    readings of the clock the run makes, in [validate_data_quality] and
    for [generated_at]. *)
Definition compile_monthly_dataset (th : Thresholds) (fs : Exports)
    (now_quality now_output : string) (year month : Z)
  : list LogRecord * result outcome :=
  match load_monthly_exports fs year month with
  | (log, Raise e) => (log, Raise e)
  | (log, Ok []) => (log ++ [Error "No datasets found for this period"], Ok NoData)
  | (log, Ok datasets) =>
      (log, process th now_quality now_output year month datasets)
  end.


From Stdlib Require Import Lqa Permutation.
From Stdlib Require DecimalFacts DecimalPos DecimalZ.

(* ====================================================================== *)
(** * The text report generator

    The parts of [src/python/analysis/report_generator.py] that decide
    something about the alerts and deviations of a monthly document.  The
    report reads the document back from its JSON file: an alert or a
    deviation is the dict the processor wrote, and a zone that is not a
    string comes back as a number or as NaN. *)

Module Report.

(** What a formatting function gives: its text, or the [TypeError] that
    [in] raises on a value that is not a string. *)
Inductive outcome : Type :=
| Text (s : string)
| TypeError.

(** [a.get("severity") == "HIGH"] *)
Definition is_high (a : Alert.t) : bool :=
  match Alert.severity a with HIGH => true | MODERATE => false end.

(** [lambda a: (0 if a.get("severity") == "HIGH" else 1)] *)
Definition severity_rank (a : Alert.t) : nat :=
  if is_high a then 0 else 1.

Fixpoint insert_by {A : Type} (key : A -> nat) (x : A) (l : list A) : list A :=
  match l with
  | [] => [x]
  | y :: l' => if (key x <=? key y)%nat then x :: l else y :: insert_by key x l'
  end.

(** [sorted(l, key=key)]: Python's sort is stable, as insertion from the
    right before the first element that is not smaller. *)
Definition sorted {A : Type} (key : A -> nat) (l : list A) : list A :=
  fold_right (insert_by key) [] l.

(** The order in which [format_alert_table] lists the alerts. *)
Definition table_order (alerts : list Alert.t) : list Alert.t :=
  sorted severity_rank alerts.

Definition nl : string := String (ascii_of_nat 10) EmptyString.

Fixpoint repeat_char (c : ascii) (n : nat) : string :=
  match n with
  | O => EmptyString
  | S n' => String c (repeat_char c n')
  end.

(** [f"{'=' * 80}"] *)
Definition rule : string := repeat_char "=" 80.

(** The text appended for one HIGH alert whose zone is a string. *)
Definition recommendation (indicator zone : string) : string :=
  (nl ++ "  [" ++ indicator ++ " — " ++ zone ++ "]" ++ nl
   ++ "  (a) SRA Field Teams: Deploy ground-truth verification for "
   ++ lower indicator ++ " signal in " ++ zone ++ "." ++ nl
   ++ "  (b) Government (TANAPA/TAWA): Formal notification of "
   ++ lower indicator ++ " anomaly in " ++ zone ++ "."
   ++ (if contains "Nyerere" zone
       then " Reference Tanzania's UNESCO World Heritage obligations."
       else "")
   ++ nl
   ++ "  (c) Donor Reporting: Document " ++ lower indicator
   ++ " evidence for adaptive management reporting." ++ nl)%string.

(** The loop of [format_recommendations] over the HIGH alerts:
    ["Nyerere" in zone] raises on a zone that is not a string. *)
Fixpoint recommend (section : string) (high_alerts : list Alert.t) : outcome :=
  match high_alerts with
  | [] => Text section
  | alert :: rest =>
      match Alert.zone alert with
      | Str zone =>
          recommend (section ++ recommendation (Alert.indicator alert) zone)%string
                    rest
      | _ => TypeError
      end
  end.

Definition no_actions : string :=
  (nl ++ "RECOMMENDATIONS" ++ nl
   ++ "  No HIGH-severity alerts — no immediate actions required." ++ nl)%string.

(** [format_recommendations], on [data["alerts"]]. *)
Definition format_recommendations (alerts : list Alert.t) : outcome :=
  let high_alerts := filter is_high alerts in
  match high_alerts with
  | [] => Text no_actions
  | _ =>
      recommend (nl ++ rule ++ nl ++ "RECOMMENDATIONS" ++ nl ++ rule ++ nl)%string
                high_alerts
  end.

(** The [landscape_status] of [format_executive_summary]: vegetation
    stress when a deviation record named exactly "NDVI" is below -15. *)
Definition stressed (d : Deviation.t) : bool :=
  String.eqb (Deviation.indicator d) "NDVI"
  && match Deviation.deviation_pct d with
     | Some (Float.Fin dev) => negb (Qle_bool (-15) dev)
     | _ => false
     end.

Definition landscape_status (deviations : list Deviation.t) : string :=
  if existsb stressed deviations then "showing vegetation stress" else "stable".

End Report.

(* ====================================================================== *)
(** * The shapefile register

    [src/python/utils/shapefile_manager.py]: the register of boundary
    files, its status summary and its update.  The register is a dict in
    insertion order; the module-level dict the source mutates is passed
    and returned explicitly. *)

Module Shapefiles.

Record Entry : Type := {
  filename : string;
  type : string;
  crs : string;
  source : string;
  status : string;
  zone_id : option string;
  wdpa_id : option string;
  area_km2_indicative : option Z;
  date_added : string;
  date_verified : option string;
  notes : string;
  area_km2_verified : option Float.t
}.

Definition Register : Type := list (string * Entry).

Definition SHAPEFILE_REGISTER : Register :=
  [ ("usangu_game_reserve",
     {| filename := "usangu_game_reserve.shp"; type := "Polygon";
        crs := "EPSG:4326"; source := "WDPA 20021 / TAWA";
        status := "PLACEHOLDER"; zone_id := Some "zone_1";
        wdpa_id := Some "20021"; area_km2_indicative := Some 2500%Z;
        date_added := "2026-02-01"; date_verified := None;
        notes := "Outer reserve boundary — replace with authoritative TAWA/WDPA polygon";
        area_km2_verified := None |});
    ("ihefu_swamp_core",
     {| filename := "ihefu_swamp_core.shp"; type := "Polygon";
        crs := "EPSG:4326"; source := "Wetlands International / Ramsar";
        status := "PLACEHOLDER"; zone_id := Some "zone_1_ihefu";
        wdpa_id := None; area_km2_indicative := Some 350%Z;
        date_added := "2026-02-01"; date_verified := None;
        notes := "Highest sensitivity zone — MODERATE alerts escalate to HIGH";
        area_km2_verified := None |});
    ("nyerere_np_boundary",
     {| filename := "nyerere_np_boundary.shp"; type := "Polygon";
        crs := "EPSG:4326"; source := "Protected Planet (WDPA) IUCN Cat. II";
        status := "PLACEHOLDER"; zone_id := Some "zone_2";
        wdpa_id := Some "1695"; area_km2_indicative := Some 30893%Z;
        date_added := "2026-02-01"; date_verified := None;
        notes := "UNESCO World Heritage Site (1982) — verify with WDPA 1695 polygon";
        area_km2_verified := None |});
    ("great_ruaha_river",
     {| filename := "great_ruaha_river.shp"; type := "LineString";
        crs := "EPSG:4326"; source := "HydroSHEDS / GRDC";
        status := "PLACEHOLDER"; zone_id := None;
        wdpa_id := None; area_km2_indicative := None;
        date_added := "2026-02-01"; date_verified := None;
        notes := "River centreline — confirm with SRA field knowledge";
        area_km2_verified := None |});
    ("rufiji_river",
     {| filename := "rufiji_river.shp"; type := "LineString";
        crs := "EPSG:4326"; source := "HydroSHEDS / GRDC";
        status := "PLACEHOLDER"; zone_id := None;
        wdpa_id := None; area_km2_indicative := None;
        date_added := "2026-02-01"; date_verified := None;
        notes := "River centreline — confirm position";
        area_km2_verified := None |});
    ("six_rivers_study_zones",
     {| filename := "six_rivers_study_zones.shp"; type := "Polygon";
        crs := "EPSG:4326"; source := "Composite — both operational zones merged";
        status := "PENDING"; zone_id := None;
        wdpa_id := None; area_km2_indicative := None;
        date_added := "2026-02-01"; date_verified := None;
        notes := "Generated from zone_1 + zone_2 union";
        area_km2_verified := None |}) ].

(** [register[name]], [None] when the key is absent. *)
Fixpoint lookup (register : Register) (name : string) : option Entry :=
  match register with
  | [] => None
  | (k, e) :: rest => if String.eqb k name then Some e else lookup rest name
  end.

(** [statuses[s] = statuses.get(s, 0) + 1] *)
Fixpoint bump (s : string) (statuses : list (string * nat)) : list (string * nat) :=
  match statuses with
  | [] => [(s, 1%nat)]
  | (k, n) :: rest =>
      if String.eqb k s then (k, (n + 1)%nat) :: rest else (k, n) :: bump s rest
  end.

Record RegisterStatus : Type := {
  total_shapefiles : nat;
  status_counts : list (string * nat);
  all_verified : bool;
  pending_sra_input : list string
}.

Definition is_pending (e : Entry) : bool :=
  mem (status e) ["PLACEHOLDER"; "PENDING"].

(** [get_register_status], on the register. *)
Definition get_register_status (register : Register) : RegisterStatus :=
  {| total_shapefiles := List.length register;
     status_counts :=
       fold_left (fun statuses ke => bump (status (snd ke)) statuses) register [];
     all_verified :=
       forallb (fun ke => String.eqb (status (snd ke)) "AUTHORITATIVE") register;
     pending_sra_input :=
       map fst (filter (fun ke => is_pending (snd ke)) register) |}.

(** Truth values of the optional arguments of the update. *)
Definition truthy_string (s : option string) : bool :=
  match s with
  | Some (String _ _) => true
  | _ => false
  end.

Definition truthy_float (x : option Float.t) : bool :=
  match x with
  | Some x => Float.neqb x (Float.Fin 0)
  | None => false
  end.

(** The assignments [update_shapefile_status] makes to an entry. *)
Definition updated (e : Entry) (new_status : string) (src verified_date : option string)
    (area_km2 : option Float.t) : Entry :=
  {| filename := filename e;
     type := type e;
     crs := crs e;
     source := match src with
               | Some s => if truthy_string src then s else source e
               | None => source e
               end;
     status := new_status;
     zone_id := zone_id e;
     wdpa_id := wdpa_id e;
     area_km2_indicative := area_km2_indicative e;
     date_added := date_added e;
     date_verified := if truthy_string verified_date then verified_date
                      else date_verified e;
     notes := notes e;
     area_km2_verified := if truthy_float area_km2 then area_km2
                          else area_km2_verified e |}.

(** The entry stored under [name] is replaced (a dict has one). *)
Fixpoint store (register : Register) (name : string) (e : Entry) : Register :=
  match register with
  | [] => []
  | (k, e0) :: rest =>
      if String.eqb k name then (k, e) :: rest else (k, e0) :: store rest name e
  end.

Inductive update_result : Type :=
| Updated (entry : Entry) (register : Register)
| UnknownShapefile (shapefile_name : string).
    (* raise ValueError(f"Unknown shapefile: {shapefile_name}") *)

(** [update_shapefile_status]: the entry returned and the register
    after the call, or the error. *)
Definition update_shapefile_status (register : Register) (shapefile_name : string)
    (new_status : string) (src verified_date : option string)
    (area_km2 : option Float.t) : update_result :=
  match lookup register shapefile_name with
  | None => UnknownShapefile shapefile_name
  | Some entry =>
      let entry' := updated entry new_status src verified_date area_km2 in
      Updated entry' (store register shapefile_name entry')
  end.

End Shapefiles.
(* ====================================================================== *)
(** * Auxiliary definitions for the statements *)

(** A dataset whose check stays PASS. *)
Definition passes (kv : string * DataFrame) : bool :=
  is_pass (Check.status (check_dataset (fst kv) (snd kv))).

(** Concrete tables and settings on which the statements are exercised. *)
Module Sample.

Definition th : Thresholds :=
  {| ndvi_evi_high := -25; ndvi_evi_moderate := -15 |}.

Definition wide_cols : list string :=
  ["zone"; "indicator"; "year"; "month"; "a"; "b"; "c"; "d"; "e"; "f"].


(** One zone only, four missing cells out of ten. *)
Definition nulls_40 : DataFrame :=
  {| columns := wide_cols;
     rows :=
       [ [Str USANGU; Str "x"; Num 2024; Num 6; Null; Null; Null; Null; Num 1; Num 1] ] |}.

(** An NDVI deviation record of Usangu GR with deviation [d]. *)
Definition ndvi_row (d : Q) : Deviation.t :=
  {| Deviation.zone := Str USANGU;
     Deviation.indicator := "NDVI_mean";
     Deviation.current := Float.Fin (1 # 2);
     Deviation.baseline := Float.Fin (3 # 5);
     Deviation.deviation_pct := Some (Float.Fin d) |}.

(** An export directory without any file. *)
Definition no_files : Exports := fun _ => None.

End Sample.

(** An NDVI/EVI deviation record: the indicator name contains "NDVI" or
    "EVI" and is not a "stdDev" column. *)
Definition vegetation_index (indicator : string) : bool :=
  (contains "NDVI" indicator || contains "EVI" indicator)
  && negb (contains "stdDev" indicator).

(** The number in a cell (0 for anything else). *)
Definition cell_num (c : cell) : Q :=
  match c with Num q => q | _ => 0%Q end.

(** A cell of a fire-count column that holds a positive number. *)
Definition fire_detection (item : string * cell) : bool :=
  is_fire_count_col (fst item)
  && match snd item with Num q => negb (Qle_bool q 0) | _ => false end.

(** The fire alerts expected of a fire table: one per detection, row by
    row and column by column. *)
Definition expected_fire_alerts (df : DataFrame) : list Alert.t :=
  flat_map
    (fun r =>
       map (fun item => fire_alert (lookup (columns df) r "zone")
                                   (cell_num (snd item)))
           (filter fire_detection (combine (columns df) r)))
    (rows df).

(** No fire-count column of the table holds a string. *)
Definition fire_counts_numeric (df : DataFrame) : bool :=
  forallb
    (fun r => forallb (fun item => negb (is_fire_count_col (fst item)
                                         && is_str (snd item)))
                      (combine (columns df) r))
    (rows df).

Definition is_active_fire (a : Alert.t) : bool :=
  String.eqb (Alert.indicator a) "Active Fire".

Module SampleFire.

(** One row for Nyerere NP with three detections in its [count] column,
    a missing value and a zero in two other fire-count columns. *)
Definition fire : DataFrame :=
  {| columns := ["zone"; "indicator"; "year"; "month"; "count"; "T21_max"; "Count_night"];
     rows := [ [Str NYERERE; Str "fire"; Num 2024; Num 6; Num 3; Null; Num 0] ] |}.

Definition datasets : Datasets := [("fire", fire)].

End SampleFire.

(** The current-labelled and baseline-labelled rows of a table, as
    [compute_deviations] selects them. *)
Definition current_rows (df : DataFrame) : DataFrame :=
  select (labelled "current" (columns df)) df.

Definition baseline_rows (df : DataFrame) : DataFrame :=
  select (labelled "baseline" (columns df)) df.

(** The zone has no current rows or no baseline rows. *)
Definition lacks_rows (df : DataFrame) (zone : cell) : bool :=
  empty (of_zone zone (current_rows df)) || empty (of_zone zone (baseline_rows df)).

(** The two means the calculator compares for a zone and a column. *)
Definition current_mean (df : DataFrame) (zone : cell) (col : string) : Float.t :=
  mean (column (of_zone zone (current_rows df)) col).

Definition baseline_mean (df : DataFrame) (zone : cell) (col : string) : Float.t :=
  mean (column (of_zone zone (baseline_rows df)) col).

Module SampleNdvi.

Definition cols : list string :=
  ["zone"; "indicator"; "year"; "month"; "NDVI_mean"; "LST_mean"].

(** Usangu GR and Ihefu Core have current and baseline rows; Nyerere NP
    has a current row only; the current NDVI of Ihefu Core is missing. *)
Definition ndvi : DataFrame :=
  {| columns := cols;
     rows :=
       [ [Str USANGU; Str "NDVI_current"; Num 2024; Num 6; Num (42 # 100); Num 30];
         [Str USANGU; Str "NDVI_baseline"; Num 2024; Num 6; Num (60 # 100); Num 25];
         [Str IHEFU; Str "NDVI_Current"; Num 2024; Num 6; Null; Num 30];
         [Str IHEFU; Str "NDVI_baseline"; Num 2024; Num 6; Num (60 # 100); Num 25];
         [Str NYERERE; Str "NDVI_current"; Num 2024; Num 6; Num (50 # 100); Num 31] ] |}.

(** The records of [ndvi] (none when the calculator raises). *)
Definition recs : list Deviation.t :=
  match compute_deviations ndvi with
  | Ok l => l
  | Raise _ => []
  end.

(** The record of Usangu GR for NDVI. *)
Definition usangu_ndvi : Deviation.t :=
  {| Deviation.zone := Str USANGU;
     Deviation.indicator := "NDVI_mean";
     Deviation.current := Float.Fin (21 # 50);
     Deviation.baseline := Float.Fin (3 # 5);
     Deviation.deviation_pct := Some (Float.Fin (-30)) |}.

(** The record of Ihefu Core for NDVI: no current value. *)
Definition ihefu_ndvi : Deviation.t :=
  {| Deviation.zone := Str IHEFU;
     Deviation.indicator := "NDVI_mean";
     Deviation.current := Float.NaN;
     Deviation.baseline := Float.Fin (3 # 5);
     Deviation.deviation_pct := None |}.

End SampleNdvi.

Module SampleClimate.

(** Ihefu Core: land surface temperature 30 against a baseline of 25. *)
Definition climate : DataFrame :=
  {| columns := ["zone"; "indicator"; "year"; "month"; "LST_mean"];
     rows :=
       [ [Str IHEFU; Str "climate_current"; Num 2024; Num 6; Num 30];
         [Str IHEFU; Str "climate_baseline"; Num 2024; Num 6; Num 25] ] |}.

(** The export directory holds the climate file of June 2024 only. *)
Definition fs : Exports :=
  fun filename =>
    if String.eqb filename "climate_2024_06.csv" then Some climate else None.

Definition lst_alert : Alert.t :=
  {| Alert.zone := Str IHEFU;
     Alert.indicator := "Land Surface Temperature";
     Alert.severity := MODERATE;
     Alert.deviation_pct := None;
     Alert.current := None;
     Alert.baseline := None;
     Alert.detail := Some "LST anomaly: +5.0°C above baseline";
     Alert.escalation := None |}.

End SampleClimate.

(** The document with its [generated_at] blanked. *)
Definition except_generated_at (doc : MonthlyDataset) : MonthlyDataset :=
  {| metadata :=
       {| report_period := report_period (metadata doc);
          generated_at := "";
          prepared_by := prepared_by (metadata doc);
          organisation := organisation (metadata doc);
          boundary_status := boundary_status (metadata doc);
          crs_analysis := crs_analysis (metadata doc) |};
     data_quality := data_quality doc;
     deviations := deviations doc;
     alerts := alerts doc;
     raw_datasets := raw_datasets doc |}.

(** The document with its [generated_at] and the [timestamp] of its
    quality report blanked. *)
Definition except_timestamps (doc : MonthlyDataset) : MonthlyDataset :=
  let doc' := except_generated_at doc in
  {| metadata := metadata doc';
     data_quality :=
       {| timestamp := "";
          checks := checks (data_quality doc);
          overall_status := overall_status (data_quality doc) |};
     deviations := deviations doc';
     alerts := alerts doc';
     raw_datasets := raw_datasets doc' |}.

(** What two runs are compared on: the exception, or the absence of
    data, or the file written and the document less its time stamps. *)
Definition comparable (r : result outcome) : result outcome :=
  match r with
  | Ok (Written path doc) => Ok (Written path (except_timestamps doc))
  | other => other
  end.

Definition is_num (c : cell) : bool :=
  match c with Num _ => true | _ => false end.

(** A well-formed export for a category: the required columns are there,
    year and month are numbers throughout, the indicator cells of a table
    whose deviations are computed are strings, and the fire-count columns
    of the fire table hold no string. *)
Definition well_formed_export (key : string) (raw : DataFrame) : Prop :=
  missing_cols raw = []
  /\ forallb is_num (column raw "year") = true
  /\ forallb is_num (column raw "month") = true
  /\ (key = "ndvi_evi" \/ key = "climate" ->
      forallb is_str (column raw "indicator") = true)
  /\ (key = "fire" -> fire_counts_numeric raw = true).

Definition exists_file (fs : Exports) (kf : string * string) : bool :=
  match fs (snd kf) with Some _ => true | None => false end.

(** The categories whose file exists, and the warnings for the others. *)
Definition present (fs : Exports) (pats : list (string * string))
  : list (string * string) :=
  filter (exists_file fs) pats.

Definition missing_warnings (fs : Exports) (pats : list (string * string))
  : list LogRecord :=
  map (fun kf => Warning ("  Missing export: " ++ snd kf)%string)
      (filter (fun kf => negb (exists_file fs kf)) pats).

Module SampleSchema.

(** A fire export without its [zone] column. *)
Definition fire_no_zone : DataFrame :=
  {| columns := ["indicator"; "year"; "month"; "count"];
     rows := [ [Str "fire"; Num 2024; Num 6; Num 3] ] |}.

(** The NDVI export is sound, the fire export lacks a column. *)
Definition fs : Exports :=
  fun filename =>
    if String.eqb filename "ndvi_evi_2024_06.csv" then Some SampleNdvi.ndvi
    else if String.eqb filename "fire_burn_2024_06.csv" then Some fire_no_zone
    else None.

End SampleSchema.

(** Two cells of the same kind (missing, number or string). *)
Definition same_kind (v v' : cell) : Prop :=
  is_str v = is_str v' /\ is_num v = is_num v'.

(** Two tables with the same columns whose cells are of the same kinds,
    as a table and its image under [astype(int)] are. *)
Definition same_kinds (df df' : DataFrame) : Prop :=
  columns df' = columns df
  /\ Forall2 (Forall2 same_kind) (rows df) (rows df').

(** What the stages after loading rely on in a loaded table. *)
Definition processable (kd : string * DataFrame) : Prop :=
  (fst kd = "ndvi_evi" \/ fst kd = "climate" ->
   forallb is_str (column (snd kd) "indicator") = true)
  /\ (fst kd = "fire" -> fire_counts_numeric (snd kd) = true).


(* ====================================================================== *)
(** * Auxiliary definitions for the further properties *)

(** Every row has one cell per column, as in a table read from a CSV file. *)
Definition rectangular (df : DataFrame) : Prop :=
  Forall (fun r => List.length r = List.length (columns df)) (rows df).

(** A cell that holds an integer. *)
Definition is_int (v : cell) : Prop := exists z, v = Num (inject_Z z).

Module SampleLoad.

(** A table whose second row has no year. *)
Definition no_year : DataFrame :=
  {| columns := ["zone"; "indicator"; "year"; "month"; "NDVI_mean"];
     rows := [ [Str USANGU; Str "NDVI_current"; Num 2024; Num 6; Num (1 # 2)];
               [Str USANGU; Str "NDVI_baseline"; Null; Num 6; Num (3 # 5)] ] |}.

End SampleLoad.

(** The zones of a table for which deviations are computed. *)
Definition compared_zones (df : DataFrame) : list cell :=
  filter (fun z => negb (lacks_rows df z)) (unique (column df "zone")).

Module SampleErrors.

(** A fire export with a [country] column, whose name contains "count". *)
Definition fire_country : DataFrame :=
  {| columns := ["zone"; "indicator"; "year"; "month"; "country"; "count"];
     rows := [ [Str NYERERE; Str "fire"; Num 2024; Num 6; Str "Tanzania"; Num 3] ] |}.

End SampleErrors.

(** The alert of the rainfall rule for a deviation. *)
Definition rainfall_alert (zone : cell) (dev : Float.t) : Alert.t :=
  {| Alert.zone := zone;
     Alert.indicator := "Rainfall Deficit";
     Alert.severity := HIGH;
     Alert.deviation_pct := Some dev;
     Alert.current := None;
     Alert.baseline := None;
     Alert.detail := Some "Drought watch — >40% deficit vs 30-yr mean";
     Alert.escalation := None |}.

(** The alert of the land surface temperature rule for an anomaly. *)
Definition lst_alert (zone : cell) (anomaly : Q) : Alert.t :=
  {| Alert.zone := zone;
     Alert.indicator := "Land Surface Temperature";
     Alert.severity := MODERATE;
     Alert.deviation_pct := None;
     Alert.current := None;
     Alert.baseline := None;
     Alert.detail :=
       Some ("LST anomaly: +" ++ fmt_1f anomaly ++ "°C above baseline")%string;
     Alert.escalation := None |}.

Module SampleAlerts.

(** A rainfall record at the threshold. *)
Definition rain_row : Deviation.t :=
  {| Deviation.zone := Str NYERERE;
     Deviation.indicator := "Rainfall_mm";
     Deviation.current := Float.Fin 60;
     Deviation.baseline := Float.Fin 100;
     Deviation.deviation_pct := Some (Float.Fin (-40)) |}.

Definition ihefu_row : Deviation.t :=
  {| Deviation.zone := Str IHEFU;
     Deviation.indicator := "EVI_mean";
     Deviation.current := Float.Fin (41 # 100);
     Deviation.baseline := Float.Fin (1 # 2);
     Deviation.deviation_pct := Some (Float.Fin (-18)) |}.

End SampleAlerts.

(** What a run found: the deviations and the alerts of its document. *)
Definition findings (r : result outcome)
  : result (option (list Deviation.t * list Alert.t)) :=
  match r with
  | Ok (Written _ doc) => Ok (Some (deviations doc, alerts doc))
  | Ok NoData => Ok None
  | Raise e => Raise e
  end.

(** The file name of the water export of a period. *)
Definition water_file (year month : Z) : string :=
  ("water_ndwi_" ++ month_str year month ++ ".csv")%string.

Module SampleWater.

Definition water (v : Q) : DataFrame :=
  {| columns := ["zone"; "indicator"; "year"; "month"; "NDWI_mean"];
     rows := [ [Str IHEFU; Str "NDWI_current"; Num 2024; Num 6; Num v] ] |}.

(** The climate export of the samples and a water export holding [v]. *)
Definition fs (v : Q) : Exports :=
  fun filename =>
    if String.eqb filename "water_ndwi_2024_06.csv" then Some (water v)
    else SampleClimate.fs filename.

End SampleWater.

(** [c in s] for a character. *)
Fixpoint occurs (c : ascii) (s : string) : bool :=
  match s with
  | EmptyString => false
  | String a s' => Ascii.eqb a c || occurs c s'
  end.

(** The file the document of a period is written to. *)
Definition output_file (year month : Z) : string :=
  ("monthly_dataset_" ++ month_str year month ++ ".json")%string.

Module SampleReport.

(** A fire export with a detection in a row whose zone is missing. *)
Definition fire_no_zone_value : DataFrame :=
  {| columns := ["zone"; "indicator"; "year"; "month"; "count"];
     rows := [ [Null; Str "fire"; Num 2024; Num 6; Num 2] ] |}.

End SampleReport.

Module SampleRun.

(** The export directory holds the NDVI export of June 2024 only. *)
Definition fs : Exports :=
  fun filename =>
    if String.eqb filename "ndvi_evi_2024_06.csv" then Some SampleNdvi.ndvi
    else None.

End SampleRun.

(** [statuses.get(s, 0)] *)
Fixpoint count_of (s : string) (statuses : list (string * nat)) : nat :=
  match statuses with
  | [] => 0
  | (k, n) :: rest => if String.eqb k s then n else count_of s rest
  end.

(** The number of entries of the register that have status [s]. *)
Definition with_status (s : string) (register : Shapefiles.Register) : nat :=
  List.length (filter (fun ke => String.eqb (Shapefiles.status (snd ke)) s) register).


(* ====================================================================== *)
(** * Printed sets and binary64 values *)

From Stdlib Require Floats Uint63.

(** ** Printed sets

    The note "Missing zones" of a check (l.123) and the message of the
    schema error (l.61) print a Python set of strings.  The order in
    which a process iterates over such a set depends on its hash seed, so
    that order is an input of a run, like the readings of the clock:
    [MissingZones] and [MissingColumns] carry the set, and the text is
    produced under the order of the process. *)
Definition SetOrder : Type := list string -> list string.

(** An iteration order lists the elements of the set, each once. *)
Definition iteration_order (order : SetOrder) : Prop :=
  forall l : list string, Permutation l (order l).

(** [repr(s)] for a string without quotes, backslashes or control
    characters, as the zone names and the required columns are. *)
Definition repr_str (s : string) : string := ("'" ++ s ++ "'")%string.

(** [sep.join(l)] *)
Fixpoint join (sep : string) (l : list string) : string :=
  match l with
  | [] => EmptyString
  | [s] => s
  | s :: rest => (s ++ sep ++ join sep rest)%string
  end.

(** [str] of a set whose elements are iterated in the order of [l]. *)
Definition str_set (l : list string) : string :=
  match l with
  | [] => "set()"
  | _ => ("{" ++ join ", " (map repr_str l) ++ "}")%string
  end.

(** [f"Missing zones: {missing_zones}"] for a set iterated as [l]. *)
Definition missing_zones_text (l : list string) : string :=
  ("Missing zones: " ++ str_set l)%string.

(** The text of a note in a process that iterates sets in [order];
    [repr_float] is Python's [str] of a float. *)
Definition note_text (order : SetOrder) (repr_float : Float.t -> string)
    (n : Note) : string :=
  match n with
  | HighNullRate pct =>
      ("High null rate (" ++ repr_float pct ++ "%) — likely cloud cover")%string
  | MissingZones missing => missing_zones_text (order missing)
  end.

(** The notes of the checks of a document, as the document stores them. *)
Definition stored_notes (order : SetOrder) (repr_float : Float.t -> string)
    (doc : MonthlyDataset) : list (option string) :=
  map (fun c => option_map (note_text order repr_float) (Check.note c))
      (checks (data_quality doc)).

(** Two stored notes that are equal, or that list the same missing zones
    in two orders. *)
Definition same_up_to_order (n1 n2 : option string) : Prop :=
  n1 = n2
  \/ exists zs1 zs2,
       Permutation zs1 zs2
       /\ n1 = Some (missing_zones_text zs1)
       /\ n2 = Some (missing_zones_text zs2).

(** ** The deviation calculator in binary64

    [compute_deviations] once more, with the values of its records in
    IEEE 754 binary64, the floats of Python and NumPy.  The selection of
    rows, zones and columns is that of the model above; the arithmetic of
    l.153-167 is done with the primitive floats.  The mean of a column
    ([Series.mean]) and the rounding function ([round] on a NumPy float)
    are inputs. *)
Module Binary64.
Import PrimFloat.
Local Open Scope float_scope.
Local Open Scope bool_scope.

(** [b_val != 0 and not np.isnan(b_val)] *)
Definition usable (b_val : float) : bool :=
  negb (b_val =? 0) && negb (is_nan b_val).

(** [((c_val - b_val) / abs(b_val)) * 100] *)
Definition quotient (c_val b_val : float) : float :=
  ((c_val - b_val) / abs b_val) * 100.

Record record : Type := {
  zone : cell;
  indicator : string;
  current : float;
  baseline : float;
  deviation_pct : option float
}.

Section Calculator.

Variable round : float -> nat -> float.
Variable series_mean : list cell -> float.

Definition dev_pct (c_val b_val : float) : float :=
  if negb (b_val =? 0) && negb (is_nan b_val)
  then ((c_val - b_val) / abs b_val) * 100
  else nan.

(** The record appended at l.161-167. *)
Definition deviation_record (zone : cell) (col : string)
    (c_val b_val : float) : record :=
  let d := dev_pct c_val b_val in
  {| zone := zone;
     indicator := col;
     current := round c_val 4%nat;
     baseline := round b_val 4%nat;
     deviation_pct := if negb (is_nan d) then Some (round d 1%nat) else None |}.

Definition zone_deviations (df current baseline : DataFrame) (zone : cell)
  : list record :=
  let z_current := of_zone zone current in
  let z_baseline := of_zone zone baseline in
  if empty z_current || empty z_baseline then []
  else map (fun col => deviation_record zone col
                         (series_mean (column z_current col))
                         (series_mean (column z_baseline col)))
           (value_columns df).

(** The list [results] of [compute_deviations]. *)
Definition compute_deviations (df : DataFrame) : result (list record) :=
  if forallb is_str (column df "indicator")
  then
    let current := select (labelled "current" (columns df)) df in
    let baseline := select (labelled "baseline" (columns df)) df in
    Ok (flat_map (zone_deviations df current baseline)
                 (unique (column df "zone")))
  else Raise StrAccessorError.

End Calculator.

(** [pd.DataFrame(results)] (l.169) builds one column per key of the
    records.  A [deviation_pct] column in which some record holds a number
    gets a float dtype and its [None] entries become NaN; a column of
    [None] only keeps them. *)
Definition has_deviation (rec : record) : bool :=
  match deviation_pct rec with Some _ => true | None => false end.

Definition as_float (rec : record) : record :=
  {| zone := zone rec;
     indicator := indicator rec;
     current := current rec;
     baseline := baseline rec;
     deviation_pct :=
       Some (match deviation_pct rec with Some d => d | None => nan end) |}.

Definition to_frame (results : list record) : list record :=
  if existsb has_deviation results then map as_float results else results.

(** [np.rint]: the nearest integer, ties to even, keeping the sign. *)
Definition rint (x : float) : float :=
  if abs x <? 0x1p52 then
    let r := (abs x + 0x1p52) - 0x1p52 in
    if x <? 0 then - r else if x =? 0 then x else r
  else x.

(** [10.0 ** n] *)
Fixpoint pow10 (n : nat) : float :=
  match n with
  | O => 1
  | S n' => 10 * pow10 n'
  end.

(** NumPy's rounding to [n] decimals: scale, [rint], scale back. *)
Definition np_round (x : float) (n : nat) : float :=
  rint (x * pow10 n) / pow10 n.

(** The float of an integer and of a decimal fraction of a CSV file: the
    binary64 value nearest to it (for numerators and denominators below
    2^53). *)
Definition of_Z (z : Z) : float :=
  match z with
  | Z0 => 0
  | Zpos p => of_uint63 (Uint63.of_pos p)
  | Zneg p => - of_uint63 (Uint63.of_pos p)
  end.

Definition of_Q (q : Q) : float := of_Z (Qnum q) / of_Z (Zpos (Qden q)).

(** The mean of the numbers of a column, missing values skipped: their
    sum from left to right over their count, NaN when there is none. *)
Definition mean (vals : list cell) : float :=
  match numbers vals with
  | [] => nan
  | qs => fold_left add (map of_Q qs) 0
          / of_Z (Z.of_nat (List.length qs))
  end.

#[warnings="-inexact-float"] Definition minus_14_9 : float := -14.9.

End Binary64.

Module SampleGap.

(** Ihefu Core has a baseline NDVI of 0.6 and no current NDVI value. *)
Definition ndvi : DataFrame :=
  {| columns := ["zone"; "indicator"; "year"; "month"; "NDVI_mean"];
     rows :=
       [ [Str IHEFU; Str "NDVI_current"; Num 2024; Num 6; Null];
         [Str IHEFU; Str "NDVI_baseline"; Num 2024; Num 6; Num (3 # 5)] ] |}.

(** Its records, in binary64 with NumPy's rounding. *)
Definition results : list Binary64.record :=
  match Binary64.compute_deviations Binary64.np_round Binary64.mean ndvi with
  | Ok l => l
  | Raise _ => []
  end.

End SampleGap.

Module SampleFloat.

(** Usangu GR: NDVI 1.701 against a baseline of 2; Ihefu Core: NDVI 1
    against a baseline of 0. *)
Definition ndvi : DataFrame :=
  {| columns := ["zone"; "indicator"; "year"; "month"; "NDVI_mean"];
     rows :=
       [ [Str USANGU; Str "NDVI_current"; Num 2024; Num 6; Num (1701 # 1000)];
         [Str USANGU; Str "NDVI_baseline"; Num 2024; Num 6; Num 2];
         [Str IHEFU; Str "NDVI_current"; Num 2024; Num 6; Num 1];
         [Str IHEFU; Str "NDVI_baseline"; Num 2024; Num 6; Num 0] ] |}.

Definition results : list Binary64.record :=
  match Binary64.compute_deviations Binary64.np_round Binary64.mean ndvi with
  | Ok l => l
  | Raise _ => []
  end.

End SampleFloat.

(** ** Further sample inputs *)

Module SampleCountry.

(** The export directory holds only a fire export, the one with a
    [country] column. *)
Definition fs : Exports :=
  fun filename =>
    if String.eqb filename "fire_burn_2024_06.csv"
    then Some SampleErrors.fire_country else None.

End SampleCountry.

Module SampleNumeric.

(** An NDVI export whose indicators are numeric codes. *)
Definition ndvi : DataFrame :=
  {| columns := ["zone"; "indicator"; "year"; "month"; "NDVI_mean"];
     rows := [ [Str USANGU; Num 1; Num 2024; Num 6; Num (1 # 2)];
               [Str USANGU; Num 2; Num 2024; Num 6; Num (3 # 5)] ] |}.

Definition fs : Exports :=
  fun filename =>
    if String.eqb filename "ndvi_evi_2024_06.csv" then Some ndvi else None.

End SampleNumeric.

Module SampleOrder.

(** Two processes: one iterates a set in the order given, the other in
    the reverse order. *)
Definition forwards : SetOrder := fun l => l.
Definition backwards : SetOrder := fun l => rev l.

(** [str] of the percentages the samples use. *)
Definition repr_float (x : Float.t) : string :=
  match x with
  | Float.NaN => "nan"
  | Float.Fin q => fmt_1f q
  end.

End SampleOrder.
(* ====================================================================== *)
(** * Properties *)

(** ** Arithmetic, strings and lists *)

Lemma Qle_bool_false (a b : Q) : Qle_bool a b = false <-> (b < a)%Q.
Proof.
  split; intros H.
  - apply Qnot_le_lt. intros Hle. apply Qle_bool_iff in Hle. congruence.
  - destruct (Qle_bool a b) eqn:E; [|reflexivity].
    apply Qle_bool_iff in E. exfalso. now apply (Qlt_not_le _ _ H).
Qed.

Lemma Qeq_bool_sym (a b : Q) : Qeq_bool a b = Qeq_bool b a.
Proof.
  destruct (Qeq_bool a b) eqn:E1, (Qeq_bool b a) eqn:E2; try reflexivity.
  - apply Qeq_bool_iff in E1. symmetry in E1. apply Qeq_bool_iff in E1. congruence.
  - apply Qeq_bool_iff in E2. symmetry in E2. apply Qeq_bool_iff in E2. congruence.
Qed.

Lemma Qabs_zero (q : Q) : (Qabs q == 0)%Q -> (q == 0)%Q.
Proof.
  intros H. destruct (Qlt_le_dec q 0) as [Hneg|Hpos].
  - rewrite Qabs_neg in H by now apply Qlt_le_weak.
    rewrite <- (Qopp_involutive q), H. reflexivity.
  - now rewrite Qabs_pos in H.
Qed.

Lemma gtb_30 (q : Q) :
  Float.gtb (Float.Fin q) (Float.Fin 30) = true <-> (30 < q)%Q.
Proof.
  simpl. rewrite negb_true_iff. split; intros H.
  - apply Qnot_le_lt. intros Hle. apply Qle_bool_iff in Hle. congruence.
  - destruct (Qle_bool q 30) eqn:E; [|reflexivity].
    apply Qle_bool_iff in E. exfalso. now apply (Qlt_not_le _ _ H).
Qed.

Lemma prefix_lower (a b : string) :
  prefix a b = true -> prefix (lower a) (lower b) = true.
Proof.
  revert b; induction a as [|c a IH]; intros b H.
  - destruct b; reflexivity.
  - destruct b as [|c' b]; simpl in H; [discriminate|].
    simpl. destruct (ascii_dec c c') as [->|]; [|discriminate].
    destruct (ascii_dec (lower_ascii c') (lower_ascii c')); [|congruence].
    now apply IH.
Qed.

Lemma contains_unfold (sub s : string) :
  contains sub s
  = if prefix sub s then true
    else match s with
         | EmptyString => false
         | String _ s' => contains sub s'
         end.
Proof. destruct s; reflexivity. Qed.

Lemma contains_lower (sub s : string) :
  contains sub s = true -> contains (lower sub) (lower s) = true.
Proof.
  induction s as [|c s IH]; intros H;
    rewrite contains_unfold in H; rewrite (contains_unfold (lower sub)).
  - destruct (prefix sub "") eqn:E; [|discriminate].
    apply prefix_lower in E. now rewrite E.
  - destruct (prefix sub (String c s)) eqn:E.
    + apply prefix_lower in E. now rewrite E.
    + apply IH in H. change (lower (String c s)) with (String (lower_ascii c) (lower s)).
      cbv beta iota. rewrite H.
      destruct (prefix (lower sub) _); reflexivity.
Qed.

Lemma filter_nil {A : Type} (p : A -> bool) (l : list A) :
  (forall a, In a l -> p a = false) -> filter p l = [].
Proof.
  induction l as [|x xs IH]; intros H; simpl; [reflexivity|].
  rewrite (H x (or_introl eq_refl)). apply IH. intros a Ha. apply H. now right.
Qed.

Lemma filter_all {A : Type} (p : A -> bool) (l : list A) :
  (forall a, In a l -> p a = true) -> filter p l = l.
Proof.
  induction l as [|x xs IH]; intros H; simpl; [reflexivity|].
  rewrite (H x (or_introl eq_refl)). f_equal. apply IH.
  intros a Ha. apply H. now right.
Qed.

Lemma filter_refines {A : Type} (p q : A -> bool) (l : list A) :
  (forall x, q x = true -> p x = true) ->
  filter q (filter p l) = filter q l.
Proof.
  intros Hpq. induction l as [|x xs IH]; simpl; [reflexivity|].
  destruct (p x) eqn:Ep; simpl.
  - now rewrite IH.
  - destruct (q x) eqn:Eq; [|exact IH].
    apply Hpq in Eq. congruence.
Qed.

Lemma flat_map_singletons {A B : Type} (p : A -> bool) (h : A -> B) (l : list A) :
  flat_map (fun x => if p x then [h x] else []) l = map h (filter p l).
Proof.
  induction l as [|x xs IH]; simpl; [reflexivity|].
  destruct (p x); simpl; now rewrite IH.
Qed.

Lemma concat_mapM_ok {A B : Type} (f : A -> result (list B)) (g : A -> list B)
    (l : list A) :
  (forall x, In x l -> f x = Ok (g x)) ->
  concat_mapM f l = Ok (flat_map g l).
Proof.
  induction l as [|x xs IH]; intros H; simpl; [reflexivity|].
  rewrite (H x (or_introl eq_refl)); simpl.
  rewrite IH; [reflexivity|]. intros y Hy. apply H. now right.
Qed.

Lemma concat_mapM_inv {A B : Type} (f : A -> result (list B)) (l : list A)
    (ys : list B) (y : B) :
  concat_mapM f l = Ok ys -> In y ys ->
  exists x zs, In x l /\ f x = Ok zs /\ In y zs.
Proof.
  revert ys; induction l as [|x xs IH]; simpl; intros ys H Hy.
  - injection H as <-. destruct Hy.
  - destruct (f x) as [zs|e] eqn:Ef; [|discriminate]. simpl in H.
    destruct (concat_mapM f xs) as [ws|e]; [|discriminate].
    injection H as <-. apply in_app_or in Hy as [Hy|Hy].
    + exists x, zs. split; [now left|]. split; assumption.
    + destruct (IH ws eq_refl Hy) as (x' & zs' & Hx' & Hf & Hin).
      exists x', zs'. split; [now right|]. split; assumption.
Qed.

(** ** Cells and tables *)

Lemma cell_same_sym (a b : cell) : cell_same a b = cell_same b a.
Proof.
  destruct a, b; simpl; try reflexivity.
  - apply Qeq_bool_sym.
  - apply String.eqb_sym.
Qed.

Lemma cell_eqb_same (x a b : cell) :
  cell_same a b = true -> cell_eqb x a = cell_eqb x b.
Proof.
  destruct a as [|p|s], b as [|q|u]; simpl; try discriminate; try reflexivity;
    intros H; destruct x as [|r|v]; simpl; try reflexivity.
  - apply Qeq_bool_iff in H.
    destruct (Qeq_bool r p) eqn:E1, (Qeq_bool r q) eqn:E2; try reflexivity.
    + apply Qeq_bool_iff in E1. rewrite H in E1. apply Qeq_bool_iff in E1. congruence.
    + apply Qeq_bool_iff in E2. rewrite <- H in E2. apply Qeq_bool_iff in E2. congruence.
  - apply String.eqb_eq in H. now subst.
Qed.

Lemma of_zone_same (df : DataFrame) (a b : cell) :
  cell_same a b = true -> of_zone a df = of_zone b df.
Proof.
  intros H. unfold of_zone, select. f_equal.
  apply filter_ext. intros r. now apply cell_eqb_same.
Qed.

Lemma lacks_rows_same (df : DataFrame) (a b : cell) :
  cell_same a b = true -> lacks_rows df a = lacks_rows df b.
Proof.
  intros H. unfold lacks_rows. now rewrite !(of_zone_same _ a b H).
Qed.

(** The values [unique] returns are pairwise different. *)
Lemma unique_from_distinct (seen l : list cell) :
  (forall x s, In x (unique_from seen l) -> In s seen -> cell_same x s = false)
  /\ ForallOrdPairs (fun a b => cell_same a b = false) (unique_from seen l).
Proof.
  revert seen; induction l as [|y ys IH]; intros seen; simpl.
  - split; [intros x s []|constructor].
  - destruct (existsb (cell_same y) seen) eqn:E.
    + apply IH.
    + destruct (IH (y :: seen)) as [IH1 IH2]. split.
      * intros x s [<-|Hx] Hs.
        -- destruct (cell_same y s) eqn:Es; [|reflexivity].
           assert (existsb (cell_same y) seen = true)
             by (apply existsb_exists; now exists s).
           congruence.
        -- apply IH1; [assumption | now right].
      * constructor; [|assumption].
        apply Forall_forall. intros x Hx.
        rewrite cell_same_sym. apply IH1; [assumption | now left].
Qed.

Lemma same_kind_refl (v : cell) : same_kind v v.
Proof. split; reflexivity. Qed.

Lemma cast_row_some (cols : list string) (r : list cell) (c : string) :
  is_num (lookup cols r c) = true ->
  exists r', cast_row cols r c = Some r' /\ Forall2 same_kind r r'.
Proof.
  revert r; induction cols as [|col cols IH]; intros r H; [discriminate|].
  destruct r as [|v r]; [discriminate|]. simpl in *.
  destruct (String.eqb col c).
  - destruct v as [|q|s]; try discriminate. simpl.
    eexists; split; [reflexivity|]. constructor.
    + split; reflexivity.
    + clear. induction r; constructor; [apply same_kind_refl | assumption].
  - destruct (IH r H) as (r' & -> & Hk). simpl.
    eexists; split; [reflexivity|]. constructor; [apply same_kind_refl | assumption].
Qed.

Lemma cast_rows_some (cols : list string) (rs : list (list cell)) (c : string) :
  forallb is_num (map (fun r => lookup cols r c) rs) = true ->
  exists rs', cast_rows cols rs c = Some rs'
              /\ Forall2 (Forall2 same_kind) rs rs'.
Proof.
  induction rs as [|r rs IH]; simpl; intros H.
  - exists []. split; [reflexivity | constructor].
  - apply andb_true_iff in H as [Hr Hrs].
    destruct (cast_row_some cols r c Hr) as (r' & -> & Hk).
    destruct (IH Hrs) as (rs' & -> & Hks).
    exists (r' :: rs'). split; [reflexivity | now constructor].
Qed.

Lemma astype_int_ok (df : DataFrame) (c : string) :
  forallb is_num (column df c) = true ->
  exists df', astype_int df c = Ok df' /\ same_kinds df df'.
Proof.
  intros H. unfold astype_int.
  destruct (cast_rows_some (columns df) (rows df) c H) as (rs' & -> & Hk).
  eexists; split; [reflexivity|]. split; [reflexivity | exact Hk].
Qed.

Lemma lookup_same_kind (cols : list string) (r r' : list cell) (c : string) :
  Forall2 same_kind r r' -> same_kind (lookup cols r c) (lookup cols r' c).
Proof.
  intros H. revert cols. induction H as [|v v' r r' Hv Hr IH]; intros cols.
  - destruct cols; apply same_kind_refl.
  - destruct cols as [|col cols]; [apply same_kind_refl|]. simpl.
    destruct (String.eqb col c); [assumption | apply IH].
Qed.

Lemma same_kinds_column (p : cell -> bool) (df df' : DataFrame) (c : string) :
  (forall v v', same_kind v v' -> p v = p v') ->
  same_kinds df df' ->
  forallb p (column df' c) = forallb p (column df c).
Proof.
  intros Hp [Hc Hr]. unfold column. rewrite Hc.
  induction Hr as [|r r' rs rs' Hk Hrs IH]; simpl; [reflexivity|].
  rewrite IH. f_equal. symmetry. apply Hp. now apply lookup_same_kind.
Qed.

Lemma same_kinds_fire (df df' : DataFrame) :
  same_kinds df df' -> fire_counts_numeric df' = fire_counts_numeric df.
Proof.
  intros [Hc Hr]. unfold fire_counts_numeric. rewrite Hc.
  induction Hr as [|r r' rs rs' Hk Hrs IH]; simpl; [reflexivity|].
  rewrite IH. f_equal. clear IH Hrs.
  generalize (columns df). induction Hk as [|v v' r r' [Hs _] Hk IH];
    intros cols; destruct cols as [|col cols]; simpl; try reflexivity.
  now rewrite IH, Hs.
Qed.

Lemma get_In (datasets : Datasets) (key : string) (df : DataFrame) :
  get datasets key = Some df -> In (key, df) datasets.
Proof.
  induction datasets as [|[k d] rest IH]; simpl; [discriminate|].
  destruct (String.eqb k key) eqn:E.
  - intros [= ->]. apply String.eqb_eq in E. subst. now left.
  - intros H. right. now apply IH.
Qed.

(** ** The export loader *)

Lemma missing_cols_spec (raw : DataFrame) (c : string) :
  In c (missing_cols raw) <-> In c required_cols /\ ~ In c (columns raw).
Proof.
  unfold missing_cols. rewrite filter_In, negb_true_iff. unfold mem.
  split; intros [H1 H2]; (split; [assumption|]).
  - intros Hin. assert (existsb (String.eqb c) (columns raw) = true).
    { apply existsb_exists. exists c. split; [assumption | apply String.eqb_refl]. }
    congruence.
  - destruct (existsb _ _) eqn:E; [|reflexivity].
    apply existsb_exists in E as (x & Hx & Heq).
    apply String.eqb_eq in Heq. now subst.
Qed.

Lemma load_gee_export_missing (raw : DataFrame) :
  missing_cols raw <> [] ->
  load_gee_export raw = Raise (MissingColumns (missing_cols raw)).
Proof.
  unfold load_gee_export. now destruct (missing_cols raw).
Qed.

Lemma load_gee_export_ok (key : string) (raw : DataFrame) :
  well_formed_export key raw ->
  exists df, load_gee_export raw = Ok df /\ processable (key, df).
Proof.
  intros (Hmiss & Hy & Hm & Hind & Hfire). unfold load_gee_export. rewrite Hmiss.
  destruct (astype_int_ok raw "year" Hy) as (df1 & -> & H1). simpl.
  assert (Hm1 : forallb is_num (column df1 "month") = true).
  { rewrite (same_kinds_column is_num raw df1); [assumption | | assumption].
    now intros v v' [_ H]. }
  destruct (astype_int_ok df1 "month" Hm1) as (df2 & -> & H2). simpl.
  exists df2. split; [reflexivity|]. split; simpl.
  - intros Hk.
    rewrite (same_kinds_column is_str df1 df2), (same_kinds_column is_str raw df1);
      try assumption; try (now intros v v' [H _]). now apply Hind.
  - intros Hk. rewrite (same_kinds_fire df1 df2), (same_kinds_fire raw df1);
      try assumption. now apply Hfire.
Qed.

Lemma load_loop_ok (fs : Exports) (pats : list (string * string))
    (datasets : Datasets) (log : list LogRecord) :
  (forall key filename raw,
      In (key, filename) pats -> fs filename = Some raw ->
      well_formed_export key raw) ->
  exists loaded,
    load_loop fs pats datasets log
    = (log ++ missing_warnings fs pats, Ok (datasets ++ loaded))
    /\ map fst loaded = map fst (present fs pats)
    /\ Forall processable loaded.
Proof.
  revert datasets log. induction pats as [|[k f] rest IH]; intros datasets log Hwf.
  - exists []. simpl. rewrite !app_nil_r. repeat split. constructor.
  - assert (Hrest : forall key filename raw,
               In (key, filename) rest -> fs filename = Some raw ->
               well_formed_export key raw).
    { intros key filename raw Hin. apply Hwf. now right. }
    simpl. unfold present, missing_warnings, exists_file. simpl.
    destruct (fs f) as [raw|] eqn:Ef; simpl.
    + destruct (load_gee_export_ok k raw) as (df & -> & Hp).
      { apply (Hwf k f raw); [now left | assumption]. }
      destruct (IH (datasets ++ [(k, df)]) log Hrest) as (loaded & -> & Hk & Hall).
      exists ((k, df) :: loaded). rewrite <- app_assoc. simpl.
      repeat split.
      * f_equal. exact Hk.
      * now constructor.
    + match goal with
      | |- context [load_loop fs rest datasets ?l] =>
          destruct (IH datasets l Hrest) as (loaded & -> & Hk & Hall)
      end.
      exists loaded. rewrite <- app_assoc. simpl. repeat split; assumption.
Qed.

(** ** The quality validator *)

Lemma fold_add_check_checks (datasets : Datasets) (q : QualityReport) :
  checks (fold_left add_check datasets q)
  = checks q ++ map (fun kv => check_dataset (fst kv) (snd kv)) datasets.
Proof.
  revert q; induction datasets as [|kv ds IH]; intros q; simpl.
  - now rewrite app_nil_r.
  - rewrite IH; simpl. now rewrite <- app_assoc.
Qed.

Lemma fold_add_check_status (datasets : Datasets) (q : QualityReport) :
  overall_status (fold_left add_check datasets q)
  = if forallb passes datasets then overall_status q else WARNING.
Proof.
  revert q; induction datasets as [|kv ds IH]; intros q; simpl; [reflexivity|].
  rewrite IH; unfold passes at 2; simpl.
  destruct (is_pass _); simpl; [reflexivity|].
  now destruct (forallb passes ds).
Qed.

Lemma fold_add_check_timestamp (datasets : Datasets) (q : QualityReport) :
  timestamp (fold_left add_check datasets q) = timestamp q.
Proof.
  revert q; induction datasets as [|kv ds IH]; intros q; simpl; [reflexivity|].
  now rewrite IH.
Qed.

Lemma validate_data_quality_eq (now : string) (datasets : Datasets) :
  validate_data_quality now datasets
  = {| timestamp := now;
       checks := map (fun kv => check_dataset (fst kv) (snd kv)) datasets;
       overall_status := if forallb passes datasets then PASS else WARNING |}.
Proof.
  unfold validate_data_quality.
  pose proof (fold_add_check_timestamp datasets
                {| timestamp := now; checks := []; overall_status := PASS |}) as Ht.
  pose proof (fold_add_check_checks datasets
                {| timestamp := now; checks := []; overall_status := PASS |}) as Hc.
  pose proof (fold_add_check_status datasets
                {| timestamp := now; checks := []; overall_status := PASS |}) as Hs.
  destruct (fold_left add_check datasets _) as [t c o]. simpl in *.
  now subst.
Qed.


Lemma missing_zones_flag_null_rate (c : Check.t) :
  missing_zones (flag_null_rate c) = missing_zones c.
Proof.
  unfold flag_null_rate. now destruct (Float.gtb _ _).
Qed.




(** C10. When a dataset both exceeds the 30% null rate and lacks an
    expected zone, the null-rate check first attaches its note, and the
    missing-zones check then overwrites it: the check carries the
    missing-zones note only, and its status is WARNING. *)
Theorem missing_zones_note_overwrites (key : string) (df : DataFrame) :
  Float.gtb (null_percentage df) (Float.Fin 30) = true ->
  missing_zones (new_check key df) <> [] ->
  Check.note (flag_null_rate (new_check key df))
  = Some (HighNullRate (null_percentage df))
  /\ Check.note (check_dataset key df)
     = Some (MissingZones (missing_zones (new_check key df)))
  /\ Check.status (check_dataset key df) = WARNING.
Proof.
  intros Hgt Hmiss.
  assert (Hf : flag_null_rate (new_check key df)
               = Check.set_warning (new_check key df)
                   (HighNullRate (null_percentage df))).
  { unfold flag_null_rate; simpl. now rewrite Hgt. }
  split; [now rewrite Hf|].
  unfold check_dataset, flag_missing_zones.
  rewrite missing_zones_flag_null_rate.
  destruct (missing_zones (new_check key df)) eqn:E; [contradiction|].
  split; reflexivity.
Qed.

Lemma missing_zones_note_overwrites_witness :
  Check.note (check_dataset "fire" Sample.nulls_40)
  = Some (MissingZones [IHEFU; NYERERE]).
Proof.
  apply (missing_zones_note_overwrites "fire" Sample.nulls_40).
  - vm_compute; reflexivity.
  - vm_compute; discriminate.
Defined.

(** ** The deviation calculator *)

Lemma zone_deviations_zone (df current baseline : DataFrame) (z : cell) rec :
  In rec (zone_deviations df current baseline z) -> Deviation.zone rec = z.
Proof.
  unfold zone_deviations. destruct (_ || _); [intros []|].
  intros H. apply in_map_iff in H as (col & <- & _). reflexivity.
Qed.

Lemma filter_flat_map_distinct (F : cell -> list Deviation.t) (zones : list cell)
    (z : cell) :
  (forall z' rec, In rec (F z') -> Deviation.zone rec = z') ->
  ForallOrdPairs (fun a b => cell_same a b = false) zones ->
  In z zones ->
  cell_same z z = true ->
  filter (fun rec => cell_same (Deviation.zone rec) z) (flat_map F zones) = F z.
Proof.
  intros HF Hd Hin Hrefl.
  induction Hd as [|z0 rest Hz0 Hrest IH]; [destruct Hin|].
  simpl. rewrite filter_app. destruct Hin as [->|Hin].
  - rewrite filter_all, filter_nil; [apply app_nil_r | |].
    + intros rec Hrec. apply in_flat_map in Hrec as (z' & Hz' & Hrec).
      rewrite (HF _ _ Hrec). rewrite Forall_forall in Hz0.
      rewrite cell_same_sym. now apply Hz0.
    + intros rec Hrec. now rewrite (HF _ _ Hrec).
  - rewrite filter_nil, IH; [reflexivity | assumption |].
    intros rec Hrec. rewrite (HF _ _ Hrec).
    rewrite Forall_forall in Hz0. now apply Hz0.
Qed.

(** C8. On a table whose indicator cells are strings the calculator
    returns its records without raising, and for every zone: when the
    zone has no current rows or no baseline rows, no record is emitted
    for it; when it has both, the records emitted for it are exactly one
    per value column, computed from the means of that zone's rows,
    whatever zones were skipped. *)
Theorem zones_lacking_rows_skipped (df : DataFrame) :
  forallb is_str (column df "indicator") = true ->
  exists recs,
    compute_deviations df = Ok recs
    /\ (forall zone, lacks_rows df zone = true ->
          forall rec, In rec recs -> cell_same (Deviation.zone rec) zone = false)
    /\ (forall zone, In zone (unique (column df "zone")) ->
          lacks_rows df zone = false ->
          filter (fun rec => cell_same (Deviation.zone rec) zone) recs
          = map (fun col => deviation_record zone col
                              (current_mean df zone col)
                              (baseline_mean df zone col))
                (value_columns df)).
Proof.
  intros Hstr. unfold compute_deviations. rewrite Hstr.
  eexists; split; [reflexivity|]. split.
  - intros zone Hlack rec Hrec.
    apply in_flat_map in Hrec as (z' & _ & Hrec).
    destruct (cell_same (Deviation.zone rec) zone) eqn:E; [|reflexivity].
    rewrite (zone_deviations_zone _ _ _ _ _ Hrec) in E.
    rewrite <- (lacks_rows_same df z' zone E) in Hlack.
    unfold zone_deviations in Hrec. unfold lacks_rows, current_rows, baseline_rows in Hlack.
    rewrite Hlack in Hrec. destruct Hrec.
  - intros zone Hin Hboth.
    rewrite filter_flat_map_distinct.
    + unfold zone_deviations. unfold lacks_rows, current_rows, baseline_rows in Hboth.
      rewrite Hboth. reflexivity.
    + intros z' rec. apply zone_deviations_zone.
    + apply unique_from_distinct.
    + assumption.
    + destruct zone as [|q|s]; simpl; [reflexivity | | apply String.eqb_refl].
      apply Qeq_bool_iff. reflexivity.
Qed.

Lemma zones_lacking_rows_skipped_witness :
  exists recs,
    compute_deviations SampleNdvi.ndvi = Ok recs
    /\ (forall rec, In rec recs ->
          cell_same (Deviation.zone rec) (Str NYERERE) = false)
    /\ List.length
         (filter (fun rec => cell_same (Deviation.zone rec) (Str USANGU)) recs)
       = 2%nat.
Proof.
  destruct (zones_lacking_rows_skipped SampleNdvi.ndvi) as (recs & H1 & H2 & H3).
  - vm_compute; reflexivity.
  - exists recs. split; [exact H1|]. split.
    + apply H2. vm_compute; reflexivity.
    + rewrite H3.
      * vm_compute; reflexivity.
      * vm_compute. left; reflexivity.
      * vm_compute; reflexivity.
Defined.

Lemma compute_deviations_records (df : DataFrame) recs rec :
  compute_deviations df = Ok recs -> In rec recs ->
  exists zone col,
    In zone (unique (column df "zone")) /\ lacks_rows df zone = false
    /\ In col (value_columns df)
    /\ rec = deviation_record zone col (current_mean df zone col)
                              (baseline_mean df zone col).
Proof.
  unfold compute_deviations. destruct (forallb _ _); [|discriminate].
  intros [= <-] Hin. apply in_flat_map in Hin as (zone & Hz & Hin).
  unfold zone_deviations in Hin.
  destruct (_ || _) eqn:E; [destruct Hin|].
  apply in_map_iff in Hin as (col & <- & Hcol).
  now exists zone, col.
Qed.

(** A float is NaN exactly when its IEEE 754 value is. *)
Lemma is_nan_spec (x : PrimFloat.float) :
  PrimFloat.is_nan x = true <-> FloatOps.Prim2SF x = SpecFloat.S754_nan.
Proof.
  unfold PrimFloat.is_nan. rewrite FloatAxioms.eqb_spec.
  destruct (FloatOps.Prim2SF x) as [s| s| |s m e]; simpl.
  - split; discriminate.
  - destruct s; split; discriminate.
  - split; reflexivity.
  - unfold SpecFloat.SFeqb, SpecFloat.SFcompare.
    destruct s; rewrite Z.compare_refl, Pos.compare_refl; simpl;
      split; discriminate.
Qed.

(** A NaN current mean makes the quotient NaN, whatever the baseline. *)
Lemma quotient_nan (c b : PrimFloat.float) :
  PrimFloat.is_nan c = true ->
  PrimFloat.is_nan (Binary64.quotient c b) = true.
Proof.
  rewrite !is_nan_spec. intros H. unfold Binary64.quotient.
  rewrite FloatAxioms.mul_spec, FloatAxioms.div_spec, FloatAxioms.sub_spec, H.
  reflexivity.
Qed.

(** The deviation of the record built from two means. *)
Lemma deviation_record_pct
    (round : PrimFloat.float -> nat -> PrimFloat.float)
    (zone : cell) (col : string) (c b : PrimFloat.float) :
  let rec := Binary64.deviation_record round zone col c b in
  let q := Binary64.quotient c b in
  (Binary64.usable b = true -> PrimFloat.is_nan q = false ->
   Binary64.deviation_pct rec = Some (round q 1%nat))
  /\ (PrimFloat.eqb b PrimFloat.zero = true \/ PrimFloat.is_nan b = true ->
      Binary64.deviation_pct rec = None)
  /\ (PrimFloat.is_nan q = true -> Binary64.deviation_pct rec = None)
  /\ (PrimFloat.is_nan c = true -> Binary64.deviation_pct rec = None).
Proof.
  assert (Hq : PrimFloat.is_nan (Binary64.quotient c b) = true ->
               Binary64.deviation_pct
                 (Binary64.deviation_record round zone col c b) = None).
  { unfold Binary64.deviation_record, Binary64.dev_pct, Binary64.quotient.
    cbn [Binary64.deviation_pct]. intros Hn.
    destruct (negb _ && negb _); [rewrite Hn|]; reflexivity. }
  cbv zeta. split; [|split; [|split]].
  - unfold Binary64.deviation_record, Binary64.dev_pct, Binary64.usable,
      Binary64.quotient.
    cbn [Binary64.deviation_pct]. intros Hu Hn. rewrite Hu, Hn. reflexivity.
  - unfold Binary64.deviation_record, Binary64.dev_pct, PrimFloat.zero.
    cbn [Binary64.deviation_pct]. intros [Hb|Hb]; rewrite Hb.
    + reflexivity.
    + rewrite andb_false_r. reflexivity.
  - exact Hq.
  - intros Hc. apply Hq. now apply quotient_nan.
Qed.

Lemma binary64_records (round : PrimFloat.float -> nat -> PrimFloat.float)
    (series_mean : list cell -> PrimFloat.float) (df : DataFrame)
    (recs : list Binary64.record) (rec : Binary64.record) :
  Binary64.compute_deviations round series_mean df = Ok recs ->
  In rec recs ->
  exists zone col,
    In zone (unique (column df "zone")) /\ lacks_rows df zone = false
    /\ In col (value_columns df)
    /\ rec = Binary64.deviation_record round zone col
               (series_mean (column (of_zone zone (current_rows df)) col))
               (series_mean (column (of_zone zone (baseline_rows df)) col)).
Proof.
  unfold Binary64.compute_deviations. destruct (forallb _ _); [|discriminate].
  intros [= <-] Hin. apply in_flat_map in Hin as (zone & Hz & Hin).
  unfold Binary64.zone_deviations in Hin.
  destruct (_ || _) eqn:E; [destruct Hin|].
  apply in_map_iff in Hin as (col & <- & Hcol).
  now exists zone, col.
Qed.

(** C4, as amended.  On a table whose indicator cells are strings the
    calculator returns, and every record it builds belongs to a zone with
    current and baseline rows and to a value column; with [c] and [b] the
    means of the current and of the baseline values of that zone and
    column, computing in binary64 and with [round] the rounding of the
    float type: when [b] is neither 0 nor NaN and
    [q = ((c - b) / |b|) * 100] is not NaN, [deviation_pct] is [q] rounded
    to one decimal; when [b] is 0 or NaN, [deviation_pct] is [None]; and
    when [q] is NaN, as it is whenever [c] is NaN, [deviation_pct] is
    [None] as well. *)
Theorem deviation_pct_formula
    (round : PrimFloat.float -> nat -> PrimFloat.float)
    (series_mean : list cell -> PrimFloat.float) (df : DataFrame) :
  forallb is_str (column df "indicator") = true ->
  exists recs,
    Binary64.compute_deviations round series_mean df = Ok recs
    /\ forall rec, In rec recs ->
       exists col,
         In col (value_columns df)
         /\ Binary64.indicator rec = col
         /\ lacks_rows df (Binary64.zone rec) = false
         /\ let c := series_mean
                       (column (of_zone (Binary64.zone rec) (current_rows df))
                               col) in
            let b := series_mean
                       (column (of_zone (Binary64.zone rec) (baseline_rows df))
                               col) in
            let q := Binary64.quotient c b in
            (Binary64.usable b = true -> PrimFloat.is_nan q = false ->
             Binary64.deviation_pct rec = Some (round q 1%nat))
            /\ (PrimFloat.eqb b PrimFloat.zero = true
                \/ PrimFloat.is_nan b = true ->
                Binary64.deviation_pct rec = None)
            /\ (PrimFloat.is_nan q = true -> Binary64.deviation_pct rec = None)
            /\ (PrimFloat.is_nan c = true -> Binary64.deviation_pct rec = None).
Proof.
  intros Hstr.
  destruct (Binary64.compute_deviations round series_mean df) as [recs|e] eqn:Hok.
  2:{ unfold Binary64.compute_deviations in Hok. rewrite Hstr in Hok.
      discriminate Hok. }
  exists recs. split; [reflexivity|]. intros rec Hin.
  destruct (binary64_records round series_mean df recs rec Hok Hin)
    as (zone & col & Hz & Hrows & Hcol & ->).
  exists col. cbn [Binary64.zone Binary64.indicator Binary64.deviation_record].
  split; [assumption|]. split; [reflexivity|]. split; [assumption|].
  apply deviation_record_pct.
Qed.

Lemma deviation_pct_formula_witness :
  Binary64.compute_deviations Binary64.np_round Binary64.mean SampleFloat.ndvi
  = Ok SampleFloat.results
  /\ map Binary64.deviation_pct SampleFloat.results
     = [Some Binary64.minus_14_9; None].
Proof.
  assert (Hok : Binary64.compute_deviations Binary64.np_round Binary64.mean
                  SampleFloat.ndvi = Ok SampleFloat.results)
    by (vm_compute; reflexivity).
  split; [exact Hok|].
  destruct (deviation_pct_formula Binary64.np_round Binary64.mean
              SampleFloat.ndvi) as (recs & Hrecs & H);
    [vm_compute; reflexivity|].
  rewrite Hok in Hrecs. injection Hrecs as <-.
  destruct SampleFloat.results as [|r1 [|r2 [|r3 rs]]] eqn:E;
    try (vm_compute in E; discriminate E).
  cbn [map]. f_equal; [|f_equal].
  - destruct (H r1 (or_introl eq_refl)) as (col & _ & Hcol & _ & H1 & _).
    vm_compute in E. injection E as <- <-. cbn [Binary64.indicator] in Hcol.
    subst col. rewrite H1; vm_compute; reflexivity.
  - destruct (H r2 (or_intror (or_introl eq_refl)))
      as (col & _ & Hcol & _ & _ & H2 & _).
    vm_compute in E. injection E as <- <-. cbn [Binary64.indicator] in Hcol.
    subst col. apply H2. left. vm_compute; reflexivity.
Defined.

(** C4 as stated fails: in a table that gives Ihefu Core a baseline NDVI
    of 0.6 and no current NDVI value, the baseline mean is 0.6, neither 0
    nor NaN, yet the one record the calculator builds has [None] for its
    [deviation_pct], because the current mean is NaN; the table built
    from that record keeps the [None]. *)
Lemma deviation_pct_null_despite_baseline :
  Binary64.compute_deviations Binary64.np_round Binary64.mean SampleGap.ndvi
  = Ok SampleGap.results
  /\ map Binary64.zone SampleGap.results = [Str IHEFU]
  /\ map Binary64.indicator SampleGap.results = ["NDVI_mean"]
  /\ Binary64.usable
       (Binary64.mean
          (column (of_zone (Str IHEFU) (baseline_rows SampleGap.ndvi))
                  "NDVI_mean")) = true
  /\ PrimFloat.is_nan
       (Binary64.mean
          (column (of_zone (Str IHEFU) (current_rows SampleGap.ndvi))
                  "NDVI_mean")) = true
  /\ map Binary64.deviation_pct SampleGap.results = [None]
  /\ map Binary64.deviation_pct (Binary64.to_frame SampleGap.results) = [None].
Proof.
  repeat split; vm_compute; reflexivity.
Qed.

(** In a table where another record holds a number, the [None] of a
    record is NaN in the table the calculator returns. *)
Example frame_turns_none_into_nan :
  map Binary64.deviation_pct SampleFloat.results
  = [Some Binary64.minus_14_9; None]
  /\ map Binary64.deviation_pct (Binary64.to_frame SampleFloat.results)
     = [Some Binary64.minus_14_9; Some PrimFloat.nan].
Proof.
  split; vm_compute; reflexivity.
Qed.

(** ** The alert classifier *)

Lemma vegetation_index_guard (i : string) :
  contains "NDVI" i && negb (contains "stdDev" i)
  || contains "EVI" i && negb (contains "stdDev" i)
  = vegetation_index i.
Proof.
  unfold vegetation_index.
  destruct (contains "NDVI" i), (contains "EVI" i), (contains "stdDev" i);
    reflexivity.
Qed.

(** C5. For an NDVI/EVI deviation record with deviation [d]: when [d]
    equals the configured high threshold the record yields exactly one
    alert, of severity HIGH and without escalation note (it was not a
    MODERATE alert); with well-formed thresholds, when [d] equals the
    moderate threshold the record yields one alert whose base severity is
    MODERATE (kept outside Ihefu Core), and when [d] is above the moderate
    threshold it yields no alert. *)
Theorem ndvi_evi_thresholds_inclusive (th : Thresholds) (row : Deviation.t) (d : Q) :
  vegetation_index (Deviation.indicator row) = true ->
  Deviation.deviation_pct row = Some (Float.Fin d) ->
  ((d == ndvi_evi_high th)%Q ->
     exists a, ndvi_evi_alerts th row = [a]
               /\ Alert.severity a = HIGH
               /\ Alert.get_escalation a = None
               /\ Alert.zone a = Deviation.zone row
               /\ Alert.deviation_pct a = Some (Float.Fin d))
  /\ (thresholds_ok th -> (d == ndvi_evi_moderate th)%Q ->
        exists a, ndvi_evi_alerts th row = [a]
                  /\ (cell_eqb (Deviation.zone row) (Str IHEFU) = false ->
                      Alert.severity a = MODERATE))
  /\ (thresholds_ok th -> (ndvi_evi_moderate th < d)%Q ->
        ndvi_evi_alerts th row = []).
Proof.
  intros Hveg Hdev. unfold ndvi_evi_alerts.
  rewrite Hdev, vegetation_index_guard, Hveg. simpl Float.leb.
  repeat split.
  - intros Heq.
    assert (E : Qle_bool d (ndvi_evi_high th) = true).
    { apply Qle_bool_iff. rewrite Heq. apply Qle_refl. }
    rewrite E. rewrite andb_false_r. eexists; repeat split.
  - intros [Hlt _] Heq.
    assert (E1 : Qle_bool d (ndvi_evi_high th) = false).
    { apply Qle_bool_false. now rewrite Heq. }
    assert (E2 : Qle_bool d (ndvi_evi_moderate th) = true).
    { apply Qle_bool_iff. rewrite Heq. apply Qle_refl. }
    rewrite E1, E2. eexists; split; [reflexivity|].
    intros Hz. simpl. unfold IHEFU in Hz. now rewrite Hz.
  - intros [Hlt _] Hgt.
    assert (E1 : Qle_bool d (ndvi_evi_high th) = false).
    { apply Qle_bool_false. now apply Qlt_trans with (ndvi_evi_moderate th). }
    assert (E2 : Qle_bool d (ndvi_evi_moderate th) = false).
    { now apply Qle_bool_false. }
    now rewrite E1, E2.
Qed.

Lemma ndvi_evi_thresholds_inclusive_witness :
  (exists a, ndvi_evi_alerts Sample.th (Sample.ndvi_row (-25)) = [a]
             /\ Alert.severity a = HIGH /\ Alert.get_escalation a = None)
  /\ (exists a, ndvi_evi_alerts Sample.th (Sample.ndvi_row (-15)) = [a]
                /\ Alert.severity a = MODERATE)
  /\ ndvi_evi_alerts Sample.th (Sample.ndvi_row (-10)) = [].
Proof.
  assert (Hth : thresholds_ok Sample.th) by (split; reflexivity).
  split; [|split].
  - pose proof (ndvi_evi_thresholds_inclusive Sample.th (Sample.ndvi_row (-25))
                  (-25) eq_refl eq_refl) as (H & _).
    destruct H as (a & H1 & H2 & H3 & _); [reflexivity|].
    now exists a.
  - pose proof (ndvi_evi_thresholds_inclusive Sample.th (Sample.ndvi_row (-15))
                  (-15) eq_refl eq_refl) as (_ & H & _).
    destruct (H Hth) as (a & H1 & H2); [reflexivity|].
    exists a. split; [exact H1|]. apply H2. reflexivity.
  - pose proof (ndvi_evi_thresholds_inclusive Sample.th (Sample.ndvi_row (-10))
                  (-10) eq_refl eq_refl) as (_ & _ & H).
    apply (H Hth). reflexivity.
Defined.

Lemma fire_count_col_of_name (col : string) :
  contains "count" col = true \/ contains "T21" col = true ->
  is_fire_count_col col = true.
Proof.
  unfold is_fire_count_col. intros [H|H].
  - apply contains_lower in H. simpl lower in H. unfold lower_ascii in H.
    simpl in H. now rewrite H.
  - rewrite H. apply orb_true_r.
Qed.

Lemma fire_row_alerts_ok (cols : list string) (r : list cell) :
  forallb (fun item => negb (is_fire_count_col (fst item) && is_str (snd item)))
          (combine cols r) = true ->
  fire_row_alerts cols r
  = Ok (map (fun item => fire_alert (lookup cols r "zone") (cell_num (snd item)))
            (filter fire_detection (combine cols r))).
Proof.
  intros Hnum. unfold fire_row_alerts.
  set (zone := lookup cols r "zone").
  rewrite (concat_mapM_ok _
             (fun item => if fire_detection item
                          then [fire_alert zone (cell_num (snd item))] else [])).
  - rewrite flat_map_singletons. f_equal. f_equal.
    apply filter_refines. intros item H.
    unfold fire_detection in H. now apply andb_true_iff in H as [H _].
  - intros [c v] Hin. apply filter_In in Hin as [Hin Hc]. simpl in Hc.
    rewrite forallb_forall in Hnum. specialize (Hnum _ Hin). simpl in Hnum.
    unfold fire_cell_alerts, fire_detection; simpl. rewrite Hc in *; simpl in *.
    destruct v as [|q|s]; simpl in *; try reflexivity; try discriminate.
    now destruct (Qle_bool q 0).
Qed.

Lemma fire_alerts_ok (datasets : Datasets) (fire_df : DataFrame) :
  get datasets "fire" = Some fire_df ->
  fire_counts_numeric fire_df = true ->
  fire_alerts datasets = Ok (expected_fire_alerts fire_df).
Proof.
  intros Hget Hnum. unfold fire_alerts, expected_fire_alerts. rewrite Hget.
  apply concat_mapM_ok. intros r Hr.
  apply fire_row_alerts_ok.
  unfold fire_counts_numeric in Hnum. rewrite forallb_forall in Hnum.
  now apply Hnum.
Qed.

Lemma ndvi_evi_alerts_not_fire th row a :
  In a (ndvi_evi_alerts th row) -> is_active_fire a = false.
Proof.
  unfold ndvi_evi_alerts.
  destruct (Deviation.deviation_pct row) as [dev|]; [|intros []].
  destruct (_ || _); [|intros []].
  destruct (Float.leb dev _); [|destruct (Float.leb dev _)];
    try (intros []; fail);
    (intros [<-|[]]; unfold is_active_fire; simpl;
     now destruct (contains "NDVI" _ && _)).
Qed.

Lemma climate_alerts_not_fire row a :
  In a (climate_alerts row) -> is_active_fire a = false.
Proof.
  unfold climate_alerts, rainfall_alerts, lst_alerts. intros H.
  apply in_app_or in H as [H|H].
  - destruct (Deviation.deviation_pct row); [|destruct H].
    destruct (_ && _); [|destruct H].
    destruct H as [<-|[]]. reflexivity.
  - destruct (contains "LST" _); [|destruct H].
    destruct (Float.sub _ _); [destruct H|].
    destruct (negb _); [|destruct H].
    destruct H as [<-|[]]. reflexivity.
Qed.

Lemma expected_fire_alerts_spec (df : DataFrame) (a : Alert.t) :
  In a (expected_fire_alerts df) <->
  exists r col q,
    In r (rows df) /\ In (col, Num q) (combine (columns df) r)
    /\ is_fire_count_col col = true /\ (0 < q)%Q
    /\ a = fire_alert (lookup (columns df) r "zone") q.
Proof.
  unfold expected_fire_alerts. rewrite in_flat_map. split.
  - intros (r & Hr & Ha). apply in_map_iff in Ha as ([col v] & <- & Hi).
    apply filter_In in Hi as [Hi Hd]. unfold fire_detection in Hd; simpl in Hd.
    apply andb_true_iff in Hd as [Hc Hv].
    destruct v as [|q|s]; try discriminate.
    exists r, col, q. repeat split; try assumption.
    apply negb_true_iff in Hv. now apply Qle_bool_false.
  - intros (r & col & q & Hr & Hi & Hc & Hq & ->).
    exists r. split; [assumption|].
    apply in_map_iff. exists (col, Num q). split; [reflexivity|].
    apply filter_In. split; [assumption|].
    unfold fire_detection; simpl. rewrite Hc; simpl.
    apply negb_true_iff. now apply Qle_bool_false.
Qed.

(** C7, as amended.  For a fire table in which no column whose name
    matches "count" (in any case) or "T21" holds a string, the
    classifier returns an alert list in which the "Active Fire" alerts are
    exactly one per (row, column) with a column name matching "count"
    (in any case) or "T21" and a positive value, in row and column order.
    In particular a positive value [q] in a column whose name contains
    "count" or "T21" has its HIGH "Active Fire" alert with detail
    "Fire detections: n", [n] the integer part of [q], and every
    "Active Fire" alert comes from such a positive value: missing and
    non-positive values emit none. *)
Theorem fire_detections_alerted (th : Thresholds) (datasets : Datasets)
    (devs : list Deviation.t) (fire_df : DataFrame) :
  get datasets "fire" = Some fire_df ->
  fire_counts_numeric fire_df = true ->
  exists alerts,
    detect_alerts th datasets devs = Ok alerts
    /\ filter is_active_fire alerts = expected_fire_alerts fire_df
    /\ List.length (filter is_active_fire alerts)
       = list_sum (map (fun r => List.length
                                   (filter fire_detection
                                           (combine (columns fire_df) r)))
                       (rows fire_df))
    /\ (forall r col q,
          In r (rows fire_df) ->
          In (col, Num q) (combine (columns fire_df) r) ->
          contains "count" col = true \/ contains "T21" col = true ->
          (0 < q)%Q ->
          exists a,
            In a alerts
            /\ Alert.zone a = lookup (columns fire_df) r "zone"
            /\ Alert.indicator a = "Active Fire"
            /\ Alert.severity a = HIGH
            /\ Alert.detail a
               = Some ("Fire detections: " ++ str_of_Z (Float.to_int q))%string)
    /\ (forall a,
          In a alerts -> Alert.indicator a = "Active Fire" ->
          Alert.severity a = HIGH
          /\ exists r col q,
               In r (rows fire_df)
               /\ In (col, Num q) (combine (columns fire_df) r)
               /\ is_fire_count_col col = true /\ (0 < q)%Q
               /\ a = fire_alert (lookup (columns fire_df) r "zone") q).
Proof.
  intros Hget Hnum.
  exists (flat_map (ndvi_evi_alerts th) devs
          ++ expected_fire_alerts fire_df ++ flat_map climate_alerts devs).
  assert (Hfilter :
    filter is_active_fire
      (flat_map (ndvi_evi_alerts th) devs
         ++ expected_fire_alerts fire_df ++ flat_map climate_alerts devs)
    = expected_fire_alerts fire_df).
  { rewrite !filter_app.
    rewrite (filter_nil _ (flat_map (ndvi_evi_alerts th) devs)).
    2:{ intros a Ha. apply in_flat_map in Ha as (row & _ & Ha).
        now apply ndvi_evi_alerts_not_fire in Ha. }
    rewrite (filter_nil _ (flat_map climate_alerts devs)).
    2:{ intros a Ha. apply in_flat_map in Ha as (row & _ & Ha).
        now apply climate_alerts_not_fire in Ha. }
    rewrite app_nil_r. simpl. apply filter_all.
    intros a Ha. apply expected_fire_alerts_spec in Ha
      as (r & col & q & _ & _ & _ & _ & ->). reflexivity. }
  split; [|split; [|split; [|split]]].
  - unfold detect_alerts. now rewrite (fire_alerts_ok datasets fire_df Hget Hnum).
  - exact Hfilter.
  - rewrite Hfilter. unfold expected_fire_alerts.
    induction (rows fire_df) as [|r rs IH]; simpl; [reflexivity|].
    now rewrite length_app, length_map, IH.
  - intros r col q Hr Hi Hname Hq.
    exists (fire_alert (lookup (columns fire_df) r "zone") q).
    split; [|repeat split].
    apply in_or_app; right. apply in_or_app; left.
    apply expected_fire_alerts_spec. exists r, col, q.
    repeat split; try assumption. now apply fire_count_col_of_name.
  - intros a Ha Hind.
    assert (Hf : In a (filter is_active_fire
                   (flat_map (ndvi_evi_alerts th) devs
                    ++ expected_fire_alerts fire_df
                    ++ flat_map climate_alerts devs))).
    { apply filter_In. split; [assumption|].
      unfold is_active_fire. rewrite Hind. reflexivity. }
    rewrite Hfilter in Hf. apply expected_fire_alerts_spec in Hf.
    destruct Hf as (r & col & q & Hr & Hi & Hc & Hq & ->).
    split; [reflexivity|]. now exists r, col, q.
Qed.

Lemma fire_detections_alerted_witness :
  exists alerts,
    detect_alerts Sample.th SampleFire.datasets [] = Ok alerts
    /\ filter is_active_fire alerts
       = [ {| Alert.zone := Str "Nyerere NP";
              Alert.indicator := "Active Fire";
              Alert.severity := HIGH;
              Alert.deviation_pct := None;
              Alert.current := None;
              Alert.baseline := None;
              Alert.detail := Some "Fire detections: 3";
              Alert.escalation := Some None |} ].
Proof.
  destruct (fire_detections_alerted Sample.th SampleFire.datasets []
              SampleFire.fire) as (alerts & H1 & H2 & _).
  - reflexivity.
  - vm_compute; reflexivity.
  - exists alerts. split; [exact H1|]. rewrite H2. vm_compute. reflexivity.
Defined.

(** C7 as stated fails: the fire table with a [country] column holds the
    positive value 3 in its column [count], whose name contains "count",
    yet the classifier emits no alert for it: the string of the column
    [country], whose name contains "count" too, makes the comparison
    raise, and no alert list is returned. *)
Lemma positive_count_without_alert :
  (exists r,
      In r (rows SampleErrors.fire_country)
      /\ In ("count", Num 3) (combine (columns SampleErrors.fire_country) r)
      /\ In ("country", Str "Tanzania")
            (combine (columns SampleErrors.fire_country) r))
  /\ contains "count" "count" = true
  /\ contains "count" "country" = true
  /\ (0 < 3)%Q
  /\ detect_alerts Sample.th [("fire", SampleErrors.fire_country)] []
     = Raise (CompareTypeError "country").
Proof.
  split.
  - eexists. split; [left; reflexivity|].
    split; vm_compute; intuition.
  - repeat split.
Qed.

(** The NDVI/EVI rule never leaves a MODERATE alert in Ihefu Core, and an
    alert it escalated carries the note. *)
Lemma ndvi_evi_alerts_escalated (th : Thresholds) (row : Deviation.t) (a : Alert.t) :
  In a (ndvi_evi_alerts th row) ->
  (cell_eqb (Alert.zone a) (Str IHEFU) = true -> Alert.severity a = HIGH)
  /\ (Alert.get_escalation a <> None ->
      cell_eqb (Alert.zone a) (Str IHEFU) = true /\ Alert.severity a = HIGH).
Proof.
  unfold ndvi_evi_alerts.
  destruct (Deviation.deviation_pct row) as [dev|]; [|intros []].
  destruct (_ || _); [|intros []].
  destruct (Float.leb dev _); [|destruct (Float.leb dev _)];
    try (intros []; fail); intros [<-|[]]; simpl.
  - rewrite andb_false_r. split; [reflexivity|]. intros H; now elim H.
  - unfold IHEFU. destruct (cell_eqb (Deviation.zone row) _); simpl.
    + split; [reflexivity|]. intros _; split; reflexivity.
    + split; [discriminate|]. intros H; now elim H.
Qed.

(** Every fire alert is HIGH, whatever the table holds. *)
Lemma fire_alerts_high (datasets : Datasets) (fire : list Alert.t) (a : Alert.t) :
  fire_alerts datasets = Ok fire -> In a fire -> Alert.severity a = HIGH.
Proof.
  unfold fire_alerts. destruct (get datasets "fire") as [df|].
  - intros H Ha.
    destruct (concat_mapM_inv _ _ _ _ H Ha) as (r & zs & _ & Hr & Hin).
    unfold fire_row_alerts in Hr.
    destruct (concat_mapM_inv _ _ _ _ Hr Hin) as ([c v] & ws & _ & Hc & Hw).
    unfold fire_cell_alerts in Hc; simpl in Hc.
    destruct v as [|q|s]; try discriminate.
    + injection Hc as <-. destruct Hw.
    + destruct (negb (Qle_bool q 0)); injection Hc as <-; [|destruct Hw].
      destruct Hw as [<-|[]]. reflexivity.
  - intros [= <-] [].
Qed.

(** The alerts that stay MODERATE in Ihefu Core are those of the land
    surface temperature rule, and only those. *)
Lemma moderate_in_ihefu_is_lst (th : Thresholds) (datasets : Datasets)
    (devs : list Deviation.t) (alerts : list Alert.t) (a : Alert.t) :
  detect_alerts th datasets devs = Ok alerts ->
  In a alerts ->
  cell_eqb (Alert.zone a) (Str IHEFU) = true ->
  Alert.severity a = MODERATE ->
  Alert.indicator a = "Land Surface Temperature".
Proof.
  unfold detect_alerts. destruct (fire_alerts datasets) as [fire|e] eqn:Ef;
    [|discriminate]. simpl. intros [= <-] Hin Hz Hs.
  apply in_app_or in Hin as [Hin|Hin]; [|apply in_app_or in Hin as [Hin|Hin]].
  - apply in_flat_map in Hin as (row & _ & Hin).
    apply ndvi_evi_alerts_escalated in Hin as [H _]. rewrite (H Hz) in Hs.
    discriminate.
  - rewrite (fire_alerts_high _ _ _ Ef Hin) in Hs. discriminate.
  - apply in_flat_map in Hin as (row & _ & Hin).
    unfold climate_alerts in Hin. apply in_app_or in Hin as [Hin|Hin].
    + unfold rainfall_alerts in Hin.
      destruct (Deviation.deviation_pct row); [|destruct Hin].
      destruct (_ && _); [|destruct Hin].
      destruct Hin as [<-|[]]. discriminate.
    + unfold lst_alerts in Hin.
      destruct (contains "LST" _); [|destruct Hin].
      destruct (Float.sub _ _); [destruct Hin|].
      destruct (negb _); [|destruct Hin].
      destruct Hin as [<-|[]]. reflexivity.
Qed.

(** ** The monthly compiler *)

(** C1. The escalation is applied by the NDVI/EVI rule only: on the
    climate export of the sample directory, which gives Ihefu Core a land
    surface temperature 5 degrees above its baseline, the run writes a
    document whose alert list holds an alert of zone "Ihefu Core" with
    severity MODERATE and no escalation note. *)
Theorem lst_alert_not_escalated :
  exists path doc,
    snd (compile_monthly_dataset Sample.th SampleClimate.fs "t1" "t2" 2024 6)
    = Ok (Written path doc)
    /\ In SampleClimate.lst_alert (alerts doc)
    /\ Alert.zone SampleClimate.lst_alert = Str "Ihefu Core"
    /\ Alert.severity SampleClimate.lst_alert = MODERATE
    /\ Alert.get_escalation SampleClimate.lst_alert = None.
Proof.
  eexists. eexists. split; [vm_compute; reflexivity|].
  split; [left; reflexivity|]. repeat split.
Qed.

Lemma process_comparable (th : Thresholds) (nq1 no1 nq2 no2 : string)
    (year month : Z) (datasets : Datasets) :
  comparable (process th nq1 no1 year month datasets)
  = comparable (process th nq2 no2 year month datasets).
Proof.
  unfold process. rewrite !validate_data_quality_eq.
  destruct (deviations_of datasets "ndvi_evi") as [d1|e]; [|reflexivity].
  destruct (deviations_of datasets "climate") as [d2|e]; [|reflexivity].
  simpl. destruct (detect_alerts th datasets (d1 ++ d2)) as [al|e]; reflexivity.
Qed.

Lemma written_inj (path1 path2 : string) (doc1 doc2 : MonthlyDataset) :
  @Ok outcome (Written path1 doc1) = Ok (Written path2 doc2) ->
  path1 = path2 /\ doc1 = doc2.
Proof. intros H. injection H as -> ->. now split. Qed.

Lemma stored_notes_same_up_to_order (order1 order2 : SetOrder)
    (repr_float : Float.t -> string) (cs : list Check.t) :
  iteration_order order1 -> iteration_order order2 ->
  Forall2 same_up_to_order
    (map (fun c => option_map (note_text order1 repr_float) (Check.note c)) cs)
    (map (fun c => option_map (note_text order2 repr_float) (Check.note c)) cs).
Proof.
  intros H1 H2. induction cs as [|c cs IH]; simpl; constructor; [|exact IH].
  destruct (Check.note c) as [[pct|missing]|]; simpl.
  - now left.
  - right. exists (order1 missing), (order2 missing).
    split; [|split; reflexivity].
    apply Permutation_trans with missing; [apply Permutation_sym, H1 | apply H2].
  - now left.
Qed.

(** C2, as amended.  Two runs for the same period on the same export
    directory and thresholds, whatever the clock shows and in whatever
    order each process iterates over a set, log the same warnings and
    errors and end the same way (the same exception, or no data, or a
    document written to the same file); the two documents are equal
    except for [generated_at], the [timestamp] of the data-quality report
    and the order in which the "Missing zones" note of a check lists its
    zones: every other field, the other fields of the checks included
    (the loaded tables stand for the records stored from them), is
    identical. *)
Theorem reprocessing_equal_up_to_timestamps (th : Thresholds) (fs : Exports)
    (year month : Z) (nq1 no1 nq2 no2 : string) (order1 order2 : SetOrder)
    (repr_float : Float.t -> string) :
  iteration_order order1 -> iteration_order order2 ->
  fst (compile_monthly_dataset th fs nq1 no1 year month)
  = fst (compile_monthly_dataset th fs nq2 no2 year month)
  /\ comparable (snd (compile_monthly_dataset th fs nq1 no1 year month))
     = comparable (snd (compile_monthly_dataset th fs nq2 no2 year month))
  /\ (forall path1 doc1 path2 doc2,
        snd (compile_monthly_dataset th fs nq1 no1 year month)
        = Ok (Written path1 doc1) ->
        snd (compile_monthly_dataset th fs nq2 no2 year month)
        = Ok (Written path2 doc2) ->
        path1 = path2
        /\ except_timestamps doc1 = except_timestamps doc2
        /\ Forall2 same_up_to_order
             (stored_notes order1 repr_float doc1)
             (stored_notes order2 repr_float doc2)).
Proof.
  intros Ho1 Ho2.
  assert (Hcmp :
    comparable (snd (compile_monthly_dataset th fs nq1 no1 year month))
    = comparable (snd (compile_monthly_dataset th fs nq2 no2 year month))).
  { unfold compile_monthly_dataset.
    destruct (load_monthly_exports fs year month) as [log [datasets|e]];
      [|reflexivity].
    destruct datasets as [|kv ds]; [reflexivity|]. apply process_comparable. }
  split; [|split; [exact Hcmp|]].
  - unfold compile_monthly_dataset.
    destruct (load_monthly_exports fs year month) as [log [datasets|e]];
      [|reflexivity].
    destruct datasets as [|kv ds]; reflexivity.
  - intros path1 doc1 path2 doc2 E1 E2. rewrite E1, E2 in Hcmp.
    apply written_inj in Hcmp as [Hpath Hdoc].
    split; [exact Hpath|]. split; [exact Hdoc|].
    assert (Hchecks : checks (data_quality doc1) = checks (data_quality doc2)).
    { apply (f_equal (fun d => checks (data_quality d))) in Hdoc. exact Hdoc. }
    unfold stored_notes. rewrite Hchecks.
    now apply stored_notes_same_up_to_order.
Qed.

Lemma reprocessing_equal_up_to_timestamps_witness :
  exists path doc1 doc2,
    snd (compile_monthly_dataset Sample.th SampleClimate.fs
           "2024-07-01T00:00:00+00:00" "2024-07-01T00:00:01+00:00" 2024 6)
    = Ok (Written path doc1)
    /\ snd (compile_monthly_dataset Sample.th SampleClimate.fs
              "2024-07-02T00:00:00+00:00" "2024-07-02T00:00:01+00:00" 2024 6)
       = Ok (Written path doc2)
    /\ except_timestamps doc1 = except_timestamps doc2
    /\ stored_notes SampleOrder.forwards SampleOrder.repr_float doc1
       = [Some "Missing zones: {'Usangu GR', 'Nyerere NP'}"]
    /\ stored_notes SampleOrder.backwards SampleOrder.repr_float doc2
       = [Some "Missing zones: {'Nyerere NP', 'Usangu GR'}"]
    /\ Forall2 same_up_to_order
         (stored_notes SampleOrder.forwards SampleOrder.repr_float doc1)
         (stored_notes SampleOrder.backwards SampleOrder.repr_float doc2).
Proof.
  assert (Hf : iteration_order SampleOrder.forwards)
    by (intros l; apply Permutation_refl).
  assert (Hb : iteration_order SampleOrder.backwards)
    by (intros l; apply Permutation_rev).
  destruct (reprocessing_equal_up_to_timestamps Sample.th SampleClimate.fs 2024 6
              "2024-07-01T00:00:00+00:00" "2024-07-01T00:00:01+00:00"
              "2024-07-02T00:00:00+00:00" "2024-07-02T00:00:01+00:00"
              SampleOrder.forwards SampleOrder.backwards SampleOrder.repr_float
              Hf Hb) as (_ & _ & H).
  destruct (snd (compile_monthly_dataset Sample.th SampleClimate.fs
                   "2024-07-01T00:00:00+00:00" "2024-07-01T00:00:01+00:00"
                   2024 6)) as [[|path1 doc1]|e1] eqn:E1;
    try (vm_compute in E1; discriminate E1).
  destruct (snd (compile_monthly_dataset Sample.th SampleClimate.fs
                   "2024-07-02T00:00:00+00:00" "2024-07-02T00:00:01+00:00"
                   2024 6)) as [[|path2 doc2]|e2] eqn:E2;
    try (vm_compute in E2; discriminate E2).
  destruct (H path1 doc1 path2 doc2 eq_refl eq_refl) as (<- & Hdoc & Hnotes).
  exists path1, doc1, doc2.
  split; [reflexivity|]. split; [reflexivity|]. split; [exact Hdoc|].
  vm_compute in E1. injection E1 as _ <-.
  vm_compute in E2. injection E2 as _ <-.
  split; [vm_compute; reflexivity|]. split; [vm_compute; reflexivity|].
  exact Hnotes.
Defined.

(** C2 as stated fails: two runs on the sample directory at different
    times write documents that differ beyond [generated_at], in the
    [timestamp] of the data-quality report. *)
Lemma reprocessing_differs_in_quality_timestamp :
  exists path doc1 doc2,
    snd (compile_monthly_dataset Sample.th SampleClimate.fs
           "2024-07-01T00:00:00+00:00" "2024-07-01T00:00:01+00:00" 2024 6)
    = Ok (Written path doc1)
    /\ snd (compile_monthly_dataset Sample.th SampleClimate.fs
              "2024-07-02T00:00:00+00:00" "2024-07-02T00:00:01+00:00" 2024 6)
       = Ok (Written path doc2)
    /\ except_generated_at doc1 <> except_generated_at doc2
    /\ timestamp (data_quality doc1) <> timestamp (data_quality doc2).
Proof.
  eexists. eexists. eexists.
  split; [vm_compute; reflexivity|].
  split; [vm_compute; reflexivity|].
  split.
  - intros H. apply (f_equal (fun d => timestamp (data_quality d))) in H.
    vm_compute in H. discriminate H.
  - vm_compute. discriminate.
Qed.

(** The loop of the loader stops at the first file that exists and
    fails to load, after one warning for each absent file before it. *)
Lemma load_loop_first_failure (fs : Exports) (pre post : list (string * string))
    (key filename : string) (raw : DataFrame) (e : exn)
    (datasets : Datasets) (log : list LogRecord) :
  (forall k f raw', In (k, f) pre -> fs f = Some raw' ->
                    exists df, load_gee_export raw' = Ok df) ->
  fs filename = Some raw ->
  load_gee_export raw = Raise e ->
  load_loop fs (pre ++ (key, filename) :: post) datasets log
  = (log ++ missing_warnings fs pre, Raise e).
Proof.
  revert datasets log. induction pre as [|[k f] pre IH];
    intros datasets log Hpre Hfs Hload.
  - simpl. rewrite Hfs, Hload. unfold missing_warnings. simpl.
    now rewrite app_nil_r.
  - assert (Hrest : forall k0 f0 raw', In (k0, f0) pre -> fs f0 = Some raw' ->
                    exists df, load_gee_export raw' = Ok df).
    { intros k0 f0 raw' Hin. apply (Hpre k0). now right. }
    simpl. unfold missing_warnings, exists_file. simpl.
    destruct (fs f) as [raw'|] eqn:Ef; simpl.
    + destruct (Hpre k f raw' (or_introl eq_refl) Ef) as (df & ->).
      now apply IH.
    + rewrite (IH _ _ Hrest Hfs Hload), <- app_assoc. reflexivity.
Qed.

(** Among the files of a list of which one exists and fails to load,
    there is a first one. *)
Lemma first_failure (fs : Exports) (pats : list (string * string))
    (key filename : string) (raw : DataFrame) (e : exn) :
  In (key, filename) pats ->
  fs filename = Some raw ->
  load_gee_export raw = Raise e ->
  exists pre k f raw' e' post,
    pats = pre ++ (k, f) :: post
    /\ (forall k0 f0 raw0, In (k0, f0) pre -> fs f0 = Some raw0 ->
                           exists df, load_gee_export raw0 = Ok df)
    /\ fs f = Some raw'
    /\ load_gee_export raw' = Raise e'
    /\ ((k, f) = (key, filename) \/ In (key, filename) post).
Proof.
  induction pats as [|[k f] rest IH]; intros Hin Hfs Hload; [destruct Hin|].
  destruct (fs f) as [raw'|] eqn:Ef.
  - destruct (load_gee_export raw') as [df|e'] eqn:El.
    + destruct Hin as [[= -> ->]|Hin]; [congruence|].
      destruct (IH Hin Hfs Hload)
        as (pre & k1 & f1 & raw1 & e1 & post & -> & Hpre & H1 & H2 & H3).
      exists ((k, f) :: pre), k1, f1, raw1, e1, post.
      split; [reflexivity|]. split; [|now repeat split].
      intros k0 f0 raw0 [[= <- <-]|Hin0] Hfs0.
      * rewrite Ef in Hfs0. injection Hfs0 as <-. now exists df.
      * now apply (Hpre k0 f0).
    + exists [], k, f, raw', e', rest.
      split; [reflexivity|]. split; [intros k0 f0 raw0 []|].
      split; [assumption|]. split; [assumption|].
      destruct Hin as [Hin|Hin]; [now left | now right].
  - destruct Hin as [[= -> ->]|Hin]; [congruence|].
    destruct (IH Hin Hfs Hload)
      as (pre & k1 & f1 & raw1 & e1 & post & -> & Hpre & H1 & H2 & H3).
    exists ((k, f) :: pre), k1, f1, raw1, e1, post.
    split; [reflexivity|]. split; [|now repeat split].
    intros k0 f0 raw0 [[= <- <-]|Hin0] Hfs0; [congruence|].
    now apply (Hpre k0 f0).
Qed.

(** C3, as amended.  Loading a table that lacks required columns raises
    the error naming exactly the required columns that are missing, and
    when the file of any category of the period is present and lacks a
    required column the failure is not caught: whatever the other
    categories hold, the whole run ends in an exception and writes no
    document.  The exception is the loading error of the first file, in
    loading order, that is present and fails to load, raised after one
    warning for each absent file before it; that file is this one or an
    earlier one, and it is this one, with its missing-columns error,
    when every present file before it loads. *)
Theorem schema_error_aborts_run (th : Thresholds) (fs : Exports)
    (now_quality now_output : string) (year month : Z)
    (key filename : string) (raw : DataFrame) (c : string) :
  In (key, filename) (patterns year month) ->
  fs filename = Some raw ->
  In c required_cols ->
  ~ In c (columns raw) ->
  load_gee_export raw = Raise (MissingColumns (missing_cols raw))
  /\ In c (missing_cols raw)
  /\ (forall c', In c' (missing_cols raw)
                 <-> In c' required_cols /\ ~ In c' (columns raw))
  /\ (exists pre k f raw' e post,
        patterns year month = pre ++ (k, f) :: post
        /\ (forall k0 f0 raw0, In (k0, f0) pre -> fs f0 = Some raw0 ->
                               exists df, load_gee_export raw0 = Ok df)
        /\ fs f = Some raw'
        /\ load_gee_export raw' = Raise e
        /\ ((k, f) = (key, filename) \/ In (key, filename) post)
        /\ compile_monthly_dataset th fs now_quality now_output year month
           = (missing_warnings fs pre, Raise e))
  /\ (forall pre post,
        patterns year month = pre ++ (key, filename) :: post ->
        (forall k0 f0 raw0, In (k0, f0) pre -> fs f0 = Some raw0 ->
                            exists df, load_gee_export raw0 = Ok df) ->
        compile_monthly_dataset th fs now_quality now_output year month
        = (missing_warnings fs pre, Raise (MissingColumns (missing_cols raw)))).
Proof.
  intros Hin Hfs Hreq Hnot.
  assert (Hc : In c (missing_cols raw)) by now apply missing_cols_spec.
  assert (Hne : missing_cols raw <> []).
  { intros E. rewrite E in Hc. destruct Hc. }
  assert (Hload : load_gee_export raw = Raise (MissingColumns (missing_cols raw)))
    by now apply load_gee_export_missing.
  split; [exact Hload|]. split; [assumption|].
  split; [intros c'; apply missing_cols_spec|]. split.
  - destruct (first_failure fs (patterns year month) key filename raw _
                Hin Hfs Hload)
      as (pre & k & f & raw' & e & post & Hp & Hpre & H1 & H2 & H3).
    exists pre, k, f, raw', e, post.
    split; [exact Hp|]. split; [exact Hpre|]. split; [exact H1|].
    split; [exact H2|]. split; [exact H3|].
    unfold compile_monthly_dataset, load_monthly_exports. rewrite Hp.
    now rewrite (load_loop_first_failure fs pre post k f raw' e [] [] Hpre H1 H2).
  - intros pre post Hp Hpre.
    unfold compile_monthly_dataset, load_monthly_exports. rewrite Hp.
    now rewrite (load_loop_first_failure fs pre post key filename raw _ [] []
                   Hpre Hfs Hload).
Qed.

Lemma schema_error_aborts_run_witness :
  compile_monthly_dataset Sample.th SampleSchema.fs "t1" "t2" 2024 6
  = ([], Raise (MissingColumns ["zone"])).
Proof.
  destruct (schema_error_aborts_run Sample.th SampleSchema.fs "t1" "t2" 2024 6
              "fire" "fire_burn_2024_06.csv" SampleSchema.fire_no_zone "zone")
    as (_ & _ & _ & _ & H).
  - vm_compute. right; left; reflexivity.
  - reflexivity.
  - left; reflexivity.
  - vm_compute. intuition discriminate.
  - rewrite (H [("ndvi_evi", "ndvi_evi_2024_06.csv")]
               [("water", "water_ndwi_2024_06.csv");
                ("climate", "climate_2024_06.csv")]).
    + reflexivity.
    + vm_compute. reflexivity.
    + intros k0 f0 raw0 [[= <- <-]|[]] Hfs0. vm_compute in Hfs0.
      injection Hfs0 as <-. eexists. vm_compute. reflexivity.
Defined.

(** C3 as stated fails: in the sample directory the NDVI export loads,
    the fire export lacks its [zone] column, and the run does not
    complete: it ends in the schema error of the fire export. *)
Lemma schema_error_aborts_despite_loaded_category :
  (exists df, load_gee_export SampleNdvi.ndvi = Ok df)
  /\ SampleSchema.fs "ndvi_evi_2024_06.csv" = Some SampleNdvi.ndvi
  /\ compile_monthly_dataset Sample.th SampleSchema.fs "t1" "t2" 2024 6
     = ([], Raise (MissingColumns ["zone"])).
Proof.
  split; [eexists; vm_compute; reflexivity|].
  split; [reflexivity|]. vm_compute; reflexivity.
Qed.

Lemma process_ok (th : Thresholds) (nq no : string) (year month : Z)
    (datasets : Datasets) :
  Forall processable datasets ->
  exists path doc,
    process th nq no year month datasets = Ok (Written path doc)
    /\ raw_datasets doc = datasets.
Proof.
  intros Hall. rewrite Forall_forall in Hall. unfold process.
  assert (Hdev : forall key, key = "ndvi_evi" \/ key = "climate" ->
                 exists d, deviations_of datasets key = Ok d).
  { intros key Hkey. unfold deviations_of.
    destruct (get datasets key) as [df|] eqn:E; [|now exists []].
    apply get_In, Hall in E. destruct E as [E _]. simpl in E.
    unfold compute_deviations. rewrite (E Hkey). now eexists. }
  destruct (Hdev "ndvi_evi") as (d1 & ->); [now left|].
  destruct (Hdev "climate") as (d2 & ->); [now right|]. simpl.
  assert (Hfire : exists fire, fire_alerts datasets = Ok fire).
  { destruct (get datasets "fire") as [df|] eqn:E.
    - exists (expected_fire_alerts df). apply fire_alerts_ok; [assumption|].
      apply get_In, Hall in E. destruct E as [_ E]. now apply E.
    - exists []. unfold fire_alerts. now rewrite E. }
  destruct Hfire as (fire & Hfire). unfold detect_alerts. rewrite Hfire. simpl.
  eexists. eexists. split; reflexivity.
Qed.

(** C9, as amended.  When every export file that exists for the period is
    well formed (it has the required columns, numbers for years and
    months, strings for the indicators of a table whose deviations are
    computed and no string in a fire-count column), the loader returns
    the categories whose file exists, in pattern order, and one warning
    for each file that does not; the run then writes its document, with
    the raw datasets of these categories, whenever at least one file
    exists, and it fails, returning nothing after logging the error, only
    when none does. *)
Theorem absent_exports_not_fatal (th : Thresholds) (fs : Exports)
    (now_quality now_output : string) (year month : Z) :
  (forall key filename raw,
      In (key, filename) (patterns year month) -> fs filename = Some raw ->
      well_formed_export key raw) ->
  exists datasets,
    load_monthly_exports fs year month
    = (missing_warnings fs (patterns year month), Ok datasets)
    /\ map fst datasets = map fst (present fs (patterns year month))
    /\ (present fs (patterns year month) <> [] ->
        exists path doc,
          compile_monthly_dataset th fs now_quality now_output year month
          = (missing_warnings fs (patterns year month), Ok (Written path doc))
          /\ map fst (raw_datasets doc)
             = map fst (present fs (patterns year month)))
    /\ (present fs (patterns year month) = [] ->
        compile_monthly_dataset th fs now_quality now_output year month
        = (missing_warnings fs (patterns year month)
             ++ [Error "No datasets found for this period"], Ok NoData)).
Proof.
  intros Hwf.
  destruct (load_loop_ok fs (patterns year month) [] [] Hwf)
    as (datasets & Hload & Hkeys & Hall).
  assert (Hload' : load_monthly_exports fs year month
                   = (missing_warnings fs (patterns year month), Ok datasets))
    by exact Hload.
  clear Hload. exists datasets.
  split; [exact Hload'|]. split; [exact Hkeys|].
  unfold compile_monthly_dataset. rewrite Hload'. split.
  - intros Hne. destruct datasets as [|kd ds].
    + destruct (present fs (patterns year month));
        [now elim Hne | discriminate Hkeys].
    + destruct (process_ok th now_quality now_output year month (kd :: ds) Hall)
        as (path & doc & -> & Hraw).
      exists path, doc. split; [reflexivity|]. now rewrite Hraw.
  - intros He. rewrite He in Hkeys. destruct datasets; [reflexivity|discriminate].
Qed.

Lemma absent_exports_not_fatal_witness :
  (exists path doc,
      compile_monthly_dataset Sample.th SampleClimate.fs "t1" "t2" 2024 6
      = ([Warning "  Missing export: ndvi_evi_2024_06.csv";
          Warning "  Missing export: fire_burn_2024_06.csv";
          Warning "  Missing export: water_ndwi_2024_06.csv"],
         Ok (Written path doc))
      /\ map fst (raw_datasets doc) = ["climate"])
  /\ snd (compile_monthly_dataset Sample.th Sample.no_files "t1" "t2" 2024 6)
     = Ok NoData.
Proof.
  split.
  - destruct (absent_exports_not_fatal Sample.th SampleClimate.fs "t1" "t2" 2024 6)
      as (datasets & _ & Hkeys & Hsome & _).
    + intros key filename raw Hin Hfs. vm_compute in Hin.
      destruct Hin as [H|[H|[H|[H|[]]]]]; injection H as <- <-;
        vm_compute in Hfs; try discriminate Hfs.
      injection Hfs as <-.
      repeat split; try (vm_compute; reflexivity); intros; vm_compute; reflexivity.
    + destruct Hsome as (path & doc & Hrun & Hraw); [vm_compute; discriminate|].
      exists path, doc. split; [exact Hrun|]. rewrite Hraw. vm_compute.
      reflexivity.
  - destruct (absent_exports_not_fatal Sample.th Sample.no_files "t1" "t2" 2024 6)
      as (datasets & _ & _ & _ & Hnone).
    + intros key filename raw _ Hfs. discriminate Hfs.
    + rewrite Hnone; reflexivity.
Defined.

(** C9 as stated fails: in an export directory that holds the fire export
    with a [country] column and nothing else, the fire category loads,
    yet the run does not complete: the classifier's comparison raises
    and no document is written. *)
Lemma loaded_category_run_raises :
  (exists datasets,
      load_monthly_exports SampleCountry.fs 2024 6
      = ([Warning "  Missing export: ndvi_evi_2024_06.csv";
          Warning "  Missing export: water_ndwi_2024_06.csv";
          Warning "  Missing export: climate_2024_06.csv"], Ok datasets)
      /\ map fst datasets = ["fire"])
  /\ compile_monthly_dataset Sample.th SampleCountry.fs "t1" "t2" 2024 6
     = ([Warning "  Missing export: ndvi_evi_2024_06.csv";
         Warning "  Missing export: water_ndwi_2024_06.csv";
         Warning "  Missing export: climate_2024_06.csv"],
        Raise (CompareTypeError "country")).
Proof.
  split.
  - eexists. split; vm_compute; reflexivity.
  - vm_compute. reflexivity.
Qed.

(** ** The scenarios of the specification *)

(** NumPy rounds half to even. *)
Example round_half_even :
  Float.round_q (25 # 100) 1 = (1 # 5)%Q
  /\ Float.round_q (35 # 100) 1 = (2 # 5)%Q
  /\ Float.round_q (- (25 # 100)) 1 = (- (1 # 5))%Q.
Proof. repeat split. Qed.

(** Current NDVI mean 0.42 against a baseline of 0.60 in Usangu GR, with
    thresholds -25 and -15: the deviation is -30.0 and the alert HIGH. *)
Example scenario_ndvi_high :
  ndvi_evi_alerts Sample.th SampleNdvi.usangu_ndvi
  = [ {| Alert.zone := Str "Usangu GR";
         Alert.indicator := "NDVI";
         Alert.severity := HIGH;
         Alert.deviation_pct := Some (Float.Fin (-30));
         Alert.current := Some (Float.Fin (21 # 50));
         Alert.baseline := Some (Float.Fin (3 # 5));
         Alert.detail := None;
         Alert.escalation := Some None |} ].
Proof. reflexivity. Qed.

(** A deviation of -18 is MODERATE in Usangu GR and escalated to HIGH,
    with its note, in Ihefu Core. *)
Example scenario_escalation :
  map Alert.severity (ndvi_evi_alerts Sample.th (Sample.ndvi_row (-18)))
  = [MODERATE]
  /\ map (fun a => (Alert.severity a, Alert.get_escalation a))
         (ndvi_evi_alerts Sample.th
            {| Deviation.zone := Str "Ihefu Core";
               Deviation.indicator := "NDVI_mean";
               Deviation.current := Float.Fin (41 # 50);
               Deviation.baseline := Float.Fin 1;
               Deviation.deviation_pct := Some (Float.Fin (-18)) |})
     = [(HIGH, Some "Escalated: MODERATE in Ihefu Core -> HIGH")].
Proof. split; reflexivity. Qed.

(** A rainfall deviation of -45 raises the HIGH drought alert. *)
Example scenario_rainfall :
  map (fun a => (Alert.indicator a, Alert.severity a))
      (climate_alerts
         {| Deviation.zone := Str "Nyerere NP";
            Deviation.indicator := "Rainfall_mm";
            Deviation.current := Float.Fin 55;
            Deviation.baseline := Float.Fin 100;
            Deviation.deviation_pct := Some (Float.Fin (-45)) |})
  = [("Rainfall Deficit", HIGH)].
Proof. reflexivity. Qed.


(* ====================================================================== *)
(** * Further properties of the processor *)

(** ** More on the quality validator *)

Lemma cell_same_str (z : string) (v : cell) :
  cell_same (Str z) v = true <-> v = Str z.
Proof.
  destruct v as [|q|s]; simpl; split; try discriminate.
  - intros H. apply String.eqb_eq in H. now subst.
  - intros [= ->]. apply String.eqb_refl.
Qed.

Lemma existsb_same_str (z : string) (l : list cell) :
  existsb (cell_same (Str z)) l = true <-> In (Str z) l.
Proof.
  rewrite existsb_exists. split.
  - intros (v & Hv & Hs). apply cell_same_str in Hs. now subst.
  - intros H. exists (Str z). split; [assumption | now apply cell_same_str].
Qed.

Lemma unique_from_str (z : string) (seen l : list cell) :
  In (Str z) (unique_from seen l) <-> In (Str z) l /\ ~ In (Str z) seen.
Proof.
  revert seen; induction l as [|x xs IH]; intros seen; simpl.
  - tauto.
  - destruct (existsb (cell_same x) seen) eqn:E.
    + rewrite IH. split.
      * intros [H1 H2]. split; [now right | assumption].
      * intros [[->|H1] H2]; [|now split].
        apply existsb_same_str in E. contradiction.
    + simpl. rewrite IH. simpl. split.
      * intros [->|[H1 H2]].
        -- split; [now left|]. intros H. apply existsb_same_str in H. congruence.
        -- split; [now right|]. tauto.
      * intros [[->|H1] H2]; [now left|].
        destruct x as [|q|s]; try (right; split; [assumption|]; intros [H|H];
          [discriminate | contradiction]).
        destruct (String.eqb s z) eqn:Es.
        -- apply String.eqb_eq in Es. subst. now left.
        -- right. split; [assumption|]. intros [[= ->]|H]; [|contradiction].
           rewrite String.eqb_refl in Es. discriminate.
Qed.

(** [unique] keeps exactly the strings of the series. *)
Lemma unique_str (z : string) (l : list cell) :
  In (Str z) (unique l) <-> In (Str z) l.
Proof.
  unfold unique. rewrite unique_from_str. simpl. tauto.
Qed.

Lemma missing_zones_spec (key : string) (df : DataFrame) (z : string) :
  In z (missing_zones (new_check key df))
  <-> In z ZONE_NAMES /\ ~ In (Str z) (column df "zone").
Proof.
  unfold missing_zones. rewrite filter_In, negb_true_iff. simpl Check.zones_present.
  split; intros [H1 H2]; (split; [assumption|]).
  - intros Hin. apply (proj2 (unique_str z _)) in Hin.
    apply (proj2 (existsb_same_str z _)) in Hin. congruence.
  - destruct (existsb _ _) eqn:E; [|reflexivity].
    apply (proj1 (existsb_same_str z _)) in E.
    apply (proj1 (unique_str z _)) in E. contradiction.
Qed.

Lemma check_note_pass (key : string) (df : DataFrame) :
  Check.note (check_dataset key df) = None
  <-> Check.status (check_dataset key df) = PASS.
Proof.
  unfold check_dataset, flag_missing_zones, flag_null_rate.
  destruct (Float.gtb _ _); simpl;
    destruct (missing_zones _); simpl; split; (reflexivity || discriminate).
Qed.

(** X1.  The status of a dataset's check is WARNING exactly when its
    rounded null percentage is a number above 30 or one of the three
    expected zone names occurs nowhere in its zone column; it carries a
    note exactly when it is WARNING. *)
Theorem check_warning_iff (key : string) (df : DataFrame) :
  (Check.status (check_dataset key df) = WARNING
   <-> (exists q, null_percentage df = Float.Fin q /\ (30 < q)%Q)
       \/ (exists z, In z ZONE_NAMES /\ ~ In (Str z) (column df "zone")))
  /\ (Check.note (check_dataset key df) = None
      <-> Check.status (check_dataset key df) = PASS).
Proof.
  split; [|apply check_note_pass].
  unfold check_dataset, flag_missing_zones.
  rewrite missing_zones_flag_null_rate.
  destruct (missing_zones (new_check key df)) as [|z zs] eqn:Em.
  - unfold flag_null_rate. simpl Check.null_pct.
    destruct (Float.gtb (null_percentage df) (Float.Fin 30)) eqn:Eg; simpl.
    + split; [|reflexivity]. intros _. left.
      destruct (null_percentage df) as [|q]; [discriminate|].
      exists q. split; [reflexivity | now apply gtb_30].
    + split; [discriminate|].
      intros [(q & Hq & Hlt)|(z & Hz & Hn)].
      * rewrite Hq in Eg. apply gtb_30 in Hlt. congruence.
      * assert (In z (missing_zones (new_check key df)))
          by now apply missing_zones_spec.
        rewrite Em in H. destruct H.
  - simpl. split; [|reflexivity].
    intros _. right. exists z. apply (missing_zones_spec key).
    rewrite Em. now left.
Qed.

(** X2.  The quality report holds one check per loaded dataset, in
    loading order and under the dataset's key, with the row count of its
    table; every check has a note exactly when it is WARNING; and the
    overall status is WARNING exactly when some check is. *)
Theorem quality_report_shape (now : string) (datasets : Datasets) :
  let report := validate_data_quality now datasets in
  map Check.dataset (checks report) = map fst datasets
  /\ map Check.records (checks report)
     = map (fun kv => List.length (rows (snd kv))) datasets
  /\ (forall c, In c (checks report) ->
        (Check.note c = None <-> Check.status c = PASS))
  /\ (overall_status report = WARNING
      <-> exists c, In c (checks report) /\ Check.status c = WARNING).
Proof.
  rewrite validate_data_quality_eq. simpl.
  assert (Hfield : forall key df,
             Check.dataset (check_dataset key df) = key
             /\ Check.records (check_dataset key df) = List.length (rows df)).
  { intros key df. unfold check_dataset, flag_missing_zones, flag_null_rate.
    destruct (missing_zones _); destruct (Float.gtb _ _); split; reflexivity. }
  split; [|split; [|split; [|split]]].
  - rewrite map_map. apply map_ext. intros [k d]. apply Hfield.
  - rewrite map_map. apply map_ext. intros [k d]. apply Hfield.
  - intros c Hc. apply in_map_iff in Hc as ([k d] & <- & _).
    apply check_note_pass.
  - intros H. destruct (forallb passes datasets) eqn:E; [discriminate|].
    assert (Hex : existsb (fun kv => negb (passes kv)) datasets = true).
    { clear H. induction datasets as [|kv ds IH]; simpl in *; [discriminate|].
      destruct (passes kv); simpl in *; [now apply IH | reflexivity]. }
    apply existsb_exists in Hex as ([k d] & Hin & Hp).
    exists (check_dataset k d). split.
    + apply in_map_iff. now exists (k, d).
    + unfold passes in Hp. simpl in Hp.
      now destruct (Check.status (check_dataset k d)).
  - intros (c & Hc & Hs). apply in_map_iff in Hc as ([k d] & <- & Hin).
    destruct (forallb passes datasets) eqn:E; [|reflexivity].
    rewrite forallb_forall in E. specialize (E _ Hin). unfold passes in E.
    simpl in *. rewrite Hs in E. discriminate.
Qed.

(** *** The range of the null percentage *)

Lemma rint_lower (z : Z) (y : Q) : (inject_Z z <= y)%Q -> (z <= Float.rint y)%Z.
Proof.
  intros H. apply Qfloor_resp_le in H. rewrite Qfloor_Z in H.
  unfold Float.rint. destruct (Qcompare _ _); [destruct (Z.even _)| |]; lia.
Qed.

Lemma rint_upper (z : Z) (y : Q) : (y <= inject_Z z)%Q -> (Float.rint y <= z)%Z.
Proof.
  intros H. pose proof (Qfloor_resp_le _ _ H) as Hf. rewrite Qfloor_Z in Hf.
  unfold Float.rint.
  destruct (Z.eq_dec (Qfloor y) z) as [E|E].
  - assert (Hlt : (y - inject_Z (Qfloor y) < 1 # 2)%Q).
    { rewrite E. lra. }
    destruct (Qcompare (y - inject_Z (Qfloor y)) (1 # 2)) eqn:Ec.
    + apply Qeq_alt in Ec. lra.
    + lia.
    + apply Qgt_alt in Ec. lra.
  - destruct (Qcompare _ _); [destruct (Z.even _)| |]; lia.
Qed.

Lemma round_q_1_range (q : Q) :
  (0 <= q <= 100)%Q -> (0 <= Float.round_q q 1 <= 100)%Q.
Proof.
  intros [H0 H1]. unfold Float.round_q. rewrite Qred_correct.
  change (Float.pow10 1) with (inject_Z 10).
  assert (Hl : (0 <= Float.rint (q * inject_Z 10))%Z).
  { apply rint_lower. change (inject_Z 0) with 0%Q. change (inject_Z 10) with 10%Q. lra. }
  assert (Hu : (Float.rint (q * inject_Z 10) <= 1000)%Z).
  { apply rint_upper. change (inject_Z 1000) with 1000%Q.
    change (inject_Z 10) with 10%Q. lra. }
  set (r := Float.rint (q * inject_Z 10)) in *.
  assert (Hl' : (inject_Z 0 <= inject_Z r)%Q) by now rewrite <- Zle_Qle.
  assert (Hu' : (inject_Z r <= inject_Z 1000)%Q) by now rewrite <- Zle_Qle.
  change (inject_Z 0) with 0%Q in Hl'. change (inject_Z 1000) with 1000%Q in Hu'.
  change (inject_Z 10) with 10%Q. unfold Qdiv. change (/ 10)%Q with (1 # 10)%Q.
  lra.
Qed.

Lemma Qsum_range (qs : list Q) :
  (forall q, In q qs -> (0 <= q <= 1)%Q) ->
  (0 <= Qsum qs <= inject_Z (Z.of_nat (List.length qs)))%Q.
Proof.
  induction qs as [|q qs IH]; intros H.
  - simpl. change (inject_Z 0) with 0%Q. lra.
  - assert (Hq : (0 <= q <= 1)%Q) by (apply H; now left).
    assert (Hqs : (0 <= Qsum qs <= inject_Z (Z.of_nat (List.length qs)))%Q).
    { apply IH. intros q' Hq'. apply H. now right. }
    cbn [Qsum fold_right List.length]. fold (Qsum qs).
    rewrite Nat2Z.inj_succ, <- Z.add_1_r, inject_Z_plus.
    change (inject_Z 1) with 1%Q. lra.
Qed.

Lemma null_fraction_range (vals : list cell) :
  vals <> [] ->
  exists q, null_fraction vals = Float.Fin q /\ (0 <= q <= 1)%Q.
Proof.
  intros Hne. destruct vals as [|v vs]; [contradiction|].
  unfold null_fraction. eexists. split; [reflexivity|].
  set (n := List.length (v :: vs)).
  set (k := List.length (filter isnull (v :: vs))).
  assert (Hk : (k <= n)%nat) by apply filter_length_le.
  assert (Hn : (0 < n)%nat) by (unfold n; simpl; lia).
  assert (Hn' : (0 < inject_Z (Z.of_nat n))%Q).
  { change 0%Q with (inject_Z 0). rewrite <- Zlt_Qlt. lia. }
  assert (Hk0 : (0 <= inject_Z (Z.of_nat k))%Q).
  { change 0%Q with (inject_Z 0). rewrite <- Zle_Qle. lia. }
  assert (Hkn : (inject_Z (Z.of_nat k) <= inject_Z (Z.of_nat n))%Q).
  { rewrite <- Zle_Qle. lia. }
  split.
  - apply Qle_shift_div_l; [assumption|]. lra.
  - apply Qle_shift_div_r; [assumption|]. lra.
Qed.

Lemma numbers_of_fractions (f : string -> Float.t) (cols : list string) :
  (forall c, In c cols -> exists q, f c = Float.Fin q /\ (0 <= q <= 1)%Q) ->
  exists qs,
    numbers (map cell_of_float (map f cols)) = qs
    /\ List.length qs = List.length cols
    /\ forall q, In q qs -> (0 <= q <= 1)%Q.
Proof.
  induction cols as [|c cols IH]; intros H.
  - exists []. split; [reflexivity|]. split; [reflexivity|]. intros q [].
  - destruct (H c (or_introl eq_refl)) as (q & Hq & Hr).
    destruct IH as (qs & Hqs & Hlen & Hall).
    { intros c' Hc'. apply H. now right. }
    exists (q :: qs). simpl. rewrite Hq. simpl. rewrite Hqs.
    split; [reflexivity|]. split; [now rewrite Hlen|].
    intros q' [<-|Hq']; [assumption | now apply Hall].
Qed.

(** X3.  The null percentage of a table without rows (or without columns)
    is NaN, so that it is never flagged for its null rate; the null
    percentage of any other table is a number between 0 and 100. *)
Theorem null_percentage_range (df : DataFrame) :
  (rows df = [] \/ columns df = [] ->
   null_percentage df = Float.NaN
   /\ forall key, flag_null_rate (new_check key df) = new_check key df)
  /\ (rows df <> [] -> columns df <> [] ->
      exists q, null_percentage df = Float.Fin q /\ (0 <= q <= 100)%Q).
Proof.
  split.
  - intros H.
    assert (Hnan : null_percentage df = Float.NaN).
    { unfold null_percentage, column. destruct H as [-> | ->]; [|reflexivity].
      simpl. induction (columns df) as [|c cols IH]; [reflexivity|].
      simpl. unfold mean in *. simpl. exact IH. }
    split; [exact Hnan|]. intros key. unfold flag_null_rate. simpl.
    now rewrite Hnan.
  - intros Hrows Hcols. unfold null_percentage.
    destruct (numbers_of_fractions (fun c => null_fraction (column df c))
                (columns df)) as (qs & Hqs & Hlen & Hall).
    { intros c _. apply null_fraction_range. unfold column.
      destruct (rows df); [contradiction | discriminate]. }
    unfold mean. rewrite Hqs.
    destruct qs as [|q0 qs'].
    { destruct (columns df); [contradiction | discriminate]. }
    set (m := (Qsum (q0 :: qs')
                 / inject_Z (Z.of_nat (List.length (q0 :: qs'))))%Q).
    cbn [Float.mul Float.round]. eexists. split; [reflexivity|].
    apply round_q_1_range. unfold m; clear m.
    pose proof (Qsum_range (q0 :: qs') Hall) as [Hs0 Hs1].
    set (n := inject_Z (Z.of_nat (List.length (q0 :: qs')))) in *.
    assert (Hn : (0 < n)%Q).
    { unfold n. change 0%Q with (inject_Z 0). rewrite <- Zlt_Qlt. simpl. lia. }
    assert (Hd0 : (0 <= Qsum (q0 :: qs') / n)%Q).
    { apply Qle_shift_div_l; [assumption|]. lra. }
    assert (Hd1 : (Qsum (q0 :: qs') / n <= 1)%Q).
    { apply Qle_shift_div_r; [assumption|]. lra. }
    set (m := (Qsum (q0 :: qs') / n)%Q) in *. lra.
Qed.

Lemma null_percentage_range_witness :
  exists q, null_percentage Sample.nulls_40 = Float.Fin q /\ (0 <= q <= 100)%Q.
Proof.
  apply (null_percentage_range Sample.nulls_40); discriminate.
Defined.

(** ** More on the export loader *)

Lemma to_int_inject_Z (z : Z) : Float.to_int (inject_Z z) = z.
Proof. unfold Float.to_int. simpl. apply Z.quot_1_r. Qed.

Lemma cast_row_length cols r c r' :
  cast_row cols r c = Some r' -> List.length r' = List.length r.
Proof.
  revert r r'; induction cols as [|col cols IH]; intros r r' H.
  - simpl in H. now injection H as <-.
  - destruct r as [|v r]; simpl in H; [now injection H as <-|].
    destruct (String.eqb col c).
    + destruct (cell_to_int v); [|discriminate]. now injection H as <-.
    + destruct (cast_row cols r c) as [r0|] eqn:E; [|discriminate].
      injection H as <-. simpl. f_equal. exact (IH r r0 E).
Qed.

Lemma cast_row_other cols r c r' c' :
  cast_row cols r c = Some r' -> c' <> c ->
  lookup cols r' c' = lookup cols r c'.
Proof.
  revert r r'; induction cols as [|col cols IH]; intros r r' H Hne.
  - simpl in H. now injection H as <-.
  - destruct r as [|v r]; simpl in H; [now injection H as <-|].
    destruct (String.eqb col c) eqn:Ec.
    + destruct (cell_to_int v); [|discriminate]. injection H as <-.
      simpl. apply String.eqb_eq in Ec. subst col.
      destruct (String.eqb c c') eqn:Ec'; [|reflexivity].
      apply String.eqb_eq in Ec'. congruence.
    + destruct (cast_row cols r c) as [r0|] eqn:E; [|discriminate].
      injection H as <-. simpl. destruct (String.eqb col c'); [reflexivity|].
      exact (IH r r0 E Hne).
Qed.

Lemma cast_row_int cols r c r' :
  cast_row cols r c = Some r' -> In c cols ->
  List.length r = List.length cols ->
  is_int (lookup cols r' c).
Proof.
  revert r r'; induction cols as [|col cols IH]; intros r r' H Hin Hlen;
    [destruct Hin|].
  destruct r as [|v r]; [discriminate|]. simpl in H.
  destruct (String.eqb col c) eqn:Ec.
  - destruct v as [|q|s]; try discriminate. injection H as <-.
    cbn [lookup]. rewrite Ec. now eexists.
  - destruct (cast_row cols r c) as [r0|] eqn:E; [|discriminate].
    injection H as <-. cbn [lookup]. rewrite Ec. apply (IH r r0 E).
    + destruct Hin as [->|Hin]; [|assumption].
      rewrite String.eqb_refl in Ec. discriminate.
    + simpl in Hlen. lia.
Qed.

Lemma cast_row_fails cols r c :
  In c cols -> List.length r = List.length cols ->
  is_num (lookup cols r c) = false ->
  cast_row cols r c = None.
Proof.
  revert r; induction cols as [|col cols IH]; intros r Hin Hlen Hn;
    [destruct Hin|].
  destruct r as [|v r]; [discriminate|]. simpl in *.
  destruct (String.eqb col c) eqn:Ec.
  - now destruct v.
  - rewrite IH; try reflexivity; try assumption; try lia.
    destruct Hin as [->|Hin]; [|assumption].
    rewrite String.eqb_refl in Ec. discriminate.
Qed.

(** Casting a column again changes nothing, also after another column
    was cast. *)
Lemma cast_row_fixed cols r c c' r' :
  cast_row cols r c = Some r ->
  cast_row cols r c' = Some r' ->
  c <> c' ->
  cast_row cols r' c = Some r'.
Proof.
  revert r r'; induction cols as [|col cols IH]; intros r r' Hc Hc' Hne.
  - simpl in Hc'. now injection Hc' as <-.
  - destruct r as [|v r]; simpl in Hc, Hc'; [now injection Hc' as <-|].
    destruct (String.eqb col c) eqn:Ec, (String.eqb col c') eqn:Ec'.
    + apply String.eqb_eq in Ec, Ec'. congruence.
    + destruct (cast_row cols r c') as [r0|]; [|discriminate].
      injection Hc' as <-. simpl. rewrite Ec.
      destruct (cell_to_int v) as [v'|]; [|discriminate].
      simpl in *. now injection Hc as ->.
    + destruct (cell_to_int v) as [v'|]; [|discriminate].
      injection Hc' as <-. simpl. rewrite Ec.
      destruct (cast_row cols r c) as [r0|]; [|discriminate].
      simpl in *. now injection Hc as ->.
    + destruct (cast_row cols r c) as [r0|] eqn:E0; [|discriminate].
      destruct (cast_row cols r c') as [r1|] eqn:E1; [|discriminate].
      injection Hc as ->. injection Hc' as <-. simpl. rewrite Ec.
      now rewrite (IH r r1 E0 E1 Hne).
Qed.

Lemma cast_row_idempotent cols r c r' :
  cast_row cols r c = Some r' -> cast_row cols r' c = Some r'.
Proof.
  revert r r'; induction cols as [|col cols IH]; intros r r' H.
  - simpl in *. now injection H as <-.
  - destruct r as [|v r]; simpl in H; [now injection H as <-|].
    destruct (String.eqb col c) eqn:Ec.
    + destruct v as [|q|s]; try discriminate. injection H as <-.
      simpl. rewrite Ec. simpl. now rewrite to_int_inject_Z.
    + destruct (cast_row cols r c) as [r0|] eqn:E; [|discriminate].
      injection H as <-. simpl. rewrite Ec. now rewrite (IH r r0 E).
Qed.

Lemma cast_rows_inv cols rs c rs' :
  cast_rows cols rs c = Some rs' ->
  Forall2 (fun r r' => cast_row cols r c = Some r') rs rs'.
Proof.
  revert rs'; induction rs as [|r rs IH]; intros rs' H; simpl in H.
  - injection H as <-. constructor.
  - destruct (cast_row cols r c) as [r'|] eqn:E; [|discriminate].
    destruct (cast_rows cols rs c) as [rs0|]; [|discriminate].
    injection H as <-. constructor; [assumption | now apply IH].
Qed.

Lemma cast_rows_fixed cols rs c :
  (forall r, In r rs -> cast_row cols r c = Some r) ->
  cast_rows cols rs c = Some rs.
Proof.
  induction rs as [|r rs IH]; intros H; simpl; [reflexivity|].
  rewrite (H r (or_introl eq_refl)), IH; [reflexivity|].
  intros r' Hr'. apply H. now right.
Qed.

Lemma cast_rows_fails cols rs c r :
  In r rs -> cast_row cols r c = None -> cast_rows cols rs c = None.
Proof.
  induction rs as [|r0 rs IH]; intros Hin Hn; [destruct Hin|]. simpl.
  destruct Hin as [->|Hin].
  - now rewrite Hn.
  - rewrite (IH Hin Hn). now destruct (cast_row cols r0 c).
Qed.

Lemma Forall2_in_right {A B : Type} (R : A -> B -> Prop) l l' y :
  Forall2 R l l' -> In y l' -> exists x, In x l /\ R x y.
Proof.
  induction 1 as [|x y' l l' Hxy Hl IH]; intros Hin; [destruct Hin|].
  destruct Hin as [->|Hin].
  - exists x. split; [now left | assumption].
  - destruct (IH Hin) as (x' & Hx' & HR). exists x'. split; [now right | assumption].
Qed.

Lemma Forall2_map_eq {A B C : Type} (R : A -> B -> Prop) (f : A -> C) (g : B -> C)
    l l' :
  Forall2 R l l' -> (forall x y, R x y -> g y = f x) -> map g l' = map f l.
Proof.
  induction 1 as [|x y l l' Hxy Hl IH]; intros H; simpl; [reflexivity|].
  now rewrite (H x y Hxy), IH.
Qed.

Lemma Forall2_compose {A B C : Type} (R : A -> B -> Prop) (S : B -> C -> Prop)
    l1 l2 l3 :
  Forall2 R l1 l2 -> Forall2 S l2 l3 ->
  Forall2 (fun x z => exists y, R x y /\ S y z) l1 l3.
Proof.
  intros H; revert l3; induction H as [|x y l1 l2 Hxy Hl IH]; intros l3 H3;
    inversion H3; subst; constructor.
  - now exists y.
  - now apply IH.
Qed.

Lemma astype_int_inv df c df' :
  astype_int df c = Ok df' ->
  columns df' = columns df
  /\ Forall2 (fun r r' => cast_row (columns df) r c = Some r') (rows df) (rows df').
Proof.
  unfold astype_int. destruct (cast_rows _ _ _) as [rs|] eqn:E; [|discriminate].
  intros [= <-]. split; [reflexivity|]. now apply cast_rows_inv.
Qed.

Lemma required_present (raw : DataFrame) (c : string) :
  missing_cols raw = [] -> In c required_cols -> In c (columns raw).
Proof.
  intros Hm Hc. destruct (in_dec string_dec c (columns raw)) as [H|H]; [assumption|].
  assert (In c (missing_cols raw)) by now apply missing_cols_spec.
  rewrite Hm in H0. destruct H0.
Qed.

(** X4.  When the loader accepts a table (one cell per column in every
    row), the table it returns has the same columns and as many rows, its
    year and month cells are integers, every other column is unchanged,
    and loading the returned table again returns it unchanged. *)
Theorem load_gee_export_result (raw df : DataFrame) :
  rectangular raw ->
  load_gee_export raw = Ok df ->
  columns df = columns raw
  /\ List.length (rows df) = List.length (rows raw)
  /\ (forall v, In v (column df "year") -> is_int v)
  /\ (forall v, In v (column df "month") -> is_int v)
  /\ (forall c, c <> "year" -> c <> "month" -> column df c = column raw c)
  /\ load_gee_export df = Ok df.
Proof.
  intros Hrect. unfold load_gee_export.
  destruct (missing_cols raw) as [|m ms] eqn:Hm; [|discriminate].
  destruct (astype_int raw "year") as [df1|] eqn:E1; [|discriminate]. simpl.
  destruct (astype_int df1 "month") as [df2|] eqn:E2; [|discriminate]. simpl.
  intros [= <-].
  apply astype_int_inv in E1 as [Hc1 Hr1].
  apply astype_int_inv in E2 as [Hc2 Hr2]. rewrite Hc1 in Hr2.
  pose proof (Forall2_compose _ _ _ _ _ Hr1 Hr2) as Hr.
  assert (Hcols : columns df2 = columns raw) by congruence.
  assert (Hyear : In "year" (columns raw))
    by (apply required_present; [assumption | simpl; tauto]).
  assert (Hmonth : In "month" (columns raw))
    by (apply required_present; [assumption | simpl; tauto]).
  assert (Hrow : forall r2, In r2 (rows df2) ->
            exists r r1, In r (rows raw)
                         /\ cast_row (columns raw) r "year" = Some r1
                         /\ cast_row (columns raw) r1 "month" = Some r2).
  { intros r2 Hin. destruct (Forall2_in_right _ _ _ _ Hr Hin) as (r & Hr0 & r1 & H1 & H2).
    now exists r, r1. }
  assert (Hlen : forall r, In r (rows raw) ->
                 List.length r = List.length (columns raw)).
  { unfold rectangular in Hrect. now rewrite Forall_forall in Hrect. }
  split; [assumption|].
  split; [symmetry; apply (Forall2_length Hr)|].
  split; [|split; [|split]].
  - intros v Hv. unfold column in Hv. apply in_map_iff in Hv as (r2 & <- & Hin).
    destruct (Hrow r2 Hin) as (r & r1 & Hr0 & H1 & H2). cbv beta. rewrite Hcols.
    rewrite (cast_row_other _ _ _ _ "year" H2) by discriminate.
    apply (cast_row_int _ r); try assumption. now apply Hlen.
  - intros v Hv. unfold column in Hv. apply in_map_iff in Hv as (r2 & <- & Hin).
    destruct (Hrow r2 Hin) as (r & r1 & Hr0 & H1 & H2). cbv beta. rewrite Hcols.
    apply (cast_row_int _ r1); try assumption.
    rewrite (cast_row_length _ _ _ _ H1). now apply Hlen.
  - intros c Hy Hmo. unfold column. rewrite Hcols.
    apply (Forall2_map_eq _ _ _ _ _ Hr).
    intros r r2 (r1 & H1 & H2).
    rewrite (cast_row_other _ _ _ _ c H2) by assumption.
    now rewrite (cast_row_other _ _ _ _ c H1) by assumption.
  - assert (Hm2 : missing_cols df2 = []).
    { unfold missing_cols in *. now rewrite Hcols. }
    assert (Hfix : forall c,
               (forall r2, In r2 (rows df2) ->
                           cast_row (columns raw) r2 c = Some r2) ->
               astype_int df2 c = Ok df2).
    { intros c H. unfold astype_int. rewrite Hcols, cast_rows_fixed by assumption.
      rewrite <- Hcols. now destruct df2. }
    rewrite Hm2, Hfix.
    + simpl. now rewrite Hfix; [|intros r2 Hin;
        destruct (Hrow r2 Hin) as (r & r1 & _ & _ & H2);
        apply (cast_row_idempotent _ r1)].
    + intros r2 Hin. destruct (Hrow r2 Hin) as (r & r1 & _ & H1 & H2).
      apply (cast_row_fixed _ r1 "year" "month"); try assumption; [|discriminate].
      now apply (cast_row_idempotent _ r).
Qed.

Lemma load_gee_export_result_witness :
  exists df, load_gee_export SampleNdvi.ndvi = Ok df
             /\ load_gee_export df = Ok df.
Proof.
  destruct (load_gee_export SampleNdvi.ndvi) as [df|e] eqn:E;
    [|vm_compute in E; discriminate E].
  exists df. split; [reflexivity|].
  apply (load_gee_export_result SampleNdvi.ndvi df); [|exact E].
  unfold rectangular. repeat constructor.
Defined.

Lemma Forall2_in_left {A B : Type} (R : A -> B -> Prop) l l' x :
  Forall2 R l l' -> In x l -> exists y, In y l' /\ R x y.
Proof.
  induction 1 as [|x' y l l' Hxy Hl IH]; intros Hin; [destruct Hin|].
  destruct Hin as [->|Hin].
  - exists y. split; [now left | assumption].
  - destruct (IH Hin) as (y' & Hy' & HR). exists y'. split; [now right | assumption].
Qed.

Lemma astype_int_fails (df : DataFrame) (c : string) (v : cell) :
  rectangular df -> In c (columns df) ->
  In v (column df c) -> is_num v = false ->
  astype_int df c = Raise (IntCastError c).
Proof.
  intros Hrect Hc Hv Hn. unfold column in Hv.
  apply in_map_iff in Hv as (r & <- & Hr).
  unfold astype_int. rewrite (cast_rows_fails _ _ _ r Hr); [reflexivity|].
  apply cast_row_fails; try assumption.
  unfold rectangular in Hrect. rewrite Forall_forall in Hrect. now apply Hrect.
Qed.

(** X5.  On a table with one cell per column in every row and with the
    four required columns, the loader raises the cast error of [year]
    when a year is missing or not a number, the cast error of [month]
    when the years are numbers and a month is not, and returns a table
    when both columns hold numbers only. *)
Theorem load_gee_export_cast_errors (raw : DataFrame) :
  rectangular raw ->
  missing_cols raw = [] ->
  ((exists v, In v (column raw "year") /\ is_num v = false) ->
   load_gee_export raw = Raise (IntCastError "year"))
  /\ (forallb is_num (column raw "year") = true ->
      (exists v, In v (column raw "month") /\ is_num v = false) ->
      load_gee_export raw = Raise (IntCastError "month"))
  /\ (forallb is_num (column raw "year") = true ->
      forallb is_num (column raw "month") = true ->
      exists df, load_gee_export raw = Ok df).
Proof.
  intros Hrect Hm. unfold load_gee_export. rewrite Hm.
  assert (Hyear : In "year" (columns raw))
    by (apply required_present; [assumption | simpl; tauto]).
  assert (Hmonth : In "month" (columns raw))
    by (apply required_present; [assumption | simpl; tauto]).
  split; [|split].
  - intros (v & Hv & Hn). now rewrite (astype_int_fails raw "year" v).
  - intros Hy (v & Hv & Hn).
    destruct (astype_int_ok raw "year" Hy) as (df1 & -> & Hc1 & Hr1). simpl.
    unfold column in Hv. apply in_map_iff in Hv as (r & <- & Hr).
    destruct (Forall2_in_left _ _ _ _ Hr1 Hr) as (r1 & Hin1 & Hk).
    rewrite (astype_int_fails df1 "month" (lookup (columns df1) r1 "month"));
      [reflexivity | | now rewrite Hc1 | | ].
    + unfold rectangular in *. rewrite Forall_forall in *.
      intros r' Hr'. destruct (Forall2_in_right _ _ _ _ Hr1 Hr') as (r0 & Hr0 & Hk0).
      rewrite Hc1, <- (Forall2_length Hk0). now apply Hrect.
    + unfold column. apply in_map_iff. now exists r1.
    + rewrite Hc1. destruct (lookup_same_kind (columns raw) r r1 "month" Hk) as [_ E].
      now rewrite <- E.
  - intros Hy Hmo. destruct (load_gee_export_ok "water" raw) as (df & Hdf & _).
    + repeat split; try assumption.
      * intros [H|H]; discriminate H.
      * intros H; discriminate H.
    + unfold load_gee_export in Hdf. rewrite Hm in Hdf. now exists df.
Qed.

Lemma load_gee_export_cast_errors_witness :
  load_gee_export SampleLoad.no_year = Raise (IntCastError "year")
  /\ exists df, load_gee_export SampleNdvi.ndvi = Ok df.
Proof.
  split.
  - apply (load_gee_export_cast_errors SampleLoad.no_year).
    + unfold rectangular. repeat constructor.
    + reflexivity.
    + exists Null. split; [|reflexivity]. vm_compute. right; left; reflexivity.
  - apply (load_gee_export_cast_errors SampleNdvi.ndvi).
    + unfold rectangular. repeat constructor.
    + reflexivity.
    + reflexivity.
    + reflexivity.
Defined.

(** ** More on the deviation calculator *)

Lemma compute_deviations_eq (df : DataFrame) (recs : list Deviation.t) :
  compute_deviations df = Ok recs ->
  recs = flat_map
           (fun z => map (fun col => deviation_record z col
                                       (current_mean df z col)
                                       (baseline_mean df z col))
                         (value_columns df))
           (compared_zones df).
Proof.
  unfold compute_deviations. destruct (forallb _ _); [|discriminate].
  intros [= <-]. unfold compared_zones.
  induction (unique (column df "zone")) as [|z zs IH]; simpl; [reflexivity|].
  rewrite IH. unfold zone_deviations at 1.
  change (empty (of_zone z (select (labelled "current" (columns df)) df))
          || empty (of_zone z (select (labelled "baseline" (columns df)) df)))
    with (lacks_rows df z).
  destruct (lacks_rows df z); reflexivity.
Qed.

Lemma value_columns_spec (df : DataFrame) (c : string) :
  In c (value_columns df)
  <-> In c (columns df) /\ numeric_dtype df c = true
      /\ c <> "year" /\ c <> "month".
Proof.
  unfold value_columns. rewrite !filter_In, negb_true_iff. simpl.
  split.
  - intros [[H1 H2] H3]. repeat split; try assumption; intros ->; discriminate.
  - intros (H1 & H2 & H3 & H4). repeat split; try assumption.
    destruct (String.eqb c "year") eqn:E1; [apply String.eqb_eq in E1; contradiction|].
    destruct (String.eqb c "month") eqn:E2; [apply String.eqb_eq in E2; contradiction|].
    reflexivity.
Qed.

(** X6.  Every record the calculator emits is for a zone value of the
    table's zone column that is not missing and has both current and
    baseline rows, and for a column of the table of numeric dtype other
    than year and month: rows without a zone, string columns, the year
    and the month are never compared. *)
Theorem deviation_records_sound (df : DataFrame) (recs : list Deviation.t)
    (rec : Deviation.t) :
  compute_deviations df = Ok recs ->
  In rec recs ->
  let zone := Deviation.zone rec in
  let col := Deviation.indicator rec in
  In zone (unique (column df "zone")) /\ zone <> Null
  /\ lacks_rows df zone = false
  /\ In col (columns df) /\ numeric_dtype df col = true
  /\ col <> "year" /\ col <> "month".
Proof.
  intros Hok Hin.
  destruct (compute_deviations_records df recs rec Hok Hin)
    as (z & col & Hz & Hrows & Hcol & ->).
  cbn [Deviation.zone Deviation.indicator deviation_record].
  apply value_columns_spec in Hcol as (Hc1 & Hc2 & Hc3 & Hc4).
  split; [assumption|]. split.
  { intros ->. unfold lacks_rows, of_zone, select, empty in Hrows. simpl in Hrows.
    rewrite (filter_nil _ (filter _ (rows df))) in Hrows; [discriminate|].
    intros r _. now destruct (lookup (columns df) r "zone"). }
  repeat (split; [assumption|]). assumption.
Qed.

Lemma deviation_records_sound_witness :
  In (Str USANGU) (unique (column SampleNdvi.ndvi "zone"))
  /\ Str USANGU <> Null
  /\ lacks_rows SampleNdvi.ndvi (Str USANGU) = false
  /\ In "NDVI_mean" (columns SampleNdvi.ndvi)
  /\ numeric_dtype SampleNdvi.ndvi "NDVI_mean" = true
  /\ "NDVI_mean" <> "year" /\ "NDVI_mean" <> "month".
Proof.
  assert (Hok : compute_deviations SampleNdvi.ndvi = Ok SampleNdvi.recs)
    by (vm_compute; reflexivity).
  assert (Hin : In SampleNdvi.usangu_ndvi SampleNdvi.recs)
    by (vm_compute; left; reflexivity).
  exact (deviation_records_sound SampleNdvi.ndvi SampleNdvi.recs
           SampleNdvi.usangu_ndvi Hok Hin).
Defined.

(** X7.  The calculator emits exactly one record for every pair of a
    compared zone (a zone with current and baseline rows) and a value
    column (a numeric column other than year and month), zone by zone in
    order of first appearance and column by column in table order. *)
Theorem deviation_records_per_pair (df : DataFrame) (recs : list Deviation.t) :
  compute_deviations df = Ok recs ->
  map (fun rec => (Deviation.zone rec, Deviation.indicator rec)) recs
  = list_prod (compared_zones df) (value_columns df)
  /\ List.length recs
     = (List.length (compared_zones df) * List.length (value_columns df))%nat.
Proof.
  intros Hok. apply compute_deviations_eq in Hok. subst recs.
  assert (Hpairs :
    map (fun rec => (Deviation.zone rec, Deviation.indicator rec))
        (flat_map
           (fun z => map (fun col => deviation_record z col
                                       (current_mean df z col)
                                       (baseline_mean df z col))
                         (value_columns df))
           (compared_zones df))
    = list_prod (compared_zones df) (value_columns df)).
  { induction (compared_zones df) as [|z zs IH]; simpl; [reflexivity|].
    rewrite map_app, IH, map_map. reflexivity. }
  split; [exact Hpairs|].
  rewrite <- (length_map (fun rec => (Deviation.zone rec, Deviation.indicator rec))).
  rewrite Hpairs. apply length_prod.
Qed.

Lemma deviation_records_per_pair_witness :
  List.length SampleNdvi.recs = 4%nat.
Proof.
  assert (Hok : compute_deviations SampleNdvi.ndvi = Ok SampleNdvi.recs)
    by (vm_compute; reflexivity).
  destruct (deviation_records_per_pair SampleNdvi.ndvi SampleNdvi.recs Hok)
    as [_ H].
  rewrite H. vm_compute. reflexivity.
Defined.

Lemma compute_deviations_raise (df : DataFrame) (e : exn) :
  compute_deviations df = Raise e -> e = StrAccessorError.
Proof.
  unfold compute_deviations. destruct (forallb _ _); [discriminate|].
  now intros [= <-].
Qed.

(** X8.  A deviation table (the NDVI/EVI or the climate export) that
    loaded, has at least one row and holds no string in its indicator
    column (numbers or missing values only, so that the column has a
    numeric dtype) aborts the whole run with the error of the string
    accessor: no document is written although the loader succeeded.  For
    the climate table this is so when the NDVI/EVI table, if one is
    loaded, has string indicators. *)
Theorem non_string_indicator_aborts (th : Thresholds) (fs : Exports)
    (now_quality now_output : string) (year month : Z)
    (log : list LogRecord) (datasets : Datasets) (key : string)
    (df : DataFrame) :
  load_monthly_exports fs year month = (log, Ok datasets) ->
  key = "ndvi_evi" \/ key = "climate" ->
  get datasets key = Some df ->
  rows df <> [] ->
  numeric_dtype df "indicator" = true ->
  (key = "climate" ->
   forall df0, get datasets "ndvi_evi" = Some df0 ->
               forallb is_str (column df0 "indicator") = true) ->
  compile_monthly_dataset th fs now_quality now_output year month
  = (log, Raise StrAccessorError).
Proof.
  intros Hload Hkey Hget Hrows Hnum Hndvi. unfold compile_monthly_dataset.
  rewrite Hload. destruct datasets as [|kd ds]; [discriminate|]. f_equal.
  assert (Hraise : compute_deviations df = Raise StrAccessorError).
  { unfold compute_deviations.
    destruct (forallb is_str (column df "indicator")) eqn:E; [|reflexivity].
    exfalso. unfold numeric_dtype in Hnum. unfold column in E, Hnum.
    destruct (rows df) as [|r rs]; [now apply Hrows|].
    simpl in E, Hnum. apply andb_true_iff in E as [E _].
    apply andb_true_iff in Hnum as [Hnum _]. rewrite E in Hnum. discriminate. }
  unfold process, deviations_of. destruct Hkey as [-> | ->].
  - now rewrite Hget, Hraise.
  - rewrite Hget, Hraise.
    destruct (get (kd :: ds) "ndvi_evi") as [df0|]; [|reflexivity].
    destruct (compute_deviations df0) as [d|e] eqn:E; [reflexivity|].
    apply compute_deviations_raise in E. now subst.
Qed.

Lemma non_string_indicator_aborts_witness :
  compile_monthly_dataset Sample.th SampleNumeric.fs "t1" "t2" 2024 6
  = ([Warning "  Missing export: fire_burn_2024_06.csv";
      Warning "  Missing export: water_ndwi_2024_06.csv";
      Warning "  Missing export: climate_2024_06.csv"],
     Raise StrAccessorError).
Proof.
  apply (non_string_indicator_aborts Sample.th SampleNumeric.fs "t1" "t2" 2024 6
           _ [("ndvi_evi", SampleNumeric.ndvi)] "ndvi_evi" SampleNumeric.ndvi).
  - vm_compute. reflexivity.
  - now left.
  - reflexivity.
  - discriminate.
  - reflexivity.
  - discriminate.
Defined.

(** ** More on the alert classifier *)

Lemma concat_mapM_raise_inv {A B : Type} (f : A -> result (list B)) (l : list A)
    (e : exn) :
  concat_mapM f l = Raise e -> exists x, In x l /\ f x = Raise e.
Proof.
  induction l as [|x xs IH]; simpl; [discriminate|].
  destruct (f x) as [ys|e'] eqn:Ef; simpl.
  - destruct (concat_mapM f xs) as [zs|e'']; simpl; [discriminate|].
    intros [= <-]. destruct (IH eq_refl) as (x' & Hx' & Hf).
    exists x'. split; [now right | assumption].
  - intros [= <-]. exists x. split; [now left | assumption].
Qed.

Lemma concat_mapM_raises {A B : Type} (f : A -> result (list B)) (l : list A)
    (x : A) (e : exn) :
  In x l -> f x = Raise e -> exists e', concat_mapM f l = Raise e'.
Proof.
  induction l as [|x0 xs IH]; intros Hin Hf; [destruct Hin|]. simpl.
  destruct Hin as [->|Hin].
  - rewrite Hf. now exists e.
  - destruct (f x0) as [ys|e0]; simpl; [|now exists e0].
    destruct (IH Hin Hf) as (e' & ->). now exists e'.
Qed.

Lemma fire_row_alerts_raise (cols : list string) (r : list cell) (e : exn) :
  fire_row_alerts cols r = Raise e ->
  exists col s, e = CompareTypeError col /\ is_fire_count_col col = true
                /\ In (col, Str s) (combine cols r).
Proof.
  unfold fire_row_alerts. intros H.
  apply concat_mapM_raise_inv in H as ([col v] & Hin & Hf).
  apply filter_In in Hin as [Hin Hc]. simpl in Hc.
  unfold fire_cell_alerts in Hf. simpl in Hf.
  destruct v as [|q|s]; try discriminate.
  - destruct (negb (Qle_bool q 0)); discriminate.
  - injection Hf as <-. now exists col, s.
Qed.

(** X9.  When a column of the fire export whose name matches "count" or
    "T21" holds a string in some row, the classifier raises the type
    error of the comparison for such a column and returns no alert at
    all, whatever the deviations are. *)
Theorem fire_string_cell_raises (th : Thresholds) (datasets : Datasets)
    (devs : list Deviation.t) (fire_df : DataFrame) :
  get datasets "fire" = Some fire_df ->
  fire_counts_numeric fire_df = false ->
  exists col r s,
    detect_alerts th datasets devs = Raise (CompareTypeError col)
    /\ is_fire_count_col col = true
    /\ In r (rows fire_df)
    /\ In (col, Str s) (combine (columns fire_df) r).
Proof.
  intros Hget Hnum. unfold detect_alerts, fire_alerts. rewrite Hget.
  assert (Hbad : exists r e, In r (rows fire_df)
                             /\ fire_row_alerts (columns fire_df) r = Raise e).
  { unfold fire_counts_numeric in Hnum.
    destruct (forallb _ (rows fire_df)) eqn:E in Hnum; [discriminate|]. clear Hnum.
    induction (rows fire_df) as [|r rs IH]; [discriminate|]. simpl in E.
    apply andb_false_iff in E as [E|E].
    - destruct (fire_row_alerts (columns fire_df) r) as [l|e] eqn:Er.
      + exfalso. unfold fire_row_alerts in Er.
        assert (Hall : forall item, In item (combine (columns fire_df) r) ->
                       negb (is_fire_count_col (fst item) && is_str (snd item)) = true).
        { intros [c v] Hin. simpl.
          destruct (is_fire_count_col c) eqn:Ec; [|reflexivity].
          destruct v as [|q|s]; try reflexivity. exfalso.
          destruct (concat_mapM_raises (fire_cell_alerts (lookup (columns fire_df) r "zone"))
                      (filter (fun item => is_fire_count_col (fst item))
                              (combine (columns fire_df) r))
                      (c, Str s) (CompareTypeError c)) as (e' & He').
          - apply filter_In. now split.
          - reflexivity.
          - congruence. }
        apply forallb_forall in Hall. congruence.
      + exists r, e. split; [now left | assumption].
    - destruct (IH E) as (r' & e & Hr' & He). exists r', e. split; [now right | assumption]. }
  destruct Hbad as (r0 & e0 & Hr0 & He0).
  destruct (concat_mapM_raises _ _ _ _ Hr0 He0) as (e & He).
  rewrite He. simpl.
  apply concat_mapM_raise_inv in He as (r & Hr & Hrow).
  apply fire_row_alerts_raise in Hrow as (col & s & -> & Hc & Hin).
  now exists col, r, s.
Qed.

Lemma fire_string_cell_raises_witness :
  exists col,
    detect_alerts Sample.th [("fire", SampleErrors.fire_country)] []
    = Raise (CompareTypeError col).
Proof.
  destruct (fire_string_cell_raises Sample.th [("fire", SampleErrors.fire_country)]
              [] SampleErrors.fire_country) as (col & r & s & H & _).
  - reflexivity.
  - vm_compute. reflexivity.
  - now exists col.
Defined.

Lemma fire_alerts_inv (datasets : Datasets) (fire : list Alert.t) (a : Alert.t) :
  fire_alerts datasets = Ok fire -> In a fire ->
  exists z q, a = fire_alert z q.
Proof.
  unfold fire_alerts. destruct (get datasets "fire") as [df|].
  - intros H Ha.
    destruct (concat_mapM_inv _ _ _ _ H Ha) as (r & zs & _ & Hr & Hin).
    unfold fire_row_alerts in Hr.
    destruct (concat_mapM_inv _ _ _ _ Hr Hin) as ([c v] & ws & _ & Hc & Hw).
    unfold fire_cell_alerts in Hc; simpl in Hc.
    destruct v as [|q|s]; try discriminate.
    + injection Hc as <-. destruct Hw.
    + destruct (negb (Qle_bool q 0)); injection Hc as <-; [|destruct Hw].
      destruct Hw as [<-|[]]. now eexists _, _.
  - intros [= <-] [].
Qed.

Lemma rainfall_alerts_spec (row : Deviation.t) (a : Alert.t) :
  In a (rainfall_alerts row)
  <-> exists dev,
        Deviation.deviation_pct row = Some dev
        /\ contains "rainfall" (lower (Deviation.indicator row)) = true
        /\ Float.leb dev (Float.Fin (-40)) = true
        /\ a = rainfall_alert (Deviation.zone row) dev.
Proof.
  unfold rainfall_alerts. split.
  - destruct (Deviation.deviation_pct row) as [dev|]; [|intros []].
    destruct (contains _ _) eqn:Ec; [|intros []].
    destruct (Float.leb _ _) eqn:El; [|intros []].
    intros [<-|[]]. now exists dev.
  - intros (dev & -> & -> & Hl & ->). rewrite Hl. now left.
Qed.

Lemma lst_alerts_spec (row : Deviation.t) (a : Alert.t) :
  In a (lst_alerts row)
  <-> exists anomaly,
        contains "LST" (Deviation.indicator row) = true
        /\ Float.sub (Deviation.current row) (Deviation.baseline row)
           = Float.Fin anomaly
        /\ (3 < anomaly)%Q
        /\ a = lst_alert (Deviation.zone row) anomaly.
Proof.
  unfold lst_alerts. split.
  - destruct (contains _ _) eqn:Ec; [|intros []].
    destruct (Float.sub _ _) as [|anomaly]; [intros []|].
    destruct (Qle_bool anomaly 3) eqn:El; [intros []|].
    intros [<-|[]]. exists anomaly. repeat split. now apply Qle_bool_false.
  - intros (anomaly & -> & -> & Hlt & ->).
    apply Qle_bool_false in Hlt. rewrite Hlt. now left.
Qed.

Lemma ndvi_evi_alerts_label (th : Thresholds) (row : Deviation.t) (a : Alert.t) :
  In a (ndvi_evi_alerts th row) ->
  Alert.indicator a = "NDVI" \/ Alert.indicator a = "EVI".
Proof.
  unfold ndvi_evi_alerts.
  destruct (Deviation.deviation_pct row) as [dev|]; [|intros []].
  destruct (_ || _); [|intros []].
  destruct (Float.leb dev _); [|destruct (Float.leb dev _)];
    try (intros []; fail); intros [<-|[]]; simpl;
    destruct (contains "NDVI" _ && _); tauto.
Qed.

(** The four rules an alert of the classifier can come from. *)
Lemma alert_families (th : Thresholds) (datasets : Datasets)
    (devs : list Deviation.t) (alerts : list Alert.t) (a : Alert.t) :
  detect_alerts th datasets devs = Ok alerts ->
  (In a alerts
   <-> (exists row, In row devs /\ In a (ndvi_evi_alerts th row))
       \/ (exists fire, fire_alerts datasets = Ok fire /\ In a fire)
       \/ (exists row, In row devs /\ In a (rainfall_alerts row))
       \/ (exists row, In row devs /\ In a (lst_alerts row))).
Proof.
  unfold detect_alerts. destruct (fire_alerts datasets) as [fire|e]; [|discriminate].
  simpl. intros [= <-]. rewrite !in_app_iff, !in_flat_map. unfold climate_alerts.
  split.
  - intros [H|[H|(row & Hr & H)]]; [now left | right; left; now exists fire |].
    apply in_app_or in H as [H|H]; [right; right; left | right; right; right];
      now exists row.
  - intros [H|[(fire' & [= <-] & H)|[(row & Hr & H)|(row & Hr & H)]]];
      [now left | right; now left | |]; right; right; exists row;
      (split; [assumption|]); apply in_or_app; [now left | now right].
Qed.

Lemma leb_fin (dev : Float.t) (t : Q) :
  Float.leb dev (Float.Fin t) = true
  <-> exists d, dev = Float.Fin d /\ (d <= t)%Q.
Proof.
  destruct dev as [|d]; simpl.
  - split; [discriminate | intros (d & H & _); discriminate].
  - rewrite Qle_bool_iff. split.
    + intros H. now exists d.
    + now intros (d' & [= <-] & H).
Qed.

(** X10.  The alerts labelled "Rainfall Deficit" in the classifier's
    output are exactly the alerts of the deviation records whose indicator
    name contains "rainfall" in any letter case and whose deviation is a
    number at most -40 (inclusive), each HIGH, with the record's zone and
    deviation and without escalation key; the bound is fixed, not read
    from the configured thresholds. *)
Theorem rainfall_alerts_exact (th : Thresholds) (datasets : Datasets)
    (devs : list Deviation.t) (alerts : list Alert.t) (a : Alert.t) :
  detect_alerts th datasets devs = Ok alerts ->
  (In a alerts /\ Alert.indicator a = "Rainfall Deficit"
   <-> exists row d,
         In row devs
         /\ contains "rainfall" (lower (Deviation.indicator row)) = true
         /\ Deviation.deviation_pct row = Some (Float.Fin d)
         /\ (d <= -40)%Q
         /\ a = rainfall_alert (Deviation.zone row) (Float.Fin d)).
Proof.
  intros Hok. rewrite (alert_families th datasets devs alerts a Hok). split.
  - intros [[(row & Hr & H)|[(fire & Hf & H)|[(row & Hr & H)|(row & Hr & H)]]] Hind].
    + apply ndvi_evi_alerts_label in H as [H|H]; rewrite H in Hind; discriminate.
    + destruct (fire_alerts_inv _ _ _ Hf H) as (z & q & ->). discriminate.
    + apply rainfall_alerts_spec in H as (dev & Hd & Hc & Hl & ->).
      apply leb_fin in Hl as (d & -> & Hle). now exists row, d.
    + apply lst_alerts_spec in H as (an & _ & _ & _ & ->). discriminate.
  - intros (row & d & Hr & Hc & Hd & Hle & ->). split; [|reflexivity].
    right; right; left. exists row. split; [assumption|].
    apply rainfall_alerts_spec. exists (Float.Fin d). repeat split; try assumption.
    apply leb_fin. now exists d.
Qed.

Lemma rainfall_alerts_exact_witness :
  In (rainfall_alert (Str NYERERE) (Float.Fin (-40)))
     [rainfall_alert (Str NYERERE) (Float.Fin (-40))].
Proof.
  apply (rainfall_alerts_exact Sample.th [] [SampleAlerts.rain_row]
           [rainfall_alert (Str NYERERE) (Float.Fin (-40))]).
  - reflexivity.
  - exists SampleAlerts.rain_row, (-40)%Q.
    split; [now left|]. split; [reflexivity|]. split; [reflexivity|].
    split; [apply Qle_refl | reflexivity].
Defined.

Lemma ndvi_evi_alerts_inv (th : Thresholds) (row : Deviation.t) (a : Alert.t) :
  In a (ndvi_evi_alerts th row) ->
  exists d,
    Deviation.deviation_pct row = Some (Float.Fin d)
    /\ vegetation_index (Deviation.indicator row) = true
    /\ ((d <= ndvi_evi_high th)%Q \/ (d <= ndvi_evi_moderate th)%Q)
    /\ a = {| Alert.zone := Deviation.zone row;
              Alert.indicator :=
                if contains "NDVI" (Deviation.indicator row) then "NDVI" else "EVI";
              Alert.severity :=
                if Qle_bool d (ndvi_evi_high th) then HIGH
                else if cell_eqb (Deviation.zone row) (Str IHEFU) then HIGH
                     else MODERATE;
              Alert.deviation_pct := Some (Float.Fin d);
              Alert.current := Some (Deviation.current row);
              Alert.baseline := Some (Deviation.baseline row);
              Alert.detail := None;
              Alert.escalation :=
                Some (if Qle_bool d (ndvi_evi_high th) then None
                      else if cell_eqb (Deviation.zone row) (Str IHEFU)
                           then Some "Escalated: MODERATE in Ihefu Core -> HIGH"
                           else None) |}.
Proof.
  unfold ndvi_evi_alerts.
  destruct (Deviation.deviation_pct row) as [dev|]; [|intros []].
  rewrite vegetation_index_guard.
  destruct (vegetation_index (Deviation.indicator row)) eqn:Ev; [|intros []].
  assert (Estd : contains "stdDev" (Deviation.indicator row) = false).
  { unfold vegetation_index in Ev. apply andb_true_iff in Ev as [_ Ev].
    now apply negb_true_iff in Ev. }
  rewrite Estd, andb_true_r.
  destruct dev as [|d]; [intros []|]. simpl Float.leb.
  unfold IHEFU.
  destruct (Qle_bool d (ndvi_evi_high th)) eqn:Eh.
  - intros [<-|[]]. exists d. rewrite andb_false_r, Eh.
    apply Qle_bool_iff in Eh.
    split; [reflexivity|]. split; [reflexivity|]. split; [now left | reflexivity].
  - destruct (Qle_bool d (ndvi_evi_moderate th)) eqn:Em; [|intros []].
    intros [<-|[]]. exists d. rewrite andb_true_r, Eh.
    apply Qle_bool_iff in Em.
    split; [reflexivity|]. split; [reflexivity|]. split; [now right|].
    destruct (cell_eqb (Deviation.zone row) (Str "Ihefu Core")); reflexivity.
Qed.

(** X12.  Every alert labelled "NDVI" or "EVI" comes from a deviation
    record whose indicator name contains that label and not "stdDev"
    (the label "EVI" only when the name does not contain "NDVI"), with
    the record's zone, values and deviation, a number at most the high or
    the moderate threshold.  It is MODERATE exactly when the deviation is
    above the high threshold outside Ihefu Core, and it carries an
    escalation note exactly when the deviation is above the high
    threshold in Ihefu Core. *)
Theorem vegetation_alerts_origin (th : Thresholds) (datasets : Datasets)
    (devs : list Deviation.t) (alerts : list Alert.t) (a : Alert.t) :
  detect_alerts th datasets devs = Ok alerts ->
  In a alerts ->
  Alert.indicator a = "NDVI" \/ Alert.indicator a = "EVI" ->
  exists row d,
    In row devs
    /\ Deviation.deviation_pct row = Some (Float.Fin d)
    /\ contains (Alert.indicator a) (Deviation.indicator row) = true
    /\ contains "stdDev" (Deviation.indicator row) = false
    /\ (Alert.indicator a = "EVI" ->
        contains "NDVI" (Deviation.indicator row) = false)
    /\ Alert.zone a = Deviation.zone row
    /\ Alert.deviation_pct a = Some (Float.Fin d)
    /\ Alert.current a = Some (Deviation.current row)
    /\ Alert.baseline a = Some (Deviation.baseline row)
    /\ ((d <= ndvi_evi_high th)%Q \/ (d <= ndvi_evi_moderate th)%Q)
    /\ (Alert.severity a = MODERATE
        <-> (ndvi_evi_high th < d)%Q
            /\ cell_eqb (Deviation.zone row) (Str IHEFU) = false)
    /\ (Alert.get_escalation a <> None
        <-> (ndvi_evi_high th < d)%Q
            /\ cell_eqb (Deviation.zone row) (Str IHEFU) = true).
Proof.
  intros Hok Hin Hlabel.
  apply (alert_families th datasets devs alerts a Hok) in Hin.
  destruct Hin as [(row & Hr & H)|[(fire & Hf & H)|[(row & Hr & H)|(row & Hr & H)]]].
  - apply ndvi_evi_alerts_inv in H as (d & Hd & Hv & Hle & ->).
    exists row, d. unfold Alert.get_escalation. cbn [Alert.zone Alert.indicator
      Alert.severity Alert.deviation_pct Alert.current Alert.baseline
      Alert.escalation].
    unfold vegetation_index in Hv. apply andb_true_iff in Hv as [Hc Hstd].
    apply negb_true_iff in Hstd.
    split; [assumption|]. split; [assumption|]. split.
    { destruct (contains "NDVI" (Deviation.indicator row)) eqn:En; [assumption|].
      simpl in Hc. assumption. }
    split; [assumption|]. split.
    { destruct (contains "NDVI" (Deviation.indicator row)); [discriminate|reflexivity]. }
    split; [reflexivity|]. split; [reflexivity|]. split; [reflexivity|].
    split; [reflexivity|]. split; [assumption|].
    destruct (Qle_bool d (ndvi_evi_high th)) eqn:Eh.
    + apply Qle_bool_iff in Eh. split; split.
      * discriminate.
      * intros [Hlt _]. exfalso. now apply (Qlt_not_le _ _ Hlt).
      * intros Hn. now elim Hn.
      * intros [Hlt _]. exfalso. now apply (Qlt_not_le _ _ Hlt).
    + apply Qle_bool_false in Eh.
      destruct (cell_eqb (Deviation.zone row) (Str IHEFU)); split; split.
      * discriminate.
      * intros [_ Hf]. discriminate Hf.
      * intros _. now split.
      * discriminate.
      * intros _. now split.
      * reflexivity.
      * intros Hn. now elim Hn.
      * intros [_ Hf]. discriminate Hf.
  - destruct (fire_alerts_inv _ _ _ Hf H) as (z & q & ->).
    destruct Hlabel as [Hl|Hl]; discriminate Hl.
  - apply rainfall_alerts_spec in H as (dev & _ & _ & _ & ->).
    destruct Hlabel as [Hl|Hl]; discriminate Hl.
  - apply lst_alerts_spec in H as (an & _ & _ & _ & ->).
    destruct Hlabel as [Hl|Hl]; discriminate Hl.
Qed.

Lemma vegetation_alerts_origin_witness :
  exists row d,
    In row [SampleAlerts.ihefu_row]
    /\ Deviation.deviation_pct row = Some (Float.Fin d)
    /\ (ndvi_evi_high Sample.th < d)%Q.
Proof.
  destruct (vegetation_alerts_origin Sample.th [] [SampleAlerts.ihefu_row]
              (ndvi_evi_alerts Sample.th SampleAlerts.ihefu_row)
              {| Alert.zone := Str IHEFU;
                 Alert.indicator := "EVI";
                 Alert.severity := HIGH;
                 Alert.deviation_pct := Some (Float.Fin (-18));
                 Alert.current := Some (Float.Fin (41 # 100));
                 Alert.baseline := Some (Float.Fin (1 # 2));
                 Alert.detail := None;
                 Alert.escalation :=
                   Some (Some "Escalated: MODERATE in Ihefu Core -> HIGH") |})
    as (row & d & Hr & Hd & _ & _ & _ & _ & _ & _ & _ & _ & _ & Hesc).
  - reflexivity.
  - left; reflexivity.
  - now right.
  - exists row, d. split; [assumption|]. split; [assumption|].
    apply Hesc. discriminate.
Defined.

(** ** More on the monthly compiler *)

Lemma process_findings (th : Thresholds) (nq1 no1 nq2 no2 : string)
    (year month : Z) (ds1 ds2 : Datasets) :
  get ds1 "ndvi_evi" = get ds2 "ndvi_evi" ->
  get ds1 "climate" = get ds2 "climate" ->
  get ds1 "fire" = get ds2 "fire" ->
  findings (process th nq1 no1 year month ds1)
  = findings (process th nq2 no2 year month ds2).
Proof.
  intros Hn Hc Hf. unfold process, deviations_of, detect_alerts, fire_alerts.
  rewrite Hn, Hc, Hf.
  destruct (get ds2 "ndvi_evi") as [dn|];
    [destruct (compute_deviations dn) as [d1|e]; [|reflexivity]|];
    (destruct (get ds2 "climate") as [dc|];
     [destruct (compute_deviations dc) as [d2|e]; [|reflexivity]|]);
    simpl;
    (destruct (get ds2 "fire") as [df|];
     [destruct (concat_mapM _ _) as [fire|e]; reflexivity | reflexivity]).
Qed.

(** X13.  The water export is loaded and quality-checked but used for
    nothing else: two export directories that hold the same files except
    for the contents of a water export that loads in both give runs with
    the same deviations and the same alerts (or the same exception). *)
Theorem water_export_not_used (th : Thresholds) (fs1 fs2 : Exports)
    (nq1 no1 nq2 no2 : string) (year month : Z) :
  (forall f, f <> water_file year month -> fs1 f = fs2 f) ->
  (exists raw df, fs1 (water_file year month) = Some raw
                  /\ load_gee_export raw = Ok df) ->
  (exists raw df, fs2 (water_file year month) = Some raw
                  /\ load_gee_export raw = Ok df) ->
  findings (snd (compile_monthly_dataset th fs1 nq1 no1 year month))
  = findings (snd (compile_monthly_dataset th fs2 nq2 no2 year month)).
Proof.
  intros Hsame (raw1 & w1 & Hw1 & Hl1) (raw2 & w2 & Hw2 & Hl2).
  unfold compile_monthly_dataset, load_monthly_exports, patterns, water_file in *.
  set (s := month_str year month) in *.
  assert (Hn : fs1 ("ndvi_evi_" ++ s ++ ".csv")%string
               = fs2 ("ndvi_evi_" ++ s ++ ".csv")%string)
    by (apply Hsame; discriminate).
  assert (Hf : fs1 ("fire_burn_" ++ s ++ ".csv")%string
               = fs2 ("fire_burn_" ++ s ++ ".csv")%string)
    by (apply Hsame; discriminate).
  assert (Hc : fs1 ("climate_" ++ s ++ ".csv")%string
               = fs2 ("climate_" ++ s ++ ".csv")%string)
    by (apply Hsame; discriminate).
  cbn [load_loop]. rewrite Hn, Hf, Hc, Hw1, Hw2, Hl1, Hl2.
  destruct (fs2 ("ndvi_evi_" ++ s ++ ".csv")%string) as [rn|];
    [destruct (load_gee_export rn) as [dn|e]; [|reflexivity]|];
    (destruct (fs2 ("fire_burn_" ++ s ++ ".csv")%string) as [rf|];
     [destruct (load_gee_export rf) as [df|e]; [|reflexivity]|]);
    (destruct (fs2 ("climate_" ++ s ++ ".csv")%string) as [rc|];
     [destruct (load_gee_export rc) as [dc|e]; [|reflexivity]|]);
    cbn [app snd]; apply process_findings; reflexivity.
Qed.

Lemma water_export_not_used_witness :
  findings (snd (compile_monthly_dataset Sample.th (SampleWater.fs (1 # 2))
                   "t1" "t2" 2024 6))
  = findings (snd (compile_monthly_dataset Sample.th (SampleWater.fs (1 # 10))
                     "t1" "t2" 2024 6)).
Proof.
  apply water_export_not_used.
  - intros f Hf. unfold SampleWater.fs.
    destruct (String.eqb f "water_ndwi_2024_06.csv") eqn:E; [|reflexivity].
    apply String.eqb_eq in E. contradiction.
  - eexists. eexists. split; [reflexivity | vm_compute; reflexivity].
  - eexists. eexists. split; [reflexivity | vm_compute; reflexivity].
Defined.

(** *** File names *)

Lemma to_int_nonnil (z : Z) :
  Z.to_int z <> Decimal.Pos Decimal.Nil /\ Z.to_int z <> Decimal.Neg Decimal.Nil.
Proof.
  destruct z as [|p|p]; simpl; split; try discriminate;
    intros [= H]; now apply (DecimalPos.Unsigned.to_uint_nonnil p).
Qed.

Lemma str_of_Z_inj (z1 z2 : Z) : str_of_Z z1 = str_of_Z z2 -> z1 = z2.
Proof.
  unfold str_of_Z. intros H. apply (f_equal NilZero.int_of_string) in H.
  rewrite !NilZero.isi in H by apply to_int_nonnil.
  injection H as H. now apply DecimalZ.to_int_inj.
Qed.

Lemma uint_digits (c : ascii) (d : Decimal.uint) :
  (c = "_" \/ c = "-")%char -> occurs c (NilEmpty.string_of_uint d) = false.
Proof.
  intros Hc. induction d; simpl; try reflexivity; rewrite IHd;
    destruct Hc as [-> | ->]; reflexivity.
Qed.

Lemma nilzero_uint_digits (c : ascii) (d : Decimal.uint) :
  (c = "_" \/ c = "-")%char -> occurs c (NilZero.string_of_uint d) = false.
Proof.
  intros Hc. destruct d; try apply (uint_digits c _ Hc).
  destruct Hc as [-> | ->]; reflexivity.
Qed.

Lemma str_of_Z_no_underscore (z : Z) : occurs "_" (str_of_Z z) = false.
Proof.
  unfold str_of_Z. destruct (Z.to_int z) as [d|d]; simpl.
  - apply nilzero_uint_digits. now left.
  - apply nilzero_uint_digits. now left.
Qed.

Lemma str_of_Z_no_minus (z : Z) : (0 <= z)%Z -> occurs "-" (str_of_Z z) = false.
Proof.
  intros Hz. unfold str_of_Z. destruct z as [|p|p]; simpl; try reflexivity.
  - apply nilzero_uint_digits. now right.
  - lia.
Qed.

Lemma to_uint_no_leading_zero (p : positive) (d : Decimal.uint) :
  Pos.to_uint p <> Decimal.D0 d.
Proof.
  intros H.
  pose proof (DecimalZ.to_of (Z.to_int (Z.pos p))) as Hn.
  rewrite DecimalZ.of_to in Hn. simpl in Hn. injection Hn as Hn.
  rewrite H in Hn. unfold Decimal.unorm in Hn. rewrite DecimalFacts.nzhead_D0 in Hn.
  destruct (Decimal.nzhead d) eqn:E; try discriminate.
  - injection Hn as ->. now apply (DecimalPos.Unsigned.to_uint_nonzero p).
  - symmetry in Hn. rewrite <- E in Hn. now apply DecimalFacts.nzhead_nonzero in Hn.
Qed.

Lemma str_of_Z_leading_zero (z : Z) (s : string) :
  str_of_Z z = String "0" s -> z = 0%Z.
Proof.
  unfold str_of_Z. destruct z as [|p|p]; simpl; [reflexivity| |discriminate].
  intros H. exfalso.
  destruct (Pos.to_uint p) as [|d|d|d|d|d|d|d|d|d|d] eqn:E; simpl in H;
    try discriminate.
  - now apply (DecimalPos.Unsigned.to_uint_nonnil p).
  - now apply (to_uint_no_leading_zero p d).
Qed.

Lemma fmt_02d_inj (m1 m2 : Z) : fmt_02d m1 = fmt_02d m2 -> m1 = m2.
Proof.
  unfold fmt_02d.
  destruct (String.length (str_of_Z m1) <? 2)%nat eqn:E1,
           (String.length (str_of_Z m2) <? 2)%nat eqn:E2; intros H.
  - injection H as H. now apply str_of_Z_inj.
  - symmetry in H. simpl in H. apply str_of_Z_leading_zero in H. subst m2.
    discriminate E2.
  - simpl in H. apply str_of_Z_leading_zero in H. subst m1. discriminate E1.
  - now apply str_of_Z_inj.
Qed.

Lemma split_at_separator (c : ascii) (a a' b b' : string) :
  occurs c a = false -> occurs c a' = false ->
  (a ++ String c b)%string = (a' ++ String c b')%string ->
  a = a' /\ b = b'.
Proof.
  revert a'; induction a as [|x a IH]; intros a' Ha Ha' H.
  - destruct a' as [|y a']; simpl in *.
    + injection H as ->. now split.
    + injection H as <- _. rewrite Ascii.eqb_refl in Ha'. discriminate.
  - destruct a' as [|y a']; simpl in *.
    + injection H as -> _. rewrite Ascii.eqb_refl in Ha. discriminate.
    + injection H as -> H.
      apply orb_false_iff in Ha as [_ Ha]. apply orb_false_iff in Ha' as [_ Ha'].
      destruct (IH a' Ha Ha' H) as [-> ->]. now split.
Qed.

Lemma month_str_inj (y1 m1 y2 m2 : Z) :
  month_str y1 m1 = month_str y2 m2 -> y1 = y2 /\ m1 = m2.
Proof.
  unfold month_str. intros H.
  apply split_at_separator in H as [Hy Hm]; try apply str_of_Z_no_underscore.
  split; [now apply str_of_Z_inj | now apply fmt_02d_inj].
Qed.

Lemma append_inj_r (a b b' : string) :
  (a ++ b)%string = (a ++ b')%string -> b = b'.
Proof.
  induction a as [|x a IH]; simpl; intros H; [assumption|].
  injection H as H. now apply IH.
Qed.

Lemma length_append (a b : string) :
  String.length (a ++ b)%string = (String.length a + String.length b)%nat.
Proof. induction a as [|x a IH]; simpl; [reflexivity | now rewrite IH]. Qed.

Lemma append_inj_l (a a' b : string) :
  (a ++ b)%string = (a' ++ b)%string -> a = a'.
Proof.
  intros H.
  assert (Hlen : String.length a = String.length a').
  { apply (f_equal String.length) in H. rewrite !length_append in H. lia. }
  revert a' H Hlen; induction a as [|x a IH]; intros [|y a'] H Hlen;
    simpl in *; try discriminate; try reflexivity.
  injection H as -> H. f_equal. apply IH; [assumption | lia].
Qed.

Lemma process_inv (th : Thresholds) (nq no : string) (year month : Z)
    (datasets : Datasets) (o : outcome) :
  process th nq no year month datasets = Ok o ->
  exists d1 d2 al,
    deviations_of datasets "ndvi_evi" = Ok d1
    /\ deviations_of datasets "climate" = Ok d2
    /\ detect_alerts th datasets (d1 ++ d2) = Ok al
    /\ o = Written (output_file year month)
             {| metadata :=
                  {| report_period := (str_of_Z year ++ "-" ++ fmt_02d month)%string;
                     generated_at := no;
                     prepared_by := "Ernest Moyo / 7Square Inc.";
                     organisation := "Six Rivers Africa";
                     boundary_status := "PLACEHOLDER";
                     crs_analysis := "EPSG:32736" |};
                data_quality := validate_data_quality nq datasets;
                deviations := d1 ++ d2;
                alerts := al;
                raw_datasets := datasets |}.
Proof.
  unfold process.
  destruct (deviations_of datasets "ndvi_evi") as [d1|] eqn:E1; [|discriminate].
  destruct (deviations_of datasets "climate") as [d2|] eqn:E2; [|discriminate].
  cbn [bind].
  destruct (detect_alerts th datasets (d1 ++ d2)) as [al|] eqn:E3; [|discriminate].
  cbn [bind]. intros [= <-]. exists d1, d2, al.
  split; [reflexivity|]. split; [reflexivity|]. split; [assumption | reflexivity].
Qed.

Lemma compile_inv (th : Thresholds) (fs : Exports) (nq no : string)
    (year month : Z) (path : string) (doc : MonthlyDataset) :
  snd (compile_monthly_dataset th fs nq no year month) = Ok (Written path doc) ->
  exists log datasets,
    load_monthly_exports fs year month = (log, Ok datasets)
    /\ datasets <> []
    /\ process th nq no year month datasets = Ok (Written path doc).
Proof.
  unfold compile_monthly_dataset.
  destruct (load_monthly_exports fs year month) as [log [datasets|e]];
    [|discriminate].
  destruct datasets as [|kd ds]; [discriminate|]. simpl. intros H.
  exists log, (kd :: ds). repeat split; [discriminate | assumption].
Qed.

(** X14.  File names identify the period: two runs that write to the same
    file are runs for the same year and month and give their documents
    the same report period, and an export file name belongs to one
    category of one period only. *)
Theorem period_files_distinct (y1 m1 y2 m2 : Z) :
  (forall th1 fs1 nq1 no1 th2 fs2 nq2 no2 path doc1 doc2,
      snd (compile_monthly_dataset th1 fs1 nq1 no1 y1 m1) = Ok (Written path doc1) ->
      snd (compile_monthly_dataset th2 fs2 nq2 no2 y2 m2) = Ok (Written path doc2) ->
      y1 = y2 /\ m1 = m2
      /\ report_period (metadata doc1) = report_period (metadata doc2))
  /\ (forall k1 f1 k2 f2,
        In (k1, f1) (patterns y1 m1) -> In (k2, f2) (patterns y2 m2) ->
        f1 = f2 -> k1 = k2 /\ y1 = y2 /\ m1 = m2).
Proof.
  split.
  - intros th1 fs1 nq1 no1 th2 fs2 nq2 no2 path doc1 doc2 H1 H2.
    apply compile_inv in H1 as (log1 & ds1 & _ & _ & H1).
    apply compile_inv in H2 as (log2 & ds2 & _ & _ & H2).
    apply process_inv in H1 as (a1 & b1 & c1 & _ & _ & _ & E1).
    apply process_inv in H2 as (a2 & b2 & c2 & _ & _ & _ & E2).
    injection E1 as E1 ->. injection E2 as E2 ->. rewrite E1 in E2.
    unfold output_file in E2. apply append_inj_r, append_inj_l in E2.
    apply month_str_inj in E2 as [-> ->]. repeat split.
  - intros k1 f1 k2 f2 H1 H2 Hf. unfold patterns in H1, H2.
    assert (Hcsv : (month_str y1 m1 ++ ".csv")%string
                   = (month_str y2 m2 ++ ".csv")%string ->
                   y1 = y2 /\ m1 = m2).
    { intros H. apply append_inj_l in H. now apply month_str_inj. }
    destruct H1 as [H1|[H1|[H1|[H1|[]]]]]; injection H1 as <- <-;
      destruct H2 as [H2|[H2|[H2|[H2|[]]]]]; injection H2 as <- <-;
      try discriminate Hf;
      (split; [reflexivity|]; apply Hcsv;
       repeat match type of Hf with
              | String _ _ = String _ _ => injection Hf as Hf
              end; exact Hf).
Qed.

Lemma period_files_distinct_witness :
  2024%Z = 2024%Z /\ 6%Z = 6%Z.
Proof.
  destruct (period_files_distinct 2024 6 2024 6) as [H _].
  destruct (compile_monthly_dataset Sample.th SampleClimate.fs "t1" "t2" 2024 6)
    as [log r] eqn:E1.
  assert (Hr : exists path doc, r = Ok (Written path doc)).
  { vm_compute in E1. injection E1 as _ <-. now eexists _, _. }
  destruct Hr as (path & doc & ->).
  destruct (H Sample.th SampleClimate.fs "t1" "t2" Sample.th SampleClimate.fs
              "t1" "t2" path doc doc) as (Hy & Hm & _);
    try (rewrite E1; reflexivity).
  now split.
Defined.

(* ====================================================================== *)
(** * Properties of the text report generator *)

Lemma insert_high {x : Alert.t} (l : list Alert.t) :
  Report.is_high x = true ->
  Report.insert_by Report.severity_rank x l = x :: l.
Proof.
  intros H. destruct l as [|y l]; [reflexivity|]. simpl.
  unfold Report.severity_rank at 1. now rewrite H.
Qed.

Lemma insert_low (x : Alert.t) (hs ls : list Alert.t) :
  Report.is_high x = false ->
  (forall a, In a hs -> Report.is_high a = true) ->
  (forall a, In a ls -> Report.is_high a = false) ->
  Report.insert_by Report.severity_rank x (hs ++ ls) = hs ++ x :: ls.
Proof.
  intros Hx Hhs Hls. induction hs as [|h hs IH]; simpl.
  - destruct ls as [|y ls]; [reflexivity|]. simpl.
    unfold Report.severity_rank. rewrite Hx, (Hls y (or_introl eq_refl)).
    reflexivity.
  - unfold Report.severity_rank at 1 2. rewrite Hx, (Hhs h (or_introl eq_refl)).
    simpl. f_equal. apply IH. intros a Ha. apply Hhs. now right.
Qed.

(** X16.  The alert table lists the alerts in a stable order with the
    HIGH ones first: the HIGH alerts in their order of detection,
    followed by the other alerts in their order of detection; no alert
    is lost or repeated. *)
Theorem alert_table_order (alerts : list Alert.t) :
  Report.table_order alerts
  = filter Report.is_high alerts
    ++ filter (fun a => negb (Report.is_high a)) alerts
  /\ Permutation alerts (Report.table_order alerts).
Proof.
  assert (Heq : Report.table_order alerts
                = filter Report.is_high alerts
                  ++ filter (fun a => negb (Report.is_high a)) alerts).
  { unfold Report.table_order, Report.sorted.
    induction alerts as [|x xs IH]; simpl; [reflexivity|]. rewrite IH.
    destruct (Report.is_high x) eqn:Hx; simpl.
    - now apply insert_high.
    - apply insert_low; [assumption | |].
      + intros a Ha. now apply filter_In in Ha.
      + intros a Ha. apply filter_In in Ha as [_ Ha].
        now apply negb_true_iff in Ha. }
  split; [exact Heq|]. rewrite Heq. clear Heq.
  induction alerts as [|x xs IH]; simpl; [constructor|].
  destruct (Report.is_high x); simpl.
  - now constructor.
  - now apply Permutation_cons_app.
Qed.

Lemma recommend_type_error (section : string) (high_alerts : list Alert.t) :
  Report.recommend section high_alerts = Report.TypeError
  <-> exists a, In a high_alerts /\ is_str (Alert.zone a) = false.
Proof.
  revert section; induction high_alerts as [|a rest IH]; intros section; simpl.
  - split; [discriminate | intros (a & [] & _)].
  - destruct (Alert.zone a) as [|q|z] eqn:Ez.
    + split; [|reflexivity]. intros _. exists a. rewrite Ez. split; [now left | reflexivity].
    + split; [|reflexivity]. intros _. exists a. rewrite Ez. split; [now left | reflexivity].
    + rewrite IH. split.
      * intros (a' & Ha' & Hz). exists a'. split; [now right | assumption].
      * intros (a' & [<-|Ha'] & Hz); [rewrite Ez in Hz; discriminate|].
        now exists a'.
Qed.

Lemma format_recommendations_type_error (alerts : list Alert.t) :
  Report.format_recommendations alerts = Report.TypeError
  <-> exists a, In a alerts /\ Report.is_high a = true
                /\ is_str (Alert.zone a) = false.
Proof.
  unfold Report.format_recommendations.
  destruct (filter Report.is_high alerts) as [|h hs] eqn:E.
  - split; [discriminate|]. intros (a & Ha & Hh & _).
    assert (In a (filter Report.is_high alerts)) by now apply filter_In.
    rewrite E in H. destruct H.
  - rewrite recommend_type_error, <- E. split.
    + intros (a & Ha & Hz). apply filter_In in Ha as [Ha Hh]. now exists a.
    + intros (a & Ha & Hh & Hz). exists a. split; [now apply filter_In | assumption].
Qed.

(** X17.  The recommendations ignore the alerts that are not HIGH; they
    are the fixed "no immediate actions" text when there is no HIGH
    alert; and formatting them fails with a type error exactly when some
    HIGH alert has a zone that is not a string (a number or a missing
    value), whatever the other alerts are. *)
Theorem recommendations_outcome (alerts : list Alert.t) :
  Report.format_recommendations alerts
  = Report.format_recommendations (filter Report.is_high alerts)
  /\ ((forall a, In a alerts -> Report.is_high a = false) ->
      Report.format_recommendations alerts = Report.Text Report.no_actions)
  /\ (Report.format_recommendations alerts = Report.TypeError
      <-> exists a, In a alerts /\ Report.is_high a = true
                    /\ is_str (Alert.zone a) = false).
Proof.
  split; [|split].
  - unfold Report.format_recommendations.
    rewrite (filter_all Report.is_high (filter Report.is_high alerts));
      [reflexivity|].
    intros a Ha. now apply filter_In in Ha.
  - intros H. unfold Report.format_recommendations.
    now rewrite (filter_nil _ _ H).
  - apply format_recommendations_type_error.
Qed.

Lemma recommendations_outcome_witness :
  Report.format_recommendations [SampleClimate.lst_alert]
  = Report.Text Report.no_actions.
Proof.
  apply (recommendations_outcome [SampleClimate.lst_alert]).
  intros a [<-|[]]. reflexivity.
Defined.

Lemma concat_mapM_mem {A B : Type} (f : A -> result (list B)) (l : list A)
    (ys : list B) (x : A) :
  concat_mapM f l = Ok ys -> In x l ->
  exists zs, f x = Ok zs /\ forall z, In z zs -> In z ys.
Proof.
  revert ys; induction l as [|x0 xs IH]; intros ys H Hin; [destruct Hin|].
  simpl in H. destruct (f x0) as [zs0|e] eqn:Ef; [|discriminate]. simpl in H.
  destruct (concat_mapM f xs) as [ws|e]; [|discriminate]. injection H as <-.
  destruct Hin as [->|Hin].
  - exists zs0. split; [assumption|]. intros z Hz. apply in_or_app. now left.
  - destruct (IH ws eq_refl Hin) as (zs & Hf & Hsub). exists zs.
    split; [assumption|]. intros z Hz. apply in_or_app. right. now apply Hsub.
Qed.

Lemma fire_detection_alerted (datasets : Datasets) (fire : list Alert.t)
    (fire_df : DataFrame) (r : list cell) (col : string) (q : Q) :
  fire_alerts datasets = Ok fire ->
  get datasets "fire" = Some fire_df ->
  In r (rows fire_df) ->
  In (col, Num q) (combine (columns fire_df) r) ->
  is_fire_count_col col = true ->
  (0 < q)%Q ->
  In (fire_alert (lookup (columns fire_df) r "zone") q) fire.
Proof.
  unfold fire_alerts. intros H Hget Hr Hi Hc Hq. rewrite Hget in H.
  destruct (concat_mapM_mem _ _ _ r H Hr) as (zs & Hrow & Hsub).
  apply Hsub. unfold fire_row_alerts in Hrow.
  destruct (concat_mapM_mem _ _ _ (col, Num q) Hrow) as (ws & Hcell & Hsub').
  { apply filter_In. now split. }
  apply Hsub'. unfold fire_cell_alerts in Hcell. simpl in Hcell.
  apply Qle_bool_false in Hq. rewrite Hq in Hcell. simpl in Hcell.
  injection Hcell as <-. now left.
Qed.

(** X18.  A fire detection in a row of the fire export whose zone is
    missing gives a HIGH alert without zone, on which the
    recommendations of the text report fail with a type error. *)
Theorem fire_without_zone_breaks_report (th : Thresholds) (datasets : Datasets)
    (devs : list Deviation.t) (alerts : list Alert.t) (fire_df : DataFrame)
    (r : list cell) (col : string) (q : Q) :
  detect_alerts th datasets devs = Ok alerts ->
  get datasets "fire" = Some fire_df ->
  In r (rows fire_df) ->
  In (col, Num q) (combine (columns fire_df) r) ->
  is_fire_count_col col = true ->
  (0 < q)%Q ->
  lookup (columns fire_df) r "zone" = Null ->
  In (fire_alert Null q) alerts
  /\ Report.format_recommendations alerts = Report.TypeError.
Proof.
  intros Hok Hget Hr Hi Hc Hq Hz.
  assert (Hin : In (fire_alert Null q) alerts).
  { apply (alert_families th datasets devs alerts _ Hok). right; left.
    unfold detect_alerts in Hok.
    destruct (fire_alerts datasets) as [fire|e] eqn:Ef; [|discriminate].
    exists fire. split; [reflexivity|]. rewrite <- Hz.
    now apply (fire_detection_alerted datasets fire fire_df r col q). }
  split; [exact Hin|].
  apply format_recommendations_type_error.
  exists (fire_alert Null q).
  split; [assumption|]. split; reflexivity.
Qed.

Lemma fire_without_zone_breaks_report_witness :
  Report.format_recommendations [fire_alert Null 2] = Report.TypeError.
Proof.
  apply (fire_without_zone_breaks_report Sample.th
           [("fire", SampleReport.fire_no_zone_value)] [] [fire_alert Null 2]
           SampleReport.fire_no_zone_value
           [Null; Str "fire"; Num 2024; Num 6; Num 2] "count" 2).
  - reflexivity.
  - reflexivity.
  - left; reflexivity.
  - simpl. tauto.
  - reflexivity.
  - reflexivity.
  - reflexivity.
Defined.

Lemma deviations_of_columns (datasets : Datasets) (key : string)
    (recs : list Deviation.t) (rec : Deviation.t) :
  deviations_of datasets key = Ok recs -> In rec recs ->
  exists df, In (key, df) datasets /\ In (Deviation.indicator rec) (columns df).
Proof.
  unfold deviations_of. destruct (get datasets key) as [df|] eqn:E.
  - intros Hok Hin. exists df. split; [now apply get_In|].
    destruct (compute_deviations_records df recs rec Hok Hin)
      as (z & col & _ & _ & Hcol & ->).
    now apply value_columns_spec in Hcol.
  - intros [= <-] [].
Qed.

(** X19.  The executive summary of the text report reads the vegetation
    status off deviation records named exactly "NDVI", while the
    processor names its records after the table columns: for a document
    of a run none of whose tables has a column named "NDVI", the
    landscape status is "stable" whatever the deviations and alerts
    are. *)
Theorem landscape_stable_without_ndvi_column (th : Thresholds) (fs : Exports)
    (nq no : string) (year month : Z) (path : string) (doc : MonthlyDataset) :
  snd (compile_monthly_dataset th fs nq no year month) = Ok (Written path doc) ->
  (forall key df, In (key, df) (raw_datasets doc) -> ~ In "NDVI" (columns df)) ->
  Report.landscape_status (deviations doc) = "stable".
Proof.
  intros H Hcols. apply compile_inv in H as (log & datasets & _ & _ & Hp).
  apply process_inv in Hp as (d1 & d2 & al & H1 & H2 & _ & E).
  injection E as _ ->. cbn [deviations raw_datasets] in *.
  unfold Report.landscape_status.
  destruct (existsb Report.stressed (d1 ++ d2)) eqn:Ex; [|reflexivity].
  apply existsb_exists in Ex as (rec & Hin & Hs).
  unfold Report.stressed in Hs. apply andb_true_iff in Hs as [Hname _].
  apply String.eqb_eq in Hname. exfalso.
  apply in_app_or in Hin as [Hin|Hin].
  - destruct (deviations_of_columns _ _ _ _ H1 Hin) as (df & Hdf & Hc).
    rewrite Hname in Hc. now apply (Hcols _ _ Hdf).
  - destruct (deviations_of_columns _ _ _ _ H2 Hin) as (df & Hdf & Hc).
    rewrite Hname in Hc. now apply (Hcols _ _ Hdf).
Qed.

Lemma landscape_stable_without_ndvi_column_witness :
  exists path doc,
    snd (compile_monthly_dataset Sample.th SampleRun.fs "t1" "t2" 2024 6)
    = Ok (Written path doc)
    /\ Report.landscape_status (deviations doc) = "stable"
    /\ exists a, In a (alerts doc) /\ Alert.indicator a = "NDVI"
                  /\ Alert.severity a = HIGH.
Proof.
  destruct (compile_monthly_dataset Sample.th SampleRun.fs "t1" "t2" 2024 6)
    as [log r] eqn:E1.
  vm_compute in E1. injection E1 as _ <-.
  eexists _, _. split; [reflexivity|]. split.
  - apply (landscape_stable_without_ndvi_column Sample.th SampleRun.fs
             "t1" "t2" 2024 6 "monthly_dataset_2024_06.json").
    + vm_compute. reflexivity.
    + intros key df [[= <- <-]|[]]. vm_compute. intuition discriminate.
  - eexists. split; [left; reflexivity|]. split; reflexivity.
Defined.

(* ====================================================================== *)
(** * Properties of the shapefile register *)

Lemma lookup_in_keys (register : Shapefiles.Register) (name : string) :
  Shapefiles.lookup register name = None <-> ~ In name (map fst register).
Proof.
  induction register as [|[k e] rest IH]; simpl.
  - tauto.
  - destruct (String.eqb k name) eqn:E.
    + apply String.eqb_eq in E. split; [discriminate|]. intros H. elim H. now left.
    + rewrite IH. split.
      * intros H [Hk|Hin]; [|contradiction].
        subst. rewrite String.eqb_refl in E. discriminate.
      * intros H Hin. apply H. now right.
Qed.

Lemma store_keys (register : Shapefiles.Register) (name : string)
    (e : Shapefiles.Entry) :
  map fst (Shapefiles.store register name e) = map fst register.
Proof.
  induction register as [|[k e0] rest IH]; simpl; [reflexivity|].
  destruct (String.eqb k name); simpl; [reflexivity | now rewrite IH].
Qed.

Lemma lookup_store_same (register : Shapefiles.Register) (name : string)
    (e : Shapefiles.Entry) :
  In name (map fst register) ->
  Shapefiles.lookup (Shapefiles.store register name e) name = Some e.
Proof.
  induction register as [|[k e0] rest IH]; simpl; [intros []|].
  destruct (String.eqb k name) eqn:E; simpl; rewrite E; [reflexivity|].
  intros [Hk|Hin]; [|now apply IH].
  subst. rewrite String.eqb_refl in E. discriminate.
Qed.

Lemma lookup_store_other (register : Shapefiles.Register) (name other : string)
    (e : Shapefiles.Entry) :
  other <> name ->
  Shapefiles.lookup (Shapefiles.store register name e) other
  = Shapefiles.lookup register other.
Proof.
  intros Hne. induction register as [|[k e0] rest IH]; simpl; [reflexivity|].
  destruct (String.eqb k name) eqn:E; simpl.
  - apply String.eqb_eq in E. subst k.
    destruct (String.eqb name other) eqn:E'; [|reflexivity].
    apply String.eqb_eq in E'. congruence.
  - now rewrite IH.
Qed.

(** X20.  Updating the status of a shapefile that is not in the register
    raises the error naming it.  Updating a registered one returns the
    entry now stored under that name, with the new status and its file
    name, type, CRS, zone and notes untouched; its source and
    verification date are replaced only by non-empty strings and its
    verified area only by a non-zero number; the register keeps its names
    in order and every other entry is unchanged. *)
Theorem update_shapefile_status_spec (register : Shapefiles.Register)
    (name new_status : string) (src verified_date : option string)
    (area_km2 : option Float.t) :
  match Shapefiles.update_shapefile_status register name new_status src
          verified_date area_km2 with
  | Shapefiles.UnknownShapefile n => n = name /\ ~ In name (map fst register)
  | Shapefiles.Updated e' register' =>
      exists e,
        Shapefiles.lookup register name = Some e
        /\ Shapefiles.lookup register' name = Some e'
        /\ map fst register' = map fst register
        /\ (forall other, other <> name ->
              Shapefiles.lookup register' other = Shapefiles.lookup register other)
        /\ Shapefiles.status e' = new_status
        /\ Shapefiles.filename e' = Shapefiles.filename e
        /\ Shapefiles.type e' = Shapefiles.type e
        /\ Shapefiles.crs e' = Shapefiles.crs e
        /\ Shapefiles.zone_id e' = Shapefiles.zone_id e
        /\ Shapefiles.notes e' = Shapefiles.notes e
        /\ (src = None \/ src = Some "" -> Shapefiles.source e' = Shapefiles.source e)
        /\ (verified_date = None \/ verified_date = Some "" ->
            Shapefiles.date_verified e' = Shapefiles.date_verified e)
        /\ (area_km2 = None \/ area_km2 = Some (Float.Fin 0) ->
            Shapefiles.area_km2_verified e' = Shapefiles.area_km2_verified e)
  end.
Proof.
  unfold Shapefiles.update_shapefile_status.
  destruct (Shapefiles.lookup register name) as [e|] eqn:El.
  - exists e. split; [reflexivity|].
    assert (Hin : In name (map fst register)).
    { destruct (in_dec string_dec name (map fst register)) as [H|H]; [assumption|].
      apply lookup_in_keys in H. congruence. }
    split; [now apply lookup_store_same|].
    split; [apply store_keys|].
    split; [intros other Hne; now apply lookup_store_other|].
    repeat (split; [reflexivity|]).
    split; [|split].
    + intros [-> | ->]; reflexivity.
    + intros [-> | ->]; reflexivity.
    + intros [-> | ->]; reflexivity.
  - split; [reflexivity|]. now apply lookup_in_keys.
Qed.

Lemma count_of_bump (s s' : string) (statuses : list (string * nat)) :
  count_of s (Shapefiles.bump s' statuses)
  = (count_of s statuses + (if String.eqb s' s then 1 else 0))%nat.
Proof.
  induction statuses as [|[k n] rest IH]; simpl.
  - destruct (String.eqb s' s); reflexivity.
  - destruct (String.eqb k s') eqn:E; simpl.
    + apply String.eqb_eq in E. subst k.
      destruct (String.eqb s' s); lia.
    + destruct (String.eqb k s) eqn:E'; [|exact IH].
      apply String.eqb_eq in E'. subst k. rewrite String.eqb_sym, E. lia.
Qed.

Lemma bump_keys (s : string) (statuses : list (string * nat)) :
  NoDup (map fst statuses) ->
  NoDup (map fst (Shapefiles.bump s statuses))
  /\ forall k, In k (map fst (Shapefiles.bump s statuses))
               <-> k = s \/ In k (map fst statuses).
Proof.
  induction statuses as [|[k0 n] rest IH]; simpl; intros Hnd.
  - split; [repeat constructor; intros [] | intros k; intuition].
  - inversion Hnd as [|? ? Hnotin Hrest]; subst.
    destruct (String.eqb k0 s) eqn:E; simpl.
    + apply String.eqb_eq in E. subst k0. split; [assumption|].
      intros k. intuition.
    + destruct (IH Hrest) as [IH1 IH2]. split.
      * constructor; [|assumption]. rewrite IH2. intros [->|H]; [|contradiction].
        rewrite String.eqb_refl in E. discriminate.
      * intros k. rewrite IH2. intuition.
Qed.

Lemma bump_sum (s : string) (statuses : list (string * nat)) :
  list_sum (map snd (Shapefiles.bump s statuses))
  = S (list_sum (map snd statuses)).
Proof.
  induction statuses as [|[k n] rest IH]; simpl; [reflexivity|].
  destruct (String.eqb k s); simpl; [lia | rewrite IH; lia].
Qed.

Lemma status_counts_fold (register : Shapefiles.Register)
    (acc : list (string * nat)) :
  NoDup (map fst acc) ->
  let counts := fold_left (fun statuses ke =>
                             Shapefiles.bump (Shapefiles.status (snd ke)) statuses)
                          register acc in
  NoDup (map fst counts)
  /\ (forall s, count_of s counts = (count_of s acc + with_status s register)%nat)
  /\ list_sum (map snd counts)
     = (list_sum (map snd acc) + List.length register)%nat.
Proof.
  revert acc; induction register as [|[k e] rest IH]; intros acc Hnd; simpl.
  - split; [assumption|]. split; [intros s; unfold with_status; simpl; lia | lia].
  - destruct (bump_keys (Shapefiles.status e) acc Hnd) as [Hnd' _].
    destruct (IH _ Hnd') as (H1 & H2 & H3). split; [assumption|]. split.
    + intros s. rewrite H2, count_of_bump. unfold with_status. simpl.
      destruct (String.eqb (Shapefiles.status e) s); simpl; lia.
    + rewrite H3, bump_sum. lia.
Qed.

(** X21.  The status summary counts every entry exactly once: each
    status is listed once with the number of entries that have it, the
    counts add up to the total, which is the size of the register; the
    register is reported as verified exactly when every entry is
    AUTHORITATIVE, and then nothing is pending. *)
Theorem register_status_counts (register : Shapefiles.Register) :
  let summary := Shapefiles.get_register_status register in
  Shapefiles.total_shapefiles summary = List.length register
  /\ NoDup (map fst (Shapefiles.status_counts summary))
  /\ (forall s, count_of s (Shapefiles.status_counts summary)
                = with_status s register)
  /\ list_sum (map snd (Shapefiles.status_counts summary))
     = Shapefiles.total_shapefiles summary
  /\ (Shapefiles.all_verified summary = true
      <-> forall name e, In (name, e) register ->
                         Shapefiles.status e = "AUTHORITATIVE")
  /\ (Shapefiles.all_verified summary = true ->
      Shapefiles.pending_sra_input summary = []).
Proof.
  cbn [Shapefiles.get_register_status Shapefiles.total_shapefiles
       Shapefiles.status_counts Shapefiles.all_verified
       Shapefiles.pending_sra_input].
  destruct (status_counts_fold register [] (NoDup_nil _)) as (H1 & H2 & H3).
  split; [reflexivity|]. split; [exact H1|]. split; [exact H2|].
  split; [exact H3|]. split.
  - rewrite forallb_forall. split.
    + intros H name e Hin. apply String.eqb_eq. apply (H (name, e) Hin).
    + intros H [name e] Hin. apply String.eqb_eq. simpl. now apply (H name).
  - intros H. rewrite forallb_forall in H.
    rewrite (filter_nil _ register); [reflexivity|].
    intros [name e] Hin. specialize (H _ Hin). simpl in H.
    apply String.eqb_eq in H. unfold Shapefiles.is_pending. simpl. now rewrite H.
Qed.

Lemma pending_without (name : string) (register : Shapefiles.Register) :
  ~ In name (map fst register) ->
  filter (fun n => negb (String.eqb n name))
         (map fst (filter (fun ke => Shapefiles.is_pending (snd ke)) register))
  = map fst (filter (fun ke => Shapefiles.is_pending (snd ke)) register).
Proof.
  intros Hnot. apply filter_all. intros n Hn.
  apply in_map_iff in Hn as ([k e] & <- & Hin). apply filter_In in Hin as [Hin _].
  simpl. destruct (String.eqb k name) eqn:E; [|reflexivity].
  apply String.eqb_eq in E. subst k. elim Hnot.
  apply in_map_iff. now exists (name, e).
Qed.

Lemma pending_store (register : Shapefiles.Register) (name : string)
    (e : Shapefiles.Entry) :
  NoDup (map fst register) ->
  Shapefiles.is_pending e = false ->
  map fst (filter (fun ke => Shapefiles.is_pending (snd ke))
                  (Shapefiles.store register name e))
  = filter (fun n => negb (String.eqb n name))
           (map fst (filter (fun ke => Shapefiles.is_pending (snd ke)) register)).
Proof.
  intros Hnd He. induction register as [|[k e0] rest IH]; simpl; [reflexivity|].
  inversion Hnd as [|? ? Hnotin Hrest]; subst.
  destruct (String.eqb k name) eqn:E; simpl.
  - apply String.eqb_eq in E. subst k. rewrite He.
    destruct (Shapefiles.is_pending e0); simpl.
    + rewrite String.eqb_refl. simpl. symmetry. now apply pending_without.
    + symmetry. now apply pending_without.
  - destruct (Shapefiles.is_pending e0); simpl.
    + rewrite E. simpl. f_equal. now apply IH.
    + now apply IH.
Qed.

(** X22.  In a register with distinct names, giving a shapefile a status
    other than PLACEHOLDER and PENDING takes exactly that name off the
    list of pending shapefiles of the status summary, keeps the others in
    order, and leaves the total unchanged. *)
Theorem update_clears_pending (register register' : Shapefiles.Register)
    (name new_status : string) (src verified_date : option string)
    (area_km2 : option Float.t) (e' : Shapefiles.Entry) :
  NoDup (map fst register) ->
  mem new_status ["PLACEHOLDER"; "PENDING"] = false ->
  Shapefiles.update_shapefile_status register name new_status src verified_date
    area_km2 = Shapefiles.Updated e' register' ->
  Shapefiles.pending_sra_input (Shapefiles.get_register_status register')
  = filter (fun n => negb (String.eqb n name))
           (Shapefiles.pending_sra_input (Shapefiles.get_register_status register))
  /\ ~ In name (Shapefiles.pending_sra_input
                  (Shapefiles.get_register_status register'))
  /\ Shapefiles.total_shapefiles (Shapefiles.get_register_status register')
     = Shapefiles.total_shapefiles (Shapefiles.get_register_status register).
Proof.
  intros Hnd Hst. unfold Shapefiles.update_shapefile_status.
  destruct (Shapefiles.lookup register name) as [e|]; [|discriminate].
  intros [= <- <-].
  cbn [Shapefiles.get_register_status Shapefiles.pending_sra_input
       Shapefiles.total_shapefiles].
  assert (Hp : map fst (filter (fun ke => Shapefiles.is_pending (snd ke))
                 (Shapefiles.store register name
                    (Shapefiles.updated e new_status src verified_date area_km2)))
               = filter (fun n => negb (String.eqb n name))
                   (map fst (filter (fun ke => Shapefiles.is_pending (snd ke))
                                    register))).
  { apply pending_store; [assumption|]. exact Hst. }
  split; [exact Hp|]. split.
  - rewrite Hp. intros Hin. apply filter_In in Hin as [_ Hin].
    rewrite String.eqb_refl in Hin. discriminate.
  - rewrite <- (length_map fst), store_keys, length_map. reflexivity.
Qed.

Lemma update_clears_pending_witness :
  exists e' register',
    Shapefiles.update_shapefile_status Shapefiles.SHAPEFILE_REGISTER
      "ihefu_swamp_core" "AUTHORITATIVE" (Some "Ramsar") (Some "2026-03-01") None
    = Shapefiles.Updated e' register'
    /\ Shapefiles.pending_sra_input (Shapefiles.get_register_status register')
       = ["usangu_game_reserve"; "nyerere_np_boundary"; "great_ruaha_river";
          "rufiji_river"; "six_rivers_study_zones"].
Proof.
  eexists. eexists. split; [reflexivity|].
  match goal with
  | |- Shapefiles.pending_sra_input (Shapefiles.get_register_status ?r) = _ =>
      destruct (update_clears_pending Shapefiles.SHAPEFILE_REGISTER r
                  "ihefu_swamp_core" "AUTHORITATIVE" (Some "Ramsar")
                  (Some "2026-03-01") None
                  (Shapefiles.updated
                     {| Shapefiles.filename := "ihefu_swamp_core.shp";
                        Shapefiles.type := "Polygon";
                        Shapefiles.crs := "EPSG:4326";
                        Shapefiles.source := "Wetlands International / Ramsar";
                        Shapefiles.status := "PLACEHOLDER";
                        Shapefiles.zone_id := Some "zone_1_ihefu";
                        Shapefiles.wdpa_id := None;
                        Shapefiles.area_km2_indicative := Some 350%Z;
                        Shapefiles.date_added := "2026-02-01";
                        Shapefiles.date_verified := None;
                        Shapefiles.notes :=
                          "Highest sensitivity zone — MODERATE alerts escalate to HIGH";
                        Shapefiles.area_km2_verified := None |}
                     "AUTHORITATIVE" (Some "Ramsar") (Some "2026-03-01") None))
        as (H & _)
  end.
  - simpl. repeat constructor; simpl; intuition discriminate.
  - reflexivity.
  - reflexivity.
  - rewrite H. reflexivity.
Defined.
